(** * LMS_Extension: the estimation-and-normalization pipeline

    A shallow embedding of the extension's logic
    ([TimeEstimator], [CanvasAPI.getUpcomingAssignments],
    [refreshAssignmentsInBackground]) together with the properties the
    design document states about it.

    Conventions of the embedding.
    - A JavaScript value is a [value]; an object is the finite map of its own
      properties ([gmap string value]); a missing property reads as
      [VUndefined].
    - A JavaScript number is a [number]: NaN, the two infinities, or a finite
      value.  Finite values are carried as exact rationals, so the rounding of
      IEEE doubles is idealised away; NaN and the infinities behave as in the
      language.
    - A string is a [string] of one-byte characters.  [toLowerCase] folds
      A..Z only and [\s] is the ASCII white space; none of the key words the
      code looks for contains a character outside ASCII.
    - A call that can throw returns a [result]; [try]/[catch] is [try_catch].
    - The browser and the network are a [World] that is threaded through the
      asynchronous methods in program order. *)

From Stdlib Require Import ZArith QArith Qround Lia Ascii.
From stdpp Require Import base option gmap strings list sorting pretty.

#[local] Set Warnings "-register-all".
#[local] Open Scope Z_scope.
#[local] Open Scope stdpp_scope.

(** ** JavaScript values *)

Module JS.

Inductive number : Type :=
  | NaN
  | Infinity (negative : bool)
  | Finite (q : Q).

Inductive value : Type :=
  | VUndefined
  | VNull
  | VBool (b : bool)
  | VNum (n : number)
  | VStr (s : string)
  | VArr (elems : list value)
  | VObj (props : gmap string value).

(** Own properties of an object; the type of [assignment], of [settings]
    and of the storage areas. *)
Abbreviation obj := (gmap string value).

Inductive exn : Type :=
  | TypeError (msg : string)
  | SyntaxError (msg : string)
  | Error (msg : string).

Inductive result (A : Type) : Type :=
  | Ok (a : A)
  | Throw (e : exn).
Arguments Ok {A} a.
Arguments Throw {A} e.

#[export] Instance result_ret : MRet result := fun A a => Ok a.
#[export] Instance result_bind : MBind result := fun A B f m =>
  match m with
  | Ok a => f a
  | Throw e => Throw e
  end.

(** [try { body } catch (e) { handler e }] *)
Definition try_catch {A} (body : result A) (handler : exn -> result A) : result A :=
  match body with
  | Ok a => Ok a
  | Throw e => handler e
  end.

Definition is_ok {A} (r : result A) : bool :=
  match r with Ok _ => true | Throw _ => false end.

(** *** Numbers *)

Definition num (z : Z) : number := Finite (inject_Z z).

Definition is_NaN (n : number) : bool :=
  match n with NaN => true | _ => false end.

Definition num_add (a b : number) : number :=
  match a, b with
  | NaN, _ | _, NaN => NaN
  | Infinity s, Infinity t => if Bool.eqb s t then Infinity s else NaN
  | Infinity s, Finite _ | Finite _, Infinity s => Infinity s
  | Finite x, Finite y => Finite (x + y)
  end.

Definition num_mul (a b : number) : number :=
  match a, b with
  | NaN, _ | _, NaN => NaN
  | Infinity s, Infinity t => Infinity (xorb s t)
  | Infinity s, Finite y | Finite y, Infinity s =>
      match Qcompare y 0 with
      | Eq => NaN
      | Lt => Infinity (negb s)
      | Gt => Infinity s
      end
  | Finite x, Finite y => Finite (x * y)
  end.

Definition num_sub (a b : number) : number :=
  match a, b with
  | NaN, _ | _, NaN => NaN
  | Infinity s, Infinity t => if Bool.eqb s t then NaN else Infinity s
  | Infinity s, Finite _ => Infinity s
  | Finite _, Infinity s => Infinity (negb s)
  | Finite x, Finite y => Finite (x - y)
  end.

(** [a <= b]; every comparison with NaN is false. *)
Definition num_leb (a b : number) : bool :=
  match a, b with
  | NaN, _ | _, NaN => false
  | Infinity true, _ => true
  | _, Infinity false => true
  | Infinity false, _ => false
  | _, Infinity true => false
  | Finite x, Finite y => Qle_bool x y
  end.

(** [Math.max(a, b)] and [Math.min(a, b)]: NaN if either argument is. *)
Definition Math_max (a b : number) : number :=
  match a, b with
  | NaN, _ | _, NaN => NaN
  | _, _ => if num_leb a b then b else a
  end.

Definition Math_min (a b : number) : number :=
  match a, b with
  | NaN, _ | _, NaN => NaN
  | _, _ => if num_leb a b then a else b
  end.

(** *** Truthiness, [||], property access *)

Definition truthy (v : value) : bool :=
  match v with
  | VUndefined | VNull => false
  | VBool b => b
  | VNum NaN => false
  | VNum (Infinity _) => true
  | VNum (Finite q) => negb (Qeq_bool q 0)
  | VStr s => negb (String.eqb s "")
  | VArr _ | VObj _ => true
  end.

(** [a || b] on values (the right operand is a value already). *)
Definition or_else (a b : value) : value := if truthy a then a else b.

(** [o.k] for an object [o]. *)
Definition get (o : obj) (k : string) : value := default VUndefined (o !! k).

(** [v === 'lit'] against a string literal. *)
Definition is_str (v : value) (lit : string) : bool :=
  match v with VStr s => String.eqb s lit | _ => false end.

(** *** Strings *)

Definition lower_ascii (c : ascii) : ascii :=
  let n := N_of_ascii c in
  if ((65 <=? n) && (n <=? 90))%N then ascii_of_N (n + 32) else c.

Fixpoint toLowerCase (s : string) : string :=
  match s with
  | EmptyString => EmptyString
  | String c r => String (lower_ascii c) (toLowerCase r)
  end.

(** [s.includes(pat)] *)
Fixpoint includes (s pat : string) : bool :=
  String.prefix pat s ||
  match s with
  | EmptyString => false
  | String _ r => includes r pat
  end.

(** [v.toLowerCase()]: only strings have the method. *)
Definition call_toLowerCase (v : value) : result string :=
  match v with
  | VStr s => Ok (toLowerCase s)
  | _ => Throw (TypeError "toLowerCase is not a function")
  end.

(** [arr.includes('lit')] for an array of values and a string literal. *)
Definition array_includes (l : list value) (lit : string) : bool :=
  existsb (fun v => is_str v lit) l.

End JS.
Import JS.

(** ** Regular expressions

    The fragment the code uses: a sequence of atoms, each a character class
    taken once, optionally, or repeated greedily.  Matching backtracks as the
    language's matcher does.  A match is reported as one chunk of text per
    atom, so a capture group is read off the chunks it spans. *)

Module Regex.

Definition cclass := ascii -> bool.

Inductive atom : Type :=
  | One (p : cclass)
  | Opt (p : cclass)
  | Star (p : cclass)
  | Plus (p : cclass).

Definition regex := list atom.

Definition any : cclass := fun _ => true.
Definition chr (c : ascii) : cclass := fun x => Ascii.eqb x c.
Definition not_chr (c : ascii) : cclass := fun x => negb (Ascii.eqb x c).
(** a letter under the [i] flag *)
Definition chr_i (c : ascii) : cclass := fun x => Ascii.eqb (lower_ascii x) (lower_ascii c).
(** [\d] *)
Definition digit : cclass := fun x =>
  let n := N_of_ascii x in ((48 <=? n) && (n <=? 57))%N.
(** [\s], also the characters [trim] removes *)
Definition space : cclass := fun x =>
  let n := N_of_ascii x in ((9 <=? n) && (n <=? 13) || (n =? 32))%N.

Fixpoint lit (s : string) : regex :=
  match s with
  | EmptyString => []
  | String c r => One (chr c) :: lit r
  end.

Fixpoint lit_i (s : string) : regex :=
  match s with
  | EmptyString => []
  | String c r => One (chr_i c) :: lit_i r
  end.

(** put one more character in front of the first chunk *)
Definition push (c : ascii) (chunks : list string) : list string :=
  match chunks with
  | m :: ms => String c m :: ms
  | [] => [String c EmptyString]
  end.

(** [p*] followed by the continuation [k]: the longest run first. *)
Fixpoint star_then (p : cclass) (k : string -> option (list string)) (s : string)
  : option (list string) :=
  match s with
  | String c r =>
      if p c then
        match star_then p k r with
        | Some chunks => Some (push c chunks)
        | None => cons EmptyString <$> k s
        end
      else cons EmptyString <$> k s
  | EmptyString => cons EmptyString <$> k s
  end.

(** match the regex at the start of [s] *)
Fixpoint match_here (r : regex) (s : string) : option (list string) :=
  match r with
  | [] => Some []
  | One p :: r' =>
      match s with
      | String c s' =>
          if p c then cons (String c EmptyString) <$> match_here r' s' else None
      | EmptyString => None
      end
  | Opt p :: r' =>
      match s with
      | String c s' =>
          if p c then
            match match_here r' s' with
            | Some chunks => Some (String c EmptyString :: chunks)
            | None => cons EmptyString <$> match_here r' s
            end
          else cons EmptyString <$> match_here r' s
      | EmptyString => cons EmptyString <$> match_here r' s
      end
  | Star p :: r' => star_then p (match_here r') s
  | Plus p :: r' =>
      match s with
      | String c s' => if p c then push c <$> star_then p (match_here r') s' else None
      | EmptyString => None
      end
  end.

Definition whole (chunks : list string) : string := foldr String.append EmptyString chunks.

(** [s.match(re)] without the [g] flag: the leftmost match, or [None] for
    [null]. *)
Fixpoint String_match (r : regex) (s : string) : option (list string) :=
  match match_here r s with
  | Some chunks => Some chunks
  | None =>
      match s with
      | String _ s' => String_match r s'
      | EmptyString => None
      end
  end.

(** [s.replace(re, rep)] with the [g] flag; [skip] counts the characters of
    the current match still to be dropped. *)
Fixpoint replace_from (r : regex) (rep : string) (s : string) (skip : nat) : string :=
  match skip, s with
  | S k, String _ s' => replace_from r rep s' k
  | S _, EmptyString => EmptyString
  | O, _ =>
      match match_here r s with
      | Some chunks =>
          match String.length (whole chunks), s with
          | O, String c s' => rep +:+ String c (replace_from r rep s' O)
          | S k, String _ s' => rep +:+ replace_from r rep s' k
          | _, EmptyString => rep
          end
      | None =>
          match s with
          | String c s' => String c (replace_from r rep s' O)
          | EmptyString => EmptyString
          end
      end
  end.

Definition String_replace_g (r : regex) (rep : string) (s : string) : string :=
  replace_from r rep s O.

Fixpoint trimStart (s : string) : string :=
  match s with
  | String c r => if space c then trimStart r else s
  | EmptyString => EmptyString
  end.

Fixpoint trimEnd (s : string) : string :=
  match s with
  | String c r =>
      let r' := trimEnd r in
      if space c && String.eqb r' EmptyString then EmptyString else String c r'
  | EmptyString => EmptyString
  end.

(** [s.trim()] *)
Definition trim (s : string) : string := trimEnd (trimStart s).

(** every character of [s] is in the class [p] *)
Fixpoint all_in (p : cclass) (s : string) : bool :=
  match s with
  | EmptyString => true
  | String c r => p c && all_in p r
  end.

(** the texts an atom matches *)
Definition accepts (a : atom) (chunk : string) : Prop :=
  match a with
  | One p => exists c, chunk = String c "" /\ p c = true
  | Opt p => chunk = "" \/ exists c, chunk = String c "" /\ p c = true
  | Star p => all_in p chunk = true
  | Plus p => chunk <> "" /\ all_in p chunk = true
  end.

End Regex.

(** ** [JSON.parse]

    The built-in parser, following the JSON grammar: white space, the three
    literals, numbers, strings with their escapes, arrays and objects (a
    repeated key keeps its last value).  A number literal denotes its exact
    decimal value.  [None] stands for the [SyntaxError] the built-in throws. *)

Module JSON.

Definition is_ws (c : ascii) : bool :=
  let n := N_of_ascii c in ((n =? 32) || (n =? 9) || (n =? 10) || (n =? 13))%N.

Fixpoint skip_ws (s : string) : string :=
  match s with
  | String c r => if is_ws c then skip_ws r else s
  | EmptyString => EmptyString
  end.

Definition digit_val (c : ascii) : option Z :=
  let n := N_of_ascii c in
  if ((48 <=? n) && (n <=? 57))%N then Some (Z.of_N n - 48) else None.

Definition hex_val (c : ascii) : option Z :=
  let n := Z.of_N (N_of_ascii c) in
  if (48 <=? n) && (n <=? 57) then Some (n - 48)
  else if (65 <=? n) && (n <=? 70) then Some (n - 55)
  else if (97 <=? n) && (n <=? 102) then Some (n - 87)
  else None.

(** the digits [s] starts with, and what follows them *)
Fixpoint take_digits (s : string) : list Z * string :=
  match s with
  | String c r =>
      match digit_val c with
      | Some d => let '(ds, rest) := take_digits r in (d :: ds, rest)
      | None => ([], s)
      end
  | EmptyString => ([], EmptyString)
  end.

Definition digits_to_Z (ds : list Z) : Z := fold_left (fun acc d => acc * 10 + d) ds 0.

(** [m * 10^e] *)
Definition scale10 (m e : Z) : Q :=
  match e with
  | Zneg p => Qmake m (Pos.pow 10 p)
  | _ => inject_Z (m * 10 ^ e)
  end.

Definition parse_int_part (s : string) : option (list Z * string) :=
  match s with
  | String "0" r => Some ([0], r)
  | _ => match take_digits s with
         | ([], _) => None
         | (ds, r) => Some (ds, r)
         end
  end.

Definition parse_frac_part (s : string) : option (list Z * string) :=
  match s with
  | String "." r =>
      match take_digits r with
      | ([], _) => None
      | (ds, r') => Some (ds, r')
      end
  | _ => Some ([], s)
  end.

Definition parse_exp_part (s : string) : option (Z * string) :=
  match s with
  | String c r =>
      if Ascii.eqb c "e" || Ascii.eqb c "E" then
        let '(sign, r1) :=
          match r with
          | String "-" r' => (-1, r')
          | String "+" r' => (1, r')
          | _ => (1, r)
          end in
        match take_digits r1 with
        | ([], _) => None
        | (ds, r2) => Some (sign * digits_to_Z ds, r2)
        end
      else Some (0, s)
  | EmptyString => Some (0, s)
  end.

Definition parse_number (s : string) : option (number * string) :=
  let '(sign, s1) := match s with String "-" r => (-1, r) | _ => (1, s) end in
  '(ints, s2) ← parse_int_part s1;
  '(fracs, s3) ← parse_frac_part s2;
  '(e, s4) ← parse_exp_part s3;
  let m := sign * digits_to_Z (ints ++ fracs) in
  Some (Finite (scale10 m (e - Z.of_nat (length fracs))), s4).

Definition byte (n : Z) : ascii := ascii_of_N (Z.to_N n).

(** the UTF-8 bytes of a [\uXXXX] code unit *)
Definition encode_unit (n : Z) : list ascii :=
  if n <? 128 then [byte n]
  else if n <? 2048 then [byte (192 + n / 64); byte (128 + n mod 64)]
  else [byte (224 + n / 4096); byte (128 + (n / 64) mod 64); byte (128 + n mod 64)].

Definition parse_hex4 (s : string) : option (Z * string) :=
  match s with
  | String a (String b (String c (String d r))) =>
      x ← hex_val a; y ← hex_val b; z ← hex_val c; w ← hex_val d;
      Some (((x * 16 + y) * 16 + z) * 16 + w, r)
  | _ => None
  end.

Definition prepend (cs : list ascii) (p : option (string * string)) : option (string * string) :=
  '(body, rest) ← p; Some (foldr String body cs, rest).

(** the characters of a string literal after its opening quote; the
    recursion is on [fuel], at least the length of the input *)
Fixpoint parse_string_body (fuel : nat) (s : string) : option (string * string) :=
  match fuel with
  | O => None
  | S f =>
      match s with
      | EmptyString => None
      | String c r =>
          if Ascii.eqb c (ascii_of_N 34) then Some (EmptyString, r)
          else if Ascii.eqb c (ascii_of_N 92) then
            match r with
            | String e r' =>
                if Ascii.eqb e (ascii_of_N 34) then prepend [e] (parse_string_body f r')
                else if Ascii.eqb e (ascii_of_N 92) then prepend [e] (parse_string_body f r')
                else if Ascii.eqb e "/" then prepend [e] (parse_string_body f r')
                else if Ascii.eqb e "b" then prepend [byte 8] (parse_string_body f r')
                else if Ascii.eqb e "f" then prepend [byte 12] (parse_string_body f r')
                else if Ascii.eqb e "n" then prepend [byte 10] (parse_string_body f r')
                else if Ascii.eqb e "r" then prepend [byte 13] (parse_string_body f r')
                else if Ascii.eqb e "t" then prepend [byte 9] (parse_string_body f r')
                else if Ascii.eqb e "u" then
                  '(n, r'') ← parse_hex4 r';
                  prepend (encode_unit n) (parse_string_body f r'')
                else None
            | EmptyString => None
            end
          else if (N_of_ascii c <? 32)%N then None
          else prepend [c] (parse_string_body f r)
      end
  end.

Definition parse_string (s : string) : option (string * string) :=
  parse_string_body (S (String.length s)) s.

Definition expect (lit : string) (v : value) (s : string) : option (value * string) :=
  if String.prefix lit s
  then Some (v, String.substring (String.length lit) (String.length s - String.length lit) s)
  else None.

Fixpoint parse_value (fuel : nat) (s : string) : option (value * string) :=
  match fuel with
  | O => None
  | S f =>
      match skip_ws s with
      | EmptyString => None
      | String c r as s0 =>
          if Ascii.eqb c "{" then
            match skip_ws r with
            | String "}" r' => Some (VObj ∅, r')
            | r' => parse_members f ∅ r'
            end
          else if Ascii.eqb c "[" then
            match skip_ws r with
            | String "]" r' => Some (VArr [], r')
            | r' => parse_elements f [] r'
            end
          else if Ascii.eqb c (ascii_of_N 34) then
            '(str, r') ← parse_string r; Some (VStr str, r')
          else if Ascii.eqb c "t" then expect "true" (VBool true) s0
          else if Ascii.eqb c "f" then expect "false" (VBool false) s0
          else if Ascii.eqb c "n" then expect "null" VNull s0
          else '(n, r') ← parse_number s0; Some (VNum n, r')
      end
  end
with parse_elements (fuel : nat) (acc : list value) (s : string) : option (value * string) :=
  match fuel with
  | O => None
  | S f =>
      '(v, r) ← parse_value f s;
      match skip_ws r with
      | String "," r' => parse_elements f (acc ++ [v]) r'
      | String "]" r' => Some (VArr (acc ++ [v]), r')
      | _ => None
      end
  end
with parse_members (fuel : nat) (acc : obj) (s : string) : option (value * string) :=
  match fuel with
  | O => None
  | S f =>
      match skip_ws s with
      | String c r =>
          if Ascii.eqb c (ascii_of_N 34) then
            '(key, r1) ← parse_string r;
            match skip_ws r1 with
            | String ":" r2 =>
                '(v, r3) ← parse_value f r2;
                match skip_ws r3 with
                | String "," r4 => parse_members f (<[key := v]> acc) r4
                | String "}" r4 => Some (VObj (<[key := v]> acc), r4)
                | _ => None
                end
            | _ => None
            end
          else None
      | EmptyString => None
      end
  end.

(** [JSON.parse(text)] for a string [text] *)
Definition parse (text : string) : result value :=
  match parse_value (2 * String.length text + 2) text with
  | Some (v, rest) =>
      match skip_ws rest with
      | EmptyString => Ok v
      | _ => Throw (SyntaxError "Unexpected non-whitespace character after JSON")
      end
  | None => Throw (SyntaxError "Unexpected token in JSON")
  end.

End JSON.

(** ** The rest of the language runtime

    Some built-ins are left abstract: the decimal rendering of a finite
    number, the parsing and printing of dates, and the escaping of query
    strings. *)

Class Builtins : Type := {
  (** [String(x)] for a finite number [x] *)
  Number_toString : Q -> string;
  (** [Date.parse(s)] in milliseconds; [None] stands for NaN *)
  Date_parse : string -> option Z;
  (** [new Date(t).toISOString()] *)
  Date_toISOString : Z -> string;
  (** the calendar steps of [getEndOfWeek] in the local time zone: the last
      millisecond of the Sunday that follows the instant [t] *)
  Date_endOfWeek : Z -> Z;
  (** how [URLSearchParams] escapes a value *)
  URLSearchParams_escape : string -> string;
  (** the number a string converts to, as in ["7" * 2] *)
  StringToNumber : string -> number;
}.

Module Runtime.
Section WithBuiltins.
Context `{Builtins}.

Definition nullish (v : value) : bool :=
  match v with VUndefined | VNull => true | _ => false end.

Definition number_toString (n : number) : string :=
  match n with
  | NaN => "NaN"
  | Infinity false => "Infinity"
  | Infinity true => "-Infinity"
  | Finite q => Number_toString q
  end.

(** [String(v)], the conversion a template literal applies *)
Fixpoint toString (v : value) : string :=
  match v with
  | VUndefined => "undefined"
  | VNull => "null"
  | VBool true => "true"
  | VBool false => "false"
  | VNum n => number_toString n
  | VStr s => s
  | VArr l => String.concat "," (map (fun e => if nullish e then "" else toString e) l)
  | VObj _ => "[object Object]"
  end.

(** [arr.join(sep)] *)
Definition array_join (sep : string) (l : list value) : string :=
  String.concat sep (map (fun e => if nullish e then "" else toString e) l).

(** [v.k] for a property name that no prototype defines *)
Definition member (v : value) (k : string) : result value :=
  match v with
  | VUndefined | VNull => Throw (TypeError ("Cannot read properties of " +:+ toString v))
  | VObj o => Ok (get o k)
  | _ => Ok VUndefined
  end.

(** [v?.k] *)
Definition opt_member (v : value) (k : string) : value :=
  match v with
  | VObj o => get o k
  | _ => VUndefined
  end.

(** [v[0]] *)
Definition first_elem (v : value) : result value :=
  match v with
  | VUndefined | VNull => Throw (TypeError ("Cannot read properties of " +:+ toString v))
  | VObj o => Ok (get o "0")
  | VArr l => Ok (default VUndefined (head l))
  | VStr (String c _) => Ok (VStr (String c EmptyString))
  | _ => Ok VUndefined
  end.

(** [v.match(re)]: only strings have the method *)
Definition call_match (re : Regex.regex) (v : value) : result (option (list string)) :=
  match v with
  | VStr s => Ok (Regex.String_match re s)
  | _ => Throw (TypeError "match is not a function")
  end.

(** [parseInt(s)] in base ten, or sixteen after [0x] *)
Definition parseInt (s : string) : number :=
  let s := Regex.trimStart s in
  let '(sign, s) :=
    match s with
    | String "-" r => (-1, r)
    | String "+" r => (1, r)
    | _ => (1, s)
    end in
  if String.prefix "0x" s || String.prefix "0X" s then
    (fix hex (acc : option Z) (r : string) : number :=
       match r with
       | String c r' =>
           match JSON.hex_val c with
           | Some d => hex (Some (default 0 acc * 16 + d)) r'
           | None => from_option (fun z => num (sign * z)) NaN acc
           end
       | EmptyString => from_option (fun z => num (sign * z)) NaN acc
       end) None (String.substring 2 (String.length s - 2) s)
  else
    match JSON.take_digits s with
    | ([], _) => NaN
    | (ds, _) => num (sign * JSON.digits_to_Z ds)
    end.

(** [Number(v)], the conversion the arithmetic operators apply *)
Definition ToNumber (v : value) : number :=
  match v with
  | VUndefined => NaN
  | VNull => num 0
  | VBool b => num (if b then 1 else 0)
  | VNum n => n
  | VStr s => StringToNumber s
  | VArr _ | VObj _ => StringToNumber (toString v)
  end.

(** [JSON.parse(v)]: the argument is converted to a string first *)
Definition JSON_parse (v : value) : result value := JSON.parse (toString v).

End WithBuiltins.
End Runtime.
Import Runtime.

(** ** More of the arithmetic

    The operators the formatting and caching code applies.  A division or a
    remainder is by a positive literal; zero has no sign. *)

Module Arithmetic.

(** [a < b]; every comparison with NaN is false. *)
Definition num_ltb (a b : number) : bool :=
  match a, b with
  | NaN, _ | _, NaN => false
  | Infinity true, Infinity true => false
  | Infinity true, _ => true
  | _, Infinity true => false
  | Infinity false, _ => false
  | _, Infinity false => true
  | Finite x, Finite y => negb (Qle_bool y x)
  end.

(** [a / d] for a literal [d > 0] *)
Definition div_by (d : positive) (a : number) : number :=
  match a with
  | Finite x => Finite (x / inject_Z (Zpos d))
  | _ => a
  end.

(** [a % d] for a literal [d > 0]: the sign is the dividend's *)
Definition rem_by (d : positive) (a : number) : number :=
  match a with
  | Finite x =>
      let t := Z.quot (Qnum x) (Zpos (Qden x) * Zpos d) in
      Finite (Qred (x - inject_Z (t * Zpos d)))
  | _ => NaN
  end.

(** [Math.floor(a)] *)
Definition Math_floor (a : number) : number :=
  match a with
  | Finite x => Finite (inject_Z (Qfloor x))
  | _ => a
  end.

(** [a === z] for a number [a] and an integer literal [z] *)
Definition num_is (a : number) (z : Z) : bool :=
  match a with
  | Finite x => Qeq_bool x (inject_Z z)
  | _ => false
  end.

Section WithBuiltins.
Context `{Builtins}.

(** [a + b] on values: concatenation as soon as an operand is, or converts
    to, a string *)
Definition js_add (a b : value) : value :=
  match a, b with
  | (VStr _ | VArr _ | VObj _), _ | _, (VStr _ | VArr _ | VObj _) =>
      VStr (toString a +:+ toString b)
  | _, _ => VNum (num_add (ToNumber a) (ToNumber b))
  end.

End WithBuiltins.
End Arithmetic.
Import Arithmetic.

(** ** The browser: storage areas, network, clock

    Every effect is recorded in [trace], the latest first; the network and
    the clock answer by the number of effects that came before, so the same
    request may be answered differently each time. *)

Module Browser.

Record Request := {
  url : string;
  method : string;
  headers : list (string * string);
  (** the value handed to [JSON.stringify], if the request has a body *)
  body : option value;
}.

Inductive HttpOutcome : Type :=
  | NetworkError (e : exn)
  | Responds (status : Z) (text : string).

Record Response := { status : Z; text : string }.

(** [response.ok] *)
Definition ok (r : Response) : bool := (200 <=? status r) && (status r <=? 299).

Inductive Event : Type :=
  | ESyncGet (keys : list string)
  | ELocalGet (keys : list string)
  | ELocalSet (items : obj)
  | EFetch (req : Request)
  | ENow
  | ENotify (options : obj).

Record World := {
  sync_area : obj;
  local_area : obj;
  network : nat -> Request -> HttpOutcome;
  clock : nat -> Z;
  trace : list Event;
}.

Definition record (e : Event) (w : World) : World :=
  {| sync_area := sync_area w; local_area := local_area w;
     network := network w; clock := clock w; trace := e :: trace w |}.

Definition write_local (items : obj) (w : World) : World :=
  {| sync_area := sync_area w; local_area := items ∪ local_area w;
     network := network w; clock := clock w; trace := trace w |}.

(** A computation over state [S] that may throw. *)
Definition M (S A : Type) : Type := S -> result A * S.

Definition ret {S A} (a : A) : M S A := fun s => (Ok a, s).

Definition bind {S A B} (m : M S A) (f : A -> M S B) : M S B := fun s =>
  match m s with
  | (Ok a, s') => f a s'
  | (Throw e, s') => (Throw e, s')
  end.

Definition throw {S A} (e : exn) : M S A := fun s => (Throw e, s).

(** a pure step that may throw *)
Definition lift {S A} (r : result A) : M S A := fun s => (r, s).

(** [try { body } catch (e) { handler e }] *)
Definition try_catchM {S A} (body : M S A) (handler : exn -> M S A) : M S A := fun s =>
  match body s with
  | (Ok a, s') => (Ok a, s')
  | (Throw e, s') => handler e s'
  end.

(** the properties [keys] of a storage area *)
Definition pick (keys : list string) (area : obj) : obj :=
  list_to_map (omap (fun k => pair k <$> area !! k) keys).

(** an effect of the browser, inside a method of an instance with fields [S] *)
Definition on_world {S A} (m : M World A) : M (S * World) A := fun s =>
  let '(r, w) := m s.2 in (r, (s.1, w)).

(** the fields of [this] *)
Definition this {S} : M (S * World) S := fun s => (Ok s.1, s).

Definition update {S} (f : S -> S) : M (S * World) unit := fun s =>
  (Ok tt, (f s.1, s.2)).

(** [const x = new C(); ... x.method() ...] for a local instance *)
Definition with_instance {S A} (init : S) (m : M (S * World) A) : M World A := fun w =>
  let '(r, s) := m (init, w) in (r, s.2).

(** [chrome.storage.sync.get(keys)] *)
Definition storage_sync_get (keys : list string) : M World obj := fun w =>
  (Ok (pick keys (sync_area w)), record (ESyncGet keys) w).

(** [chrome.storage.local.get(keys)] *)
Definition storage_local_get (keys : list string) : M World obj := fun w =>
  (Ok (pick keys (local_area w)), record (ELocalGet keys) w).

(** [chrome.storage.local.set(items)] *)
Definition storage_local_set (items : obj) : M World unit := fun w =>
  (Ok tt, record (ELocalSet items) (write_local items w)).

(** [fetch(url, init)] *)
Definition fetch (req : Request) : M World Response := fun w =>
  match network w (length (trace w)) req with
  | NetworkError e => (Throw e, record (EFetch req) w)
  | Responds st body => (Ok {| status := st; text := body |}, record (EFetch req) w)
  end.

(** [Date.now()] *)
Definition Date_now : M World Z := fun w =>
  (Ok (clock w (length (trace w))), record ENow w).

(** [chrome.notifications.create(options)] *)
Definition notifications_create (options : obj) : M World unit := fun w =>
  (Ok tt, record (ENotify options) w).

(** [response.json()] *)
Definition json (r : Response) : result value := JSON.parse (text r).

(** the requests issued, the earliest first *)
Definition fetches (w : World) : list Request :=
  omap (fun e => match e with EFetch r => Some r | _ => None end) (rev (trace w)).

(** the items written to the local area, the earliest first *)
Definition local_writes (w : World) : list obj :=
  omap (fun e => match e with ELocalSet i => Some i | _ => None end) (rev (trace w)).

End Browser.
Import Browser.

Notation "x <- m ;; k" := (bind m (fun x => k))
  (at level 100, m at next level, right associativity, only parsing).
Notation "m ;;; k" := (bind m (fun _ => k))
  (at level 100, right associativity, only parsing).

(** ** The heuristic scorer (time-estimator.ts) *)

Module TimeEstimator.

Record Rule := { base : Z; perPoint : Z }.

(** [this.defaultEstimates] *)
Definition defaultEstimates : gmap string Rule :=
  <["quiz" := {| base := 30; perPoint := 1 |}]>
  (<["discussion" := {| base := 45; perPoint := 2 |}]>
  (<["assignment" := {| base := 60; perPoint := 3 |}]>
  (<["essay" := {| base := 120; perPoint := 5 |}]>
  (<["project" := {| base := 180; perPoint := 8 |}]>
  (<["exam" := {| base := 90; perPoint := 2 |}]>
  (<["reading" := {| base := 30; perPoint := 1 |}]>
  (<["default" := {| base := 60; perPoint := 2 |}]> ∅))))))).

(** [this.defaultEstimates.default] *)
Definition defaultRule : Rule := {| base := 60; perPoint := 2 |}.

(** [categorizeAssignment(assignment)] *)
Definition categorizeAssignment (assignment : obj) : result string :=
  title ← call_toLowerCase (or_else (get assignment "title") (VStr ""));
  type ← call_toLowerCase (or_else (get assignment "type") (VStr ""));
  if String.eqb type "quiz" || includes title "quiz" then Ok "quiz"
  else if String.eqb type "discussion" || includes title "discussion" then Ok "discussion"
  else if includes title "essay" || includes title "paper" then Ok "essay"
  else if includes title "project" || includes title "presentation" then Ok "project"
  else if includes title "exam" || includes title "test"
          || includes title "midterm" || includes title "final" then Ok "exam"
  else if includes title "reading" || includes title "read" then Ok "reading"
  else Ok "assignment".

(** [this.defaultEstimates[type] || this.defaultEstimates.default], with a
    flag telling whether the right operand of [||] was taken. *)
Definition lookupRule (type : string) : Rule * bool :=
  match defaultEstimates !! type with
  | Some r => (r, false)
  | None => (defaultRule, true)
  end.

(** [getHeuristicEstimate(assignment)] *)
Definition getHeuristicEstimate (assignment : obj) : result number :=
  type ← categorizeAssignment assignment;
  let rules := (lookupRule type).1 in
  let minutes := num (base rules) in
  let minutes :=
    match get assignment "pointsPossible" with
    | VNum p => num_add minutes (num_mul p (num (perPoint rules)))
    | _ => minutes
    end in
  let minutes :=
    match get assignment "submissionTypes" with
    | VArr types =>
        let minutes :=
          if array_includes types "online_upload"
          then num_add minutes (num 15) else minutes in
        if array_includes types "media_recording"
        then num_add minutes (num 30) else minutes
    | _ => minutes
    end in
  Ok (Math_min (Math_max minutes (num 15)) (num 480)).

(** *** The instance and its asynchronous methods *)

(** the fields of [this] *)
Record Estimator := {
  aiProvider : value;
  apiKey : value;
  model : value;
  localLlmUrl : value;
  localLlmModel : value;
}.

(** [new TimeEstimator()] *)
Definition new_TimeEstimator : Estimator :=
  {| aiProvider := VNull; apiKey := VNull; model := VStr "gpt-3.5-turbo";
     localLlmUrl := VStr "http://localhost:11434";
     localLlmModel := VStr "qwen2.5-coder:1.5b" |}.

Definition set_aiProvider (v : value) (e : Estimator) : Estimator :=
  {| aiProvider := v; apiKey := apiKey e; model := model e;
     localLlmUrl := localLlmUrl e; localLlmModel := localLlmModel e |}.
Definition set_apiKey (v : value) (e : Estimator) : Estimator :=
  {| aiProvider := aiProvider e; apiKey := v; model := model e;
     localLlmUrl := localLlmUrl e; localLlmModel := localLlmModel e |}.
Definition set_model (v : value) (e : Estimator) : Estimator :=
  {| aiProvider := aiProvider e; apiKey := apiKey e; model := v;
     localLlmUrl := localLlmUrl e; localLlmModel := localLlmModel e |}.
Definition set_localLlmUrl (v : value) (e : Estimator) : Estimator :=
  {| aiProvider := aiProvider e; apiKey := apiKey e; model := model e;
     localLlmUrl := v; localLlmModel := localLlmModel e |}.
Definition set_localLlmModel (v : value) (e : Estimator) : Estimator :=
  {| aiProvider := aiProvider e; apiKey := apiKey e; model := model e;
     localLlmUrl := localLlmUrl e; localLlmModel := v |}.

(** A method runs on the instance and the browser. *)
Definition Method (A : Type) : Type := M (Estimator * World) A.

Definition nl : string := String (ascii_of_N 10) EmptyString.
Definition dq : string := String (ascii_of_N 34) EmptyString.

(** [/<[^>]*>/] *)
Definition tagRe : Regex.regex :=
  [Regex.One (Regex.chr "<"); Regex.Star (Regex.not_chr ">"); Regex.One (Regex.chr ">")].
(** [/\s+/] *)
Definition spacesRe : Regex.regex := [Regex.Plus Regex.space].
(** ["minutes"], with its quotes *)
Definition minutesKey : string := dq +:+ "minutes" +:+ dq.

(** [/\{[\s\S]*"minutes"[\s\S]*\}/] *)
Definition jsonRe : Regex.regex :=
  [Regex.One (Regex.chr "{"); Regex.Star Regex.any]
  ++ Regex.lit minutesKey
  ++ [Regex.Star Regex.any; Regex.One (Regex.chr "}")].
(** [/(\d+)\s*minutes?/i]; the group is the first chunk *)
Definition minutesRe : Regex.regex :=
  [Regex.Plus Regex.digit; Regex.Star Regex.space]
  ++ Regex.lit_i "minute" ++ [Regex.Opt (Regex.chr_i "s")].

(** [html.replace(/<[^>]*>/g, ' ').replace(/\s+/g, ' ').trim()] *)
Definition stripTags (html : string) : string :=
  Regex.trim (Regex.String_replace_g spacesRe " " (Regex.String_replace_g tagRe " " html)).

(** [stripHtml(html)] *)
Definition stripHtml (html : value) : result string :=
  if negb (truthy html) then Ok ""
  else match html with
       | VStr s => Ok (stripTags s)
       | _ => Throw (TypeError "replace is not a function")
       end.

(** [truncate(text, maxLength)] *)
Definition truncate (text : string) (maxLength : nat) : string :=
  if String.eqb text "" || (String.length text <=? maxLength)%nat then text
  else String.substring 0 maxLength text +:+ "...".

Definition promptHeader : string :=
  "You are an academic workload estimator. Based on the following assignment details, estimate how many minutes it would take an average student to complete this assignment."
  +:+ nl +:+ nl +:+ "Assignment Details:" +:+ nl.

Definition promptFooter : string :=
  nl +:+ nl +:+ "Consider factors like:" +:+ nl
  +:+ "- Type of assignment (quiz, essay, project, discussion, etc.)" +:+ nl
  +:+ "- Complexity indicated by points" +:+ nl
  +:+ "- Submission type requirements" +:+ nl
  +:+ "- Subject matter complexity" +:+ nl +:+ nl
  +:+ "Respond with ONLY a JSON object in this exact format:" +:+ nl
  +:+ "{" +:+ dq +:+ "minutes" +:+ dq +:+ ": <number>, " +:+ dq +:+ "reasoning" +:+ dq
  +:+ ": " +:+ dq +:+ "<brief explanation>" +:+ dq +:+ "}" +:+ nl +:+ nl
  +:+ "Be realistic - most assignments take between 30 minutes and 4 hours. Only estimate longer for major projects or papers.".

Section WithBuiltins.
Context `{Builtins}.

(** [typeof p === 'number' ? `Points: ${p}` : null] *)
Definition pointsLine (p : value) : option string :=
  match p with
  | VNum n => Some ("Points: " +:+ number_toString n)
  | _ => None
  end.

(** [t?.length ? `Submission types: ${t.join(', ')}` : null] *)
Definition submissionLine (t : value) : result (option string) :=
  match t with
  | VArr [] => Ok None
  | VArr l => Ok (Some ("Submission types: " +:+ array_join ", " l))
  | VStr s =>
      if String.eqb s "" then Ok None else Throw (TypeError "join is not a function")
  | VObj o =>
      if truthy (get o "length") then Throw (TypeError "join is not a function")
      else Ok None
  | _ => Ok None
  end.

(** [d ? `Description snippet: ${this.truncate(this.stripHtml(d), 500)}` : null] *)
Definition descriptionLine (d : value) : result (option string) :=
  if truthy d then
    stripped ← stripHtml d;
    Ok (Some ("Description snippet: " +:+ truncate stripped 500))
  else Ok None.

(** the array [details] before [.filter(Boolean)], [null] as [None] *)
Definition detailEntries (assignment : obj) : result (list (option string)) :=
  let title := Some ("Title: " +:+ toString (get assignment "title")) in
  let type := Some ("Type: " +:+ toString (get assignment "type")) in
  let course := Some ("Course: " +:+ toString (get assignment "courseName")) in
  let points := pointsLine (get assignment "pointsPossible") in
  submission ← submissionLine (get assignment "submissionTypes");
  description ← descriptionLine (get assignment "description");
  Ok [title; type; course; points; submission; description].

(** [.filter(Boolean)]: drops [null] and the empty string *)
Definition filter_Boolean (l : list (option string)) : list string :=
  omap (fun e => match e with
                 | Some s => if String.eqb s "" then None else Some s
                 | None => None
                 end) l.

(** the array [details] after [.filter(Boolean)] *)
Definition detailLines (assignment : obj) : result (list string) :=
  entries ← detailEntries assignment;
  Ok (filter_Boolean entries).

(** [buildPrompt(assignment)] *)
Definition buildPrompt (assignment : obj) : result string :=
  lines ← detailLines assignment;
  Ok (promptHeader +:+ String.concat nl lines +:+ promptFooter).

(** the object literal [{ minutes: parseInt(match[1]), reasoning: content }] *)
Definition estimateOf (minutes : number) (reasoning : value) : value :=
  VObj (<["minutes" := VNum minutes]> (<["reasoning" := reasoning]> ∅)).

(** the [try]/[catch] that ends [callOpenAI] and [callAnthropic] *)
Definition parseHosted (content : value) : result value :=
  try_catch (JSON_parse content)
    (fun _ =>
       found ← call_match minutesRe content;
       match found with
       | Some chunks => Ok (estimateOf (parseInt (default "" (head chunks))) content)
       | None => Throw (Error "Could not parse AI response")
       end).

(** the [try]/[catch] that ends [callOllama] *)
Definition parseOllama (content : value) : result value :=
  try_catch
    (jsonMatch ← call_match jsonRe content;
     match jsonMatch with
     | Some chunks => JSON.parse (Regex.whole chunks)
     | None => Throw (Error "No JSON found")
     end)
    (fun _ =>
       found ← call_match minutesRe content;
       match found with
       | Some chunks => Ok (estimateOf (parseInt (default "" (head chunks))) content)
       | None => Ok (estimateOf (num 60) (VStr "Could not parse LLM response"))
       end).

Definition message (role : string) (content : string) : value :=
  VObj (<["role" := VStr role]> (<["content" := VStr content]> ∅)).

(** [callOpenAI(prompt)] *)
Definition callOpenAI (prompt : string) : Method value :=
  self <- this ;;
  response <- on_world (fetch
    {| url := "https://api.openai.com/v1/chat/completions";
       method := "POST";
       headers := [("Content-Type", "application/json");
                   ("Authorization", "Bearer " +:+ toString (apiKey self))];
       body := Some (VObj (<["model" := model self]>
                          (<["messages" := VArr
                               [message "system" "You are an academic workload estimation assistant. Always respond with valid JSON.";
                                message "user" prompt]]>
                          (<["temperature" := VNum (Finite (3 # 10))]>
                          (<["max_tokens" := VNum (num 150)]> ∅))))) |}) ;;
  if negb (ok response)
  then throw (Error ("OpenAI API error: " +:+ pretty (status response)))
  else
    data <- lift (json response) ;;
    choices <- lift (member data "choices") ;;
    choice <- lift (first_elem choices) ;;
    let content := opt_member (opt_member choice "message") "content" in
    lift (parseHosted content).

(** [callAnthropic(prompt)] *)
Definition callAnthropic (prompt : string) : Method value :=
  self <- this ;;
  response <- on_world (fetch
    {| url := "https://api.anthropic.com/v1/messages";
       method := "POST";
       headers := [("Content-Type", "application/json");
                   ("x-api-key", toString (or_else (apiKey self) (VStr "")));
                   ("anthropic-version", "2023-06-01")];
       body := Some (VObj (<["model" := VStr "claude-3-haiku-20240307"]>
                          (<["max_tokens" := VNum (num 150)]>
                          (<["messages" := VArr [message "user" prompt]]> ∅)))) |}) ;;
  if negb (ok response)
  then throw (Error ("Anthropic API error: " +:+ pretty (status response)))
  else
    data <- lift (json response) ;;
    blocks <- lift (member data "content") ;;
    block <- lift (first_elem blocks) ;;
    let content := opt_member block "text" in
    lift (parseHosted content).

(** [callOllama(prompt)] *)
Definition callOllama (prompt : string) : Method value :=
  self <- this ;;
  response <- on_world (fetch
    {| url := toString (localLlmUrl self) +:+ "/api/generate";
       method := "POST";
       headers := [("Content-Type", "application/json")];
       body := Some (VObj (<["model" := localLlmModel self]>
                          (<["prompt" := VStr prompt]>
                          (<["stream" := VBool false]>
                          (<["options" := VObj (<["temperature" := VNum (Finite (3 # 10))]> ∅)]>
                           ∅))))) |}) ;;
  if negb (ok response)
  then throw (Error ("Ollama API error: " +:+ pretty (status response)
                     +:+ " - " +:+ text response))
  else
    data <- lift (json response) ;;
    content <- lift (member data "response") ;;
    lift (parseOllama content).

(** [getAIEstimate(assignment)] *)
Definition getAIEstimate (assignment : obj) : Method value :=
  prompt <- lift (buildPrompt assignment) ;;
  self <- this ;;
  if is_str (aiProvider self) "openai" then callOpenAI prompt
  else if is_str (aiProvider self) "anthropic" then callAnthropic prompt
  else if is_str (aiProvider self) "local" then callOllama prompt
  else throw (Error ("Unknown AI provider: " +:+ toString (aiProvider self))).

(** [configure()] *)
Definition configure : Method unit :=
  settings <- on_world (storage_sync_get
    ["aiProvider"; "openaiApiKey"; "anthropicApiKey"; "localLlmUrl";
     "localLlmModel"; "estimationModel"]) ;;
  let provider := or_else (get settings "aiProvider") (VStr "none") in
  update (set_aiProvider provider) ;;;
  update (set_model (or_else (get settings "estimationModel") (VStr "gpt-3.5-turbo"))) ;;;
  if is_str provider "openai" then update (set_apiKey (get settings "openaiApiKey"))
  else if is_str provider "anthropic" then update (set_apiKey (get settings "anthropicApiKey"))
  else if is_str provider "local" then
    update (set_localLlmUrl
              (or_else (get settings "localLlmUrl") (VStr "http://localhost:11434"))) ;;;
    update (set_localLlmModel
              (or_else (get settings "localLlmModel") (VStr "qwen2.5-coder:1.5b")))
  else ret tt.

(** the condition [useAI] of [estimateSingle] *)
Definition useAI (self : Estimator) : bool :=
  is_str (aiProvider self) "local"
  || (truthy (apiKey self)
      && (is_str (aiProvider self) "openai" || is_str (aiProvider self) "anthropic")).

(** the fallback branch: [this.getHeuristicEstimate(assignment)], method
    [heuristic] *)
Definition heuristicBranch (assignment : obj) : Method (value * string) :=
  minutes <- lift (getHeuristicEstimate assignment) ;;
  ret (VNum minutes, "heuristic").

(** the body of the [try]: [this.getAIEstimate(assignment)], then
    [aiEstimate.minutes], method [ai] *)
Definition aiBranch (assignment : obj) : Method (value * string) :=
  aiEstimate <- getAIEstimate assignment ;;
  minutes <- lift (member aiEstimate "minutes") ;;
  ret (minutes, "ai").

(** [estimateSingle(assignment)] *)
Definition estimateSingle (assignment : obj) : Method obj :=
  configure ;;;
  self <- this ;;
  estimate <-
    (if useAI self then
       try_catchM (aiBranch assignment) (fun _ => heuristicBranch assignment)
     else heuristicBranch assignment) ;;
  now <- on_world Date_now ;;
  ret (<["estimatedAt" := VNum (num now)]>
       (<["estimationMethod" := VStr estimate.2]>
       (<["estimatedMinutes" := estimate.1]> assignment))).

(** the [for] loop of [estimateAll] *)
Fixpoint estimateAll_loop (assignments estimatedAssignments : list obj) : Method (list obj) :=
  match assignments with
  | [] => ret estimatedAssignments
  | assignment :: rest =>
      estimated <- estimateSingle assignment ;;
      estimateAll_loop rest (estimatedAssignments ++ [estimated])
  end.

(** [estimateAll(assignments)] *)
Definition estimateAll (assignments : list obj) : Method (list obj) :=
  configure ;;;
  estimateAll_loop assignments [].

End WithBuiltins.

End TimeEstimator.

(** ** The earlier estimator (time-estimator.js)

    The JavaScript file that the TypeScript one replaces.  It knows no
    local provider, tests [this.apiKey] alone before it tries the AI path,
    and tests optional fields for truthiness rather than for their type.
    [categorizeAssignment], [stripHtml], [truncate], [callOpenAI] and the
    loop of [estimateAll] are the same text. *)

Module TimeEstimatorJS.
Import TimeEstimator.
Section WithBuiltins.
Context `{Builtins}.

(** [new TimeEstimator()] *)
Definition new_TimeEstimator : Estimator :=
  {| aiProvider := VNull; apiKey := VNull; model := VStr "gpt-3.5-turbo";
     localLlmUrl := VUndefined; localLlmModel := VUndefined |}.

(** [configure()] *)
Definition configure : Method unit :=
  settings <- on_world (storage_sync_get
    ["aiProvider"; "openaiApiKey"; "anthropicApiKey"; "estimationModel"]) ;;
  let provider := or_else (get settings "aiProvider") (VStr "openai") in
  update (set_aiProvider provider) ;;;
  update (set_model (or_else (get settings "estimationModel") (VStr "gpt-3.5-turbo"))) ;;;
  if is_str provider "openai" then update (set_apiKey (get settings "openaiApiKey"))
  else if is_str provider "anthropic" then update (set_apiKey (get settings "anthropicApiKey"))
  else ret tt.

(** [p ? `Points: ${p}` : null] *)
Definition pointsLine (p : value) : option string :=
  if truthy p then Some ("Points: " +:+ toString p) else None.

Definition detailEntries (assignment : obj) : result (list (option string)) :=
  let title := Some ("Title: " +:+ toString (get assignment "title")) in
  let type := Some ("Type: " +:+ toString (get assignment "type")) in
  let course := Some ("Course: " +:+ toString (get assignment "courseName")) in
  let points := pointsLine (get assignment "pointsPossible") in
  submission ← submissionLine (get assignment "submissionTypes");
  description ← descriptionLine (get assignment "description");
  Ok [title; type; course; points; submission; description].

(** the array [details] after [.filter(Boolean)] *)
Definition detailLines (assignment : obj) : result (list string) :=
  entries ← detailEntries assignment;
  Ok (filter_Boolean entries).

(** [buildPrompt(assignment)] *)
Definition buildPrompt (assignment : obj) : result string :=
  lines ← detailLines assignment;
  Ok (promptHeader +:+ String.concat nl lines +:+ promptFooter).

(** [callAnthropic(prompt)], with the key as it is in the header *)
Definition callAnthropic (prompt : string) : Method value :=
  self <- this ;;
  response <- on_world (fetch
    {| url := "https://api.anthropic.com/v1/messages";
       method := "POST";
       headers := [("Content-Type", "application/json");
                   ("x-api-key", toString (apiKey self));
                   ("anthropic-version", "2023-06-01")];
       body := Some (VObj (<["model" := VStr "claude-3-haiku-20240307"]>
                          (<["max_tokens" := VNum (num 150)]>
                          (<["messages" := VArr [message "user" prompt]]> ∅)))) |}) ;;
  if negb (ok response)
  then throw (Error ("Anthropic API error: " +:+ pretty (status response)))
  else
    data <- lift (json response) ;;
    blocks <- lift (member data "content") ;;
    block <- lift (first_elem blocks) ;;
    let content := opt_member block "text" in
    lift (parseHosted content).

(** [getAIEstimate(assignment)] *)
Definition getAIEstimate (assignment : obj) : Method value :=
  prompt <- lift (buildPrompt assignment) ;;
  self <- this ;;
  if is_str (aiProvider self) "openai" then callOpenAI prompt
  else if is_str (aiProvider self) "anthropic" then callAnthropic prompt
  else throw (Error ("Unknown AI provider: " +:+ toString (aiProvider self))).

(** [t.includes('lit')] for whatever [t] is *)
Definition call_includes (t : value) (lit : string) : result bool :=
  match t with
  | VArr l => Ok (array_includes l lit)
  | VStr s => Ok (includes s lit)
  | _ => Throw (TypeError "includes is not a function")
  end.

(** [getHeuristicEstimate(assignment)] *)
Definition getHeuristicEstimate (assignment : obj) : result number :=
  type ← categorizeAssignment assignment;
  let rules := (lookupRule type).1 in
  let minutes := num (base rules) in
  let points := get assignment "pointsPossible" in
  let minutes :=
    if truthy points
    then num_add minutes (num_mul (ToNumber points) (num (perPoint rules)))
    else minutes in
  let types := get assignment "submissionTypes" in
  minutes ←
    (if truthy types then
       upload ← call_includes types "online_upload";
       let minutes := if (upload : bool) then num_add minutes (num 15) else minutes in
       recording ← call_includes types "media_recording";
       Ok (if (recording : bool) then num_add minutes (num 30) else minutes)
     else Ok minutes);
  Ok (Math_min (Math_max minutes (num 15)) (num 480)).

Definition heuristicBranch (assignment : obj) : Method (value * string) :=
  minutes <- lift (getHeuristicEstimate assignment) ;;
  ret (VNum minutes, "heuristic").

Definition aiBranch (assignment : obj) : Method (value * string) :=
  aiEstimate <- getAIEstimate assignment ;;
  minutes <- lift (member aiEstimate "minutes") ;;
  ret (minutes, "ai").

(** [estimateSingle(assignment)] *)
Definition estimateSingle (assignment : obj) : Method obj :=
  configure ;;;
  self <- this ;;
  estimate <-
    (if truthy (apiKey self) then
       try_catchM (aiBranch assignment) (fun _ => heuristicBranch assignment)
     else heuristicBranch assignment) ;;
  now <- on_world Date_now ;;
  ret (<["estimatedAt" := VNum (num now)]>
       (<["estimationMethod" := VStr estimate.2]>
       (<["estimatedMinutes" := estimate.1]> assignment))).

(** the [for] loop of [estimateAll] *)
Fixpoint estimateAll_loop (assignments estimatedAssignments : list obj) : Method (list obj) :=
  match assignments with
  | [] => ret estimatedAssignments
  | assignment :: rest =>
      estimated <- estimateSingle assignment ;;
      estimateAll_loop rest (estimatedAssignments ++ [estimated])
  end.

(** [estimateAll(assignments)] *)
Definition estimateAll (assignments : list obj) : Method (list obj) :=
  configure ;;;
  estimateAll_loop assignments [].

End WithBuiltins.
End TimeEstimatorJS.

(** ** The source client (canvas-api.ts) *)

Module CanvasAPI.

(** the fields of [this] *)
Record Canvas := { baseUrl : value; apiToken : value }.

(** [new CanvasAPI()] *)
Definition new_CanvasAPI : Canvas := {| baseUrl := VNull; apiToken := VNull |}.

Definition Method (A : Type) : Type := M (Canvas * World) A.

(** [s.replace(/\/+$/, '')] *)
Fixpoint stripTrailingSlashes (s : string) : string :=
  match s with
  | String c r =>
      let r' := stripTrailingSlashes r in
      if Ascii.eqb c "/" && String.eqb r' "" then "" else String c r'
  | EmptyString => EmptyString
  end.

(** [a.sort(compare)]: a stable sort; [after x y] is [compare(x, y) > 0] *)
Fixpoint sort_insert {A} (after : A -> A -> bool) (x : A) (l : list A) : list A :=
  match l with
  | [] => [x]
  | y :: l' => if after x y then y :: sort_insert after x l' else x :: l
  end.

Definition Array_sort {A} (after : A -> A -> bool) (l : list A) : list A :=
  foldr (sort_insert after) [] l.

Section WithBuiltins.
Context `{Builtins}.

(** [configure(baseUrl, apiToken)] *)
Definition configure (url token : value) : Method unit :=
  match url with
  | VStr s =>
      let stripped := stripTrailingSlashes s in
      update (fun _ =>
        {| baseUrl := VStr (if includes stripped "/api/v1" then stripped
                            else stripped +:+ "/api/v1");
           apiToken := token |})
  | _ => throw (TypeError "Cannot read properties: replace")
  end.

(** [request(endpoint)] *)
Definition request (endpoint : string) : Method value :=
  self <- this ;;
  if negb (truthy (baseUrl self)) || negb (truthy (apiToken self))
  then throw (Error "Canvas API not configured. Please set URL and token.")
  else
    try_catchM
      (response <- on_world (fetch
         {| url := toString (baseUrl self) +:+ endpoint;
            method := "GET";
            headers := [("Authorization", "Bearer " +:+ toString (apiToken self));
                        ("Content-Type", "application/json")];
            body := None |}) ;;
       if negb (ok response)
       then throw (Error ("Canvas API error (" +:+ pretty (status response) +:+ "): "
                          +:+ text response))
       else lift (json response))
      (fun error => throw error).

(** [getCourses()] *)
Definition getCourses : Method value :=
  request "/courses?enrollment_state=active&per_page=50".

(** [getCourseAssignments(courseId, { bucket: 'upcoming' })] *)
Definition getCourseAssignments_upcoming (courseId : value) : Method value :=
  request ("/courses/" +:+ toString courseId
           +:+ "/assignments?per_page=50&order_by=due_at&bucket=upcoming").

(** the own enumerable properties [{...v}] copies *)
Definition spread (v : value) : obj :=
  match v with
  | VObj o => o
  | VArr l => list_to_map (imap (fun i x => (pretty i, x)) l)
  | VStr s =>
      list_to_map (imap (fun i c => (pretty i, VStr (String c EmptyString)))
                        (String.list_ascii_of_string s))
  | _ => ∅
  end.

(** what [for (const x of v)] visits *)
Definition iterate (v : value) : result (list value) :=
  match v with
  | VArr l => Ok l
  | VStr s => Ok (map (fun c => VStr (String c EmptyString)) (String.list_ascii_of_string s))
  | _ => Throw (TypeError "value is not iterable")
  end.

(** [courseAssignments.map(a => ({...a, courseName: course.name, courseId: course.id}))] *)
Definition enrich (course : value) (courseAssignments : value) : result (list obj) :=
  match courseAssignments with
  | VArr l =>
      match l with
      | [] => Ok []
      | _ =>
          name ← member course "name";
          id ← member course "id";
          Ok (map (fun a => <["courseId" := id]> (<["courseName" := name]> (spread a))) l)
      end
  | _ => Throw (TypeError "map is not a function")
  end.

(** the body of the [for] loop of [getUpcomingAssignments], for one course *)
Definition upcoming_step (course : value) (assignments : list obj) : Method (list obj) :=
  try_catchM
    (id <- lift (member course "id") ;;
     courseAssignments <- getCourseAssignments_upcoming id ;;
     enriched <- lift (enrich course courseAssignments) ;;
     ret (assignments ++ enriched))
    (fun error =>
       (* console.warn(`Failed to fetch assignments for course ${course.id}:`, error) *)
       lift (member course "id") ;;;
       ret assignments).

Fixpoint upcoming_loop (courses : list value) (assignments : list obj) : Method (list obj) :=
  match courses with
  | [] => ret assignments
  | course :: rest =>
      assignments' <- upcoming_step course assignments ;;
      upcoming_loop rest assignments'
  end.

(** [new Date(v).getTime()]; [None] stands for NaN *)
Definition Date_of (v : value) : option Z :=
  match v with
  | VUndefined => None
  | VNull => Some 0
  | VBool b => Some (if b then 1 else 0)
  | VNum (Finite q) =>
      let t := Z.quot (Qnum q) (Zpos (Qden q)) in
      if Z.abs t <=? 8640000000000000 then Some t else None
  | VNum _ => None
  | VStr s => Date_parse s
  | VArr _ | VObj _ => Date_parse (toString v)
  end.

(** [new Date(a.due_at) - new Date(b.due_at)] *)
Definition compareDue (a b : obj) : number :=
  match Date_of (get a "due_at"), Date_of (get b "due_at") with
  | Some x, Some y => num (x - y)
  | _, _ => NaN
  end.

(** whether the comparison is positive, which puts [a] after [b] *)
Definition dueAfter (a b : obj) : bool :=
  match compareDue a b with
  | Finite q => negb (Qle_bool q 0)
  | Infinity neg => negb neg
  | NaN => false
  end.

(** [getUpcomingAssignments()] *)
Definition getUpcomingAssignments : Method (list obj) :=
  courses <- getCourses ;;
  courseList <- lift (iterate courses) ;;
  assignments <- upcoming_loop courseList [] ;;
  ret (Array_sort dueAfter assignments).

(** [normalizePlannerItems(items)] *)
Definition plannerItem (item : value) : obj :=
  let plannable := opt_member item "plannable" in
  <["id" := opt_member item "plannable_id"]>
  (<["title" := or_else (opt_member plannable "title") (opt_member item "plannable_type")]>
  (<["type" := opt_member item "plannable_type"]>
  (<["dueDate" := opt_member item "plannable_date"]>
  (<["courseName" := opt_member item "context_name"]>
  (<["courseId" := opt_member item "course_id"]>
  (<["pointsPossible" := opt_member plannable "points_possible"]>
  (<["htmlUrl" := opt_member item "html_url"]>
  (<["submissionTypes" := or_else (opt_member plannable "submission_types") (VArr [])]>
  (<["description" := or_else (opt_member plannable "description") (VStr "")]>
  (<["completed" := or_else (opt_member (opt_member item "planner_override") "marked_complete")
                            (VBool false)]> ∅)))))))))).

Definition isPlannable (item : value) : result bool :=
  type ← member item "plannable_type";
  Ok (is_str type "assignment" || is_str type "quiz").

Fixpoint filterPlannable (items : list value) : result (list value) :=
  match items with
  | [] => Ok []
  | item :: rest =>
      keep ← isPlannable item;
      others ← filterPlannable rest;
      Ok (if (keep : bool) then item :: others else others)
  end.

Definition normalizePlannerItems (items : value) : result (list obj) :=
  match items with
  | VArr l => kept ← filterPlannable l; Ok (map plannerItem kept)
  | _ => Throw (TypeError "filter is not a function")
  end.

(** [normalizeTodoItems(items)] *)
Definition todoItem (item : value) : obj :=
  let assignment := opt_member item "assignment" in
  <["id" := or_else (opt_member assignment "id") (opt_member item "id")]>
  (<["title" := or_else (opt_member assignment "name") (VStr "Untitled")]>
  (<["type" := or_else (opt_member item "type") (VStr "assignment")]>
  (<["dueDate" := opt_member assignment "due_at"]>
  (<["courseName" := opt_member item "context_name"]>
  (<["courseId" := opt_member item "course_id"]>
  (<["pointsPossible" := opt_member assignment "points_possible"]>
  (<["htmlUrl" := opt_member item "html_url"]>
  (<["submissionTypes" := or_else (opt_member assignment "submission_types") (VArr [])]>
  (<["description" := or_else (opt_member assignment "description") (VStr "")]>
  (<["completed" := VBool false]> ∅)))))))))).

Definition normalizeTodoItems (items : value) : result (list obj) :=
  match items with
  | VArr l =>
      if forallb (fun item => negb (nullish item)) l then Ok (map todoItem l)
      else Throw (TypeError "Cannot read properties: assignment")
  | _ => Throw (TypeError "map is not a function")
  end.

(** [getEndOfWeek()] *)
Definition getEndOfWeek : Method string :=
  now <- on_world Date_now ;;
  ret (Date_toISOString (Date_endOfWeek now)).

(** [getTodoItems()] *)
Definition getTodoItems : Method (list obj) :=
  now <- on_world Date_now ;;
  let startDate := Date_toISOString now in
  endDate <- getEndOfWeek ;;
  let params := "start_date=" +:+ URLSearchParams_escape startDate
                +:+ "&end_date=" +:+ URLSearchParams_escape endDate
                +:+ "&per_page=100" in
  try_catchM
    (plannerItems <- request ("/planner/items?" +:+ params) ;;
     lift (normalizePlannerItems plannerItems))
    (fun error =>
       todoItems <- request "/users/self/todo" ;;
       lift (normalizeTodoItems todoItems)).

(** [testConnection()] *)
Definition testConnection : Method bool :=
  try_catchM
    (user <- request "/users/self" ;;
     id <- lift (member user "id") ;;
     ret (truthy id))
    (fun error => ret false).

(** [getCurrentUser()] *)
Definition getCurrentUser : Method value := request "/users/self".

(** [getAssignment(courseId, assignmentId)] *)
Definition getAssignment (courseId assignmentId : value) : Method value :=
  request ("/courses/" +:+ toString courseId +:+ "/assignments/" +:+ toString assignmentId).

End WithBuiltins.

End CanvasAPI.

(** ** The orchestrator (service-worker.js) *)

Module ServiceWorker.
Section WithBuiltins.
Context `{Builtins}.

(** the filter of [checkForUrgentAssignments] *)
Definition isUrgent (now : Z) (a : obj) : bool :=
  match CanvasAPI.Date_of (get a "dueDate") with
  | Some dueDate => (dueDate - now <? 24 * 60 * 60 * 1000) && (now <? dueDate)
  | None => false
  end.

(** [checkForUrgentAssignments(assignments)] *)
Definition checkForUrgentAssignments (assignments : list obj) : M World unit :=
  settings <- storage_sync_get ["showNotifications"] ;;
  if negb (truthy (get settings "showNotifications")) then ret tt
  else
    now <- Date_now ;;
    let urgent := filter (fun a => isUrgent now a = true) assignments in
    if (0 <? length urgent)%nat then
      notifications_create
        (<["type" := VStr "basic"]>
         (<["iconUrl" := VStr "../assets/icons/icon128.png"]>
         (<["title" := VStr "Canvas Assignments Due Soon"]>
         (<["message" := VStr ("You have " +:+ pretty (length urgent)
                               +:+ " assignment(s) due within 24 hours!")]>
         (<["priority" := VNum (num 2)]> ∅)))))
    else ret tt.

(** the object written to the cache *)
Definition snapshot (assignments : list obj) (now : Z) : obj :=
  <["cachedAssignments" := VArr (map VObj assignments)]>
    (<["lastUpdated" := VNum (num now)]> ∅).

(** [const canvasAPI = new CanvasAPI(); canvasAPI.configure(...);
     const rawAssignments = await canvasAPI.getTodoItems()] *)
Definition fetchTodoItems (settings : obj) : M World (list obj) :=
  with_instance CanvasAPI.new_CanvasAPI
    (CanvasAPI.configure (get settings "canvasUrl") (get settings "apiToken") ;;;
     CanvasAPI.getTodoItems).

Section Imported.
(** the [TimeEstimator] that [../services/time-estimator.js] resolves to:
    its constructor and its [estimateAll] *)
Variable new_estimator : TimeEstimator.Estimator.
Variable estimateAll : list obj -> TimeEstimator.Method (list obj).

(** [const timeEstimator = new TimeEstimator();
     const assignments = await timeEstimator.estimateAll(rawAssignments)] *)
Definition estimateItems (rawAssignments : list obj) : M World (list obj) :=
  with_instance new_estimator (estimateAll rawAssignments).

(** the [try] block of [refreshAssignmentsInBackground] *)
Definition refreshBody : M World unit :=
  settings <- storage_sync_get ["canvasUrl"; "apiToken"] ;;
  if negb (truthy (get settings "canvasUrl")) || negb (truthy (get settings "apiToken"))
  then ret tt
  else
    rawAssignments <- fetchTodoItems settings ;;
    assignments <- estimateItems rawAssignments ;;
    now <- Date_now ;;
    storage_local_set (snapshot assignments now) ;;;
    checkForUrgentAssignments assignments.

(** [refreshAssignmentsInBackground()], for the imported estimator *)
Definition refreshWith : M World unit :=
  try_catchM refreshBody (fun error => ret tt).

End Imported.

(** [refreshAssignmentsInBackground()] with the TypeScript estimator *)
Definition refreshAssignmentsInBackground : M World unit :=
  refreshWith TimeEstimator.new_TimeEstimator TimeEstimator.estimateAll.

(** the same with the earlier JavaScript estimator *)
Definition refreshAssignmentsInBackground_js : M World unit :=
  refreshWith TimeEstimatorJS.new_TimeEstimator TimeEstimatorJS.estimateAll.

(** the keys of the cache *)
Definition cacheKeys : list string := ["cachedAssignments"; "lastUpdated"].

(** [error.message] *)
Definition message_of (error : exn) : string :=
  match error with
  | TypeError msg | SyntaxError msg | Error msg => msg
  end.

(** [testCanvasConnection(url, token)] *)
Definition testCanvasConnection (url token : value) : M World value :=
  try_catchM
    (isConnected <- with_instance CanvasAPI.new_CanvasAPI
                      (CanvasAPI.configure url token ;;; CanvasAPI.testConnection) ;;
     ret (VObj (<["success" := VBool isConnected]> ∅)))
    (fun error =>
       ret (VObj (<["success" := VBool false]>
                  (<["error" := VStr (message_of error)]> ∅)))).

Section Messages.
(** the [TimeEstimator] that [../services/time-estimator.js] resolves to:
    its constructor, [configure], [estimateSingle] and [estimateAll] *)
Variable new_estimator : TimeEstimator.Estimator.
Variable configure : TimeEstimator.Method unit.
Variable estimateSingle : obj -> TimeEstimator.Method obj.
Variable estimateAll : list obj -> TimeEstimator.Method (list obj).

(** [getAssignments()] *)
Definition getAssignmentsWith : M World value :=
  cached <- storage_local_get cacheKeys ;;
  now <- Date_now ;;
  let cacheAge :=
    num_sub (num now) (ToNumber (or_else (get cached "lastUpdated") (VNum (num 0)))) in
  if truthy (get cached "cachedAssignments") && num_ltb cacheAge (num (5 * 60 * 1000))
  then
    ret (VObj (<["assignments" := get cached "cachedAssignments"]>
               (<["fromCache" := VBool true]>
               (<["lastUpdated" := get cached "lastUpdated"]> ∅))))
  else
    refreshWith new_estimator estimateAll ;;;
    fresh <- storage_local_get cacheKeys ;;
    ret (VObj (<["assignments" := or_else (get fresh "cachedAssignments") (VArr [])]>
               (<["fromCache" := VBool false]>
               (<["lastUpdated" := get fresh "lastUpdated"]> ∅)))).

(** [const estimator = new TimeEstimator();
     return await estimator.estimateSingle(message.assignment)]: with no
    assignment, the first read of a property of it throws, which comes after
    [configure] in either file *)
Definition estimateMessage (assignment : value) : M World value :=
  with_instance new_estimator
    (if nullish assignment
     then configure ;;; throw (TypeError "Cannot read properties: title")
     else estimated <- estimateSingle (CanvasAPI.spread assignment) ;;
          ret (VObj estimated)).

(** [handleMessage(message, sender)] *)
Definition handleMessageWith (message : value) : M World value :=
  type <- lift (member message "type") ;;
  if is_str type "GET_ASSIGNMENTS" then getAssignmentsWith
  else if is_str type "REFRESH_ASSIGNMENTS" then
    refreshWith new_estimator estimateAll ;;;
    ret (VObj (<["success" := VBool true]> ∅))
  else if is_str type "GET_CACHED_ASSIGNMENTS" then
    cached <- storage_local_get cacheKeys ;;
    ret (VObj cached)
  else if is_str type "ESTIMATE_SINGLE" then
    estimateMessage (opt_member message "assignment")
  else if is_str type "TEST_CONNECTION" then
    testCanvasConnection (opt_member message "url") (opt_member message "token")
  else ret (VObj (<["error" := VStr "Unknown message type"]> ∅)).

(** the listener of [chrome.alarms.onAlarm] *)
Definition onAlarmWith (alarm : value) : M World unit :=
  name <- lift (member alarm "name") ;;
  if is_str name "refresh-assignments" then refreshWith new_estimator estimateAll
  else ret tt.

End Messages.

(** [handleMessage] and [getAssignments] with the TypeScript estimator *)
Definition handleMessage : value -> M World value :=
  handleMessageWith TimeEstimator.new_TimeEstimator TimeEstimator.configure
    TimeEstimator.estimateSingle TimeEstimator.estimateAll.
Definition getAssignments : M World value :=
  getAssignmentsWith TimeEstimator.new_TimeEstimator TimeEstimator.estimateAll.

(** the same with the earlier JavaScript estimator *)
Definition handleMessage_js : value -> M World value :=
  handleMessageWith TimeEstimatorJS.new_TimeEstimator TimeEstimatorJS.configure
    TimeEstimatorJS.estimateSingle TimeEstimatorJS.estimateAll.

End WithBuiltins.
End ServiceWorker.

(** ** The helpers (helpers.js) *)

Module Helpers.

(** the text shown for no estimate, as the file has it *)
Definition dash : string := "â€”".

Section WithBuiltins.
Context `{Builtins}.

(** [formatTimeEstimate(minutes)] *)
Definition formatTimeEstimate (minutes : value) : string :=
  if negb (truthy minutes) || num_leb (ToNumber minutes) (num 0) then dash
  else if num_ltb (ToNumber minutes) (num 60) then toString minutes +:+ "m"
  else
    let hours := Math_floor (div_by 60 (ToNumber minutes)) in
    let remainingMins := rem_by 60 (ToNumber minutes) in
    if num_is remainingMins 0 then number_toString hours +:+ "h"
    else number_toString hours +:+ "h " +:+ number_toString remainingMins +:+ "m".

(** [x !== 1 ? 's' : ''] *)
Definition plural (x : value) : string :=
  match x with
  | VNum n => if num_is n 1 then "" else "s"
  | _ => "s"
  end.

(** [formatTimeEstimateLong(minutes)] *)
Definition formatTimeEstimateLong (minutes : value) : string :=
  if negb (truthy minutes) || num_leb (ToNumber minutes) (num 0) then "Unknown"
  else if num_ltb (ToNumber minutes) (num 60)
  then toString minutes +:+ " minute" +:+ plural minutes
  else
    let hours := Math_floor (div_by 60 (ToNumber minutes)) in
    let remainingMins := rem_by 60 (ToNumber minutes) in
    let result := number_toString hours +:+ " hour" +:+ plural (VNum hours) in
    if num_ltb (num 0) remainingMins
    then result +:+ " " +:+ number_toString remainingMins +:+ " minute"
         +:+ plural (VNum remainingMins)
    else result.

(** [(date - now) / (1000 * 60 * 60)] for [date = new Date(dueDate)] *)
Definition hoursUntil (dueDate : value) (now : Z) : number :=
  match CanvasAPI.Date_of dueDate with
  | Some date => div_by 3600000 (num (date - now))
  | None => NaN
  end.

(** [isUrgent(dueDate)] *)
Definition isUrgent (dueDate : value) : M World bool :=
  if negb (truthy dueDate) then ret false
  else
    now <- Date_now ;;
    let hoursUntilDue := hoursUntil dueDate now in
    ret (num_ltb (num 0) hoursUntilDue && num_leb hoursUntilDue (num 24)).

(** [isOverdue(dueDate)] *)
Definition isOverdue (dueDate : value) : M World bool :=
  if negb (truthy dueDate) then ret false
  else
    now <- Date_now ;;
    ret (match CanvasAPI.Date_of dueDate with
         | Some date => date <? now
         | None => false
         end).

(** [getUrgencyLevel(dueDate)] *)
Definition getUrgencyLevel (dueDate : value) : M World string :=
  if negb (truthy dueDate) then ret "none"
  else
    now <- Date_now ;;
    let hoursUntilDue := hoursUntil dueDate now in
    ret (if num_ltb hoursUntilDue (num 0) then "overdue"
         else if num_leb hoursUntilDue (num 24) then "urgent"
         else if num_leb hoursUntilDue (num 72) then "soon"
         else "normal").

(** [calculateTotalTime(assignments)], for an array of objects *)
Definition calculateTotalTime (assignments : list obj) : value :=
  fold_left (fun sum a => js_add sum (or_else (get a "estimatedMinutes") (VNum (num 0))))
            assignments (VNum (num 0)).

(** the comparison function of [sortByEstimatedTime] *)
Definition compareTime (order : value) (a b : obj) : number :=
  let timeA := ToNumber (or_else (get a "estimatedMinutes") (VNum (num 0))) in
  let timeB := ToNumber (or_else (get b "estimatedMinutes") (VNum (num 0))) in
  if is_str order "asc" then num_sub timeA timeB else num_sub timeB timeA.

(** [sortByEstimatedTime(assignments, order)]; [order] is ['desc'] when it is
    not given *)
Definition sortByEstimatedTime (assignments : list obj) (order : value) : list obj :=
  CanvasAPI.Array_sort (fun a b => num_ltb (num 0) (compareTime order a b)) assignments.

End WithBuiltins.

(** [truncate(text, maxLength, suffix)] for a string; [suffix] is ['...']
    when it is not given *)
Definition truncate (text : string) (maxLength : Z) (suffix : string) : string :=
  if String.eqb text "" || (Z.of_nat (String.length text) <=? maxLength) then text
  else String.substring 0 (Z.to_nat (maxLength - Z.of_nat (String.length suffix))) text
       +:+ suffix.

(** [stripHtml(html)]: the text of [TimeEstimator.stripHtml] *)
Definition stripHtml (html : value) : result string := TimeEstimator.stripHtml html.

End Helpers.

(** ** The popup (AssignmentCard.tsx, WeeklySummary.tsx) *)

Module Popup.

(** the text shown for no estimate *)
Definition dash : string := "—".

Section WithBuiltins.
Context `{Builtins}.

(** [formatTime(minutes)] of [AssignmentCard] *)
Definition cardTime (minutes : value) : string :=
  if negb (truthy minutes) then dash
  else if num_ltb (ToNumber minutes) (num 60) then toString minutes +:+ "m"
  else
    let hours := Math_floor (div_by 60 (ToNumber minutes)) in
    let mins := rem_by 60 (ToNumber minutes) in
    if num_ltb (num 0) mins
    then number_toString hours +:+ "h " +:+ number_toString mins +:+ "m"
    else number_toString hours +:+ "h".

(** [formatTime(minutes)] of [WeeklySummary] *)
Definition summaryTime (minutes : value) : string :=
  if num_ltb (ToNumber minutes) (num 60) then toString minutes +:+ "m"
  else
    let hours := Math_floor (div_by 60 (ToNumber minutes)) in
    let mins := rem_by 60 (ToNumber minutes) in
    if num_ltb (num 0) mins
    then number_toString hours +:+ "h " +:+ number_toString mins +:+ "m"
    else number_toString hours +:+ "h".

End WithBuiltins.
End Popup.

(** ** The design document's own words

    Definitions written from the document, to be compared with the code. *)

Module Design.

(** One rule of the priority list: the key words looked for in the title,
    the value of the explicit type field the rule also accepts, and the
    category it yields. *)
Record CategoryRule := {
  keywords : list string;
  explicitType : option string;
  category : string;
}.

(** quiz, discussion, essay/paper, project/presentation,
    exam/test/midterm/final, reading/read, in this order *)
Definition categoryRules : list CategoryRule :=
  [ {| keywords := ["quiz"]; explicitType := Some "quiz"; category := "quiz" |};
    {| keywords := ["discussion"]; explicitType := Some "discussion";
       category := "discussion" |};
    {| keywords := ["essay"; "paper"]; explicitType := None; category := "essay" |};
    {| keywords := ["project"; "presentation"]; explicitType := None;
       category := "project" |};
    {| keywords := ["exam"; "test"; "midterm"; "final"]; explicitType := None;
       category := "exam" |};
    {| keywords := ["reading"; "read"]; explicitType := None; category := "reading" |} ].

(** a rule applies when the lower-cased title contains one of its key words,
    or the lower-cased type field is the type it accepts *)
Definition applies (title type : string) (rule : CategoryRule) : bool :=
  from_option (String.eqb type) false (explicitType rule)
  || existsb (includes title) (keywords rule).

(** first match wins; the default is "assignment" *)
Definition resolveCategory (title type : string) : string :=
  from_option category "assignment"
    (find (applies (toLowerCase title) (toLowerCase type)) categoryRules).

(** the seven categories the resolution can yield *)
Definition categories : list string :=
  ["quiz"; "discussion"; "essay"; "project"; "exam"; "reading"; "assignment"].

(** AI estimation is eligible when the provider is "local", or when it is
    "openai" or "anthropic" and that provider's credential is not empty; a
    missing provider counts as "none" *)
Definition eligible (settings : obj) : bool :=
  let provider := or_else (get settings "aiProvider") (VStr "none") in
  is_str provider "local"
  || (is_str provider "openai" && truthy (get settings "openaiApiKey"))
  || (is_str provider "anthropic" && truthy (get settings "anthropicApiKey")).

(** the earlier file: the provider defaults to "openai"; AI estimation is
    eligible for "openai" and "anthropic" with a credential that is not
    empty *)
Definition eligibleHosted (settings : obj) : bool :=
  let provider := or_else (get settings "aiProvider") (VStr "openai") in
  (is_str provider "openai" && truthy (get settings "openaiApiKey"))
  || (is_str provider "anthropic" && truthy (get settings "anthropicApiKey")).

(** the first stage that succeeds, or else the default *)
Fixpoint firstSuccess {A} (stages : list (option A)) (fallback : A) : A :=
  match stages with
  | Some a :: _ => a
  | None :: rest => firstSuccess rest fallback
  | [] => fallback
  end.

(** a JSON object that starts where [text] starts and has a "minutes" key;
    what follows the object does not matter *)
Definition objectAt (text : string) : option value :=
  match JSON.parse_value (2 * String.length text + 2) text with
  | Some (VObj o, _) =>
      match o !! "minutes" with
      | Some _ => Some (VObj o)
      | None => None
      end
  | _ => None
  end.

(** stage one of the local parser, "the first JSON-object-shaped substring
    containing a "minutes" key", parsed: going through the text from the
    left, the first opening brace at which a JSON object with a "minutes"
    key starts *)
Fixpoint embeddedJson (text : string) : option value :=
  match text with
  | EmptyString => None
  | String c rest =>
      match (if Ascii.eqb c "{" then objectAt text else None) with
      | Some v => Some v
      | None => embeddedJson rest
      end
  end.

(** stage two: the first "<number> minute(s)", the whole text as reasoning *)
Definition bareMinutes (text : string) : option value :=
  chunks ← Regex.String_match TimeEstimator.minutesRe text;
  Some (TimeEstimator.estimateOf (parseInt (default "" (head chunks))) (VStr text)).

(** the fixed default [{minutes: 60, reasoning: ...}] *)
Definition defaultEstimate : value :=
  TimeEstimator.estimateOf (num 60) (VStr "Could not parse LLM response").

(** the parse cascade of the local backend *)
Definition parseCascade (text : string) : value :=
  firstSuccess [embeddedJson text; bareMinutes text] defaultEstimate.

(** some line of the rendered details starts with the label [p] *)
Definition hasLine (p : string) (lines : list string) : Prop :=
  existsb (String.prefix p) lines = true.

Section WithBuiltins.
Context `{Builtins}.

(** the details the prompt shows: title, type and course always; the points
    when they are a number; the submission types [types] when there are
    some; a snippet of the description [desc] when there is one *)
Definition expectedLines (a : obj) (types : list value) (desc : string) : list string :=
  ["Title: " +:+ toString (get a "title");
   "Type: " +:+ toString (get a "type");
   "Course: " +:+ toString (get a "courseName")]
  ++ match get a "pointsPossible" with
     | VNum n => ["Points: " +:+ number_toString n]
     | _ => []
     end
  ++ match types with
     | [] => []
     | _ => ["Submission types: " +:+ array_join ", " types]
     end
  ++ (if String.eqb desc "" then []
      else ["Description snippet: "
            +:+ TimeEstimator.truncate (TimeEstimator.stripTags desc) 500]).

End WithBuiltins.

(** *** The source client *)

Section Canvas.
Context `{Builtins}.
Import CanvasAPI.

(** the request [request(endpoint)] sends *)
Definition canvasRequest (c : Canvas) (endpoint : string) : Request :=
  {| url := toString (baseUrl c) +:+ endpoint;
     method := "GET";
     headers := [("Authorization", "Bearer " +:+ toString (apiToken c));
                 ("Content-Type", "application/json")];
     body := None |}.

(** what [request] makes of the answer *)
Definition requestOutcome (answer : HttpOutcome) : result value :=
  match answer with
  | NetworkError e => Throw e
  | Responds st body =>
      if ok {| status := st; text := body |} then JSON.parse body
      else Throw (Error ("Canvas API error (" +:+ pretty st +:+ "): " +:+ body))
  end.

(** the request for the upcoming assignments of a course *)
Definition assignmentsRequest (c : Canvas) (course : value) : Request :=
  canvasRequest c ("/courses/" +:+ toString (opt_member course "id")
                   +:+ "/assignments?per_page=50&order_by=due_at&bucket=upcoming").

(** what a course contributes: its assignments with the name and the id of
    the course added when the fetch succeeded, and nothing when it failed *)
Definition courseItems (course : value) (answer : HttpOutcome) : list obj :=
  match requestOutcome answer with
  | Ok courseAssignments =>
      match enrich course courseAssignments with
      | Ok items => items
      | Throw _ => []
      end
  | Throw _ => []
  end.

(** the assignments of all courses, when the first of the requests for them
    is the one numbered [tick] *)
Definition assignmentsOf (c : Canvas) (w : World) (tick : nat) (courses : list value)
  : list obj :=
  concat (imap (fun i course =>
                  courseItems course (network w (tick + i) (assignmentsRequest c course)))
               courses).

(** the instance has a base URL and a token *)
Definition ready (c : Canvas) : Prop :=
  truthy (baseUrl c) = true /\ truthy (apiToken c) = true.

(** the time of the due date, and whether there is one *)
Definition dueTime (a : obj) : Z := default 0 (Date_of (get a "due_at")).
Definition dated (a : obj) : Prop := is_Some (Date_of (get a "due_at")).

(** the endpoint [getCourses()] asks *)
Definition coursesEndpoint : string := "/courses?enrollment_state=active&per_page=50".

End Canvas.

End Design.

(** * Properties *)

(** the elements of an array field that may be missing: a missing field has
    none, and a value of another type is no array *)
Definition arrayOf (v : value) : option (list value) :=
  match v with
  | VArr l => Some l
  | VUndefined | VNull => Some []
  | _ => None
  end.

(** the text a field contributes to [(field || '').toLowerCase()]: the
    string itself, the empty string for a missing or falsy field, and
    nothing for a truthy value that is no string *)
Definition textOf (v : value) : option string :=
  match v with
  | VStr s => Some s
  | _ => if truthy v then None else Some ""
  end.

(** the request that comes next is answered by a network error, by a status
    outside 200..299, or by a body that is no JSON *)
Definition nextFetchFails (w : World) : Prop :=
  forall req,
    match network w (length (trace w)) req with
    | NetworkError _ => True
    | Responds st body =>
        ok {| status := st; text := body |} = false \/ is_ok (JSON.parse body) = false
    end.

(** every request, whenever it is made, is answered by a network error, by a
    status outside 200..299, or by a body that is no JSON *)
Definition networkFails (w : World) : Prop :=
  forall tick req,
    match network w tick req with
    | NetworkError _ => True
    | Responds st body =>
        ok {| status := st; text := body |} = false \/ is_ok (JSON.parse body) = false
    end.

(** what stage one of [callOllama] extracts: the match of its pattern, which
    runs from the first opening brace of the text through its last closing
    brace, parsed as JSON as a whole *)
Definition greedyJson (text : string) : option value :=
  chunks ← Regex.String_match TimeEstimator.jsonRe text;
  match JSON.parse (Regex.whole chunks) with
  | Ok v => Some v
  | Throw _ => None
  end.

(** the title and the type are strings, or missing *)
Definition textual (a : obj) : Prop :=
  is_Some (textOf (get a "title")) /\ is_Some (textOf (get a "type")).

(** [f] runs on the items in order, each from the state the one before left *)
Inductive runsInOrder {S A B} (f : A -> M S B) : list A -> S -> list B -> S -> Prop :=
  | runs_nil s : runsInOrder f [] s [] s
  | runs_cons a items s b s1 out s2 :
      f a s = (Ok b, s1) ->
      runsInOrder f items s1 out s2 ->
      runsInOrder f (a :: items) s (b :: out) s2.

(** what a refresh pass, whose estimation stage is [estimate], does to the
    cache when it starts in [w] *)
Definition cacheDiscipline `{Builtins} (refresh : M World unit)
    (estimate : list obj -> M World (list obj)) (w : World) : Prop :=
  let settings := pick ["canvasUrl"; "apiToken"] (sync_area w) in
  let w0 := record (ESyncGet ["canvasUrl"; "apiToken"]) w in
  let final := (refresh w).2 in
  let untouched := local_area final = local_area w /\ local_writes final = local_writes w in
  (refresh w).1 = Ok tt
  /\ (truthy (get (sync_area w) "canvasUrl") = false
      \/ truthy (get (sync_area w) "apiToken") = false ->
      untouched /\ fetches final = fetches w)
  /\ (forall error w1,
        ServiceWorker.fetchTodoItems settings w0 = (Throw error, w1) -> untouched)
  /\ (forall raw w1 error w2,
        ServiceWorker.fetchTodoItems settings w0 = (Ok raw, w1) ->
        estimate raw w1 = (Throw error, w2) -> untouched)
  /\ (networkFails w -> untouched)
  /\ (untouched
      \/ exists raw w1 assignments w2,
           truthy (get (sync_area w) "canvasUrl") = true
           /\ truthy (get (sync_area w) "apiToken") = true
           /\ ServiceWorker.fetchTodoItems settings w0 = (Ok raw, w1)
           /\ estimate raw w1 = (Ok assignments, w2)
           /\ let written :=
                ServiceWorker.snapshot assignments (clock w2 (length (trace w2))) in
              local_writes final = local_writes w ++ [written]
              /\ local_area final = written ∪ local_area w).

(** the example inputs of the properties below *)
Module Examples.

(** *** Built-ins for the examples

    Integers print in decimal (a fraction prints as a quotient, which no
    example relies on); dates are read and printed in the UTC form
    [YYYY-MM-DDTHH:MM:SS(.mmm)Z], weeks end in UTC; a query value keeps its
    letters, digits and [-_.*] and escapes the rest; a string converts to
    the number its JSON literal denotes. *)

Definition days_from_civil (y m d : Z) : Z :=
  let y := if m <=? 2 then y - 1 else y in
  let era := y / 400 in
  let yoe := y - era * 400 in
  let doy := (153 * (if 2 <? m then m - 3 else m + 9) + 2) / 5 + d - 1 in
  let doe := yoe * 365 + yoe / 4 - yoe / 100 + doy in
  era * 146097 + doe - 719468.

Definition civil_from_days (z : Z) : Z * Z * Z :=
  let z := z + 719468 in
  let era := z / 146097 in
  let doe := z - era * 146097 in
  let yoe := (doe - doe / 1460 + doe / 36524 - doe / 146096) / 365 in
  let doy := doe - (365 * yoe + yoe / 4 - yoe / 100) in
  let mp := (5 * doy + 2) / 153 in
  let d := doy - (153 * mp + 2) / 5 + 1 in
  let m := if mp <? 10 then mp + 3 else mp - 9 in
  (yoe + era * 400 + (if m <=? 2 then 1 else 0), m, d).

(** [width] decimal digits of [s], from position [start] *)
Definition field (start width : nat) (s : string) : option Z :=
  match JSON.take_digits (String.substring start width s) with
  | (ds, EmptyString) => if (length ds =? width)%nat then Some (JSON.digits_to_Z ds) else None
  | _ => None
  end.

Definition parse_iso (s : string) : option Z :=
  y ← field 0 4 s; m ← field 5 2 s; d ← field 8 2 s;
  h ← field 11 2 s; mi ← field 14 2 s; sec ← field 17 2 s;
  if String.eqb (String.substring 4 1 s) "-" && String.eqb (String.substring 7 1 s) "-"
     && String.eqb (String.substring 10 1 s) "T" && String.eqb (String.substring 13 1 s) ":"
     && String.eqb (String.substring 16 1 s) ":"
     && (String.eqb (String.substring 19 5 s) "Z" || String.eqb (String.substring 19 5 s) ".000Z")
  then Some ((((days_from_civil y m d * 24 + h) * 60 + mi) * 60 + sec) * 1000)
  else None.

Definition pad (width : nat) (z : Z) : string :=
  let digits := pretty z in
  String.string_of_list_ascii (replicate (width - String.length digits) "0"%char) +:+ digits.

Definition print_iso (t : Z) : string :=
  let '(y, m, d) := civil_from_days (t / 86400000) in
  let ms := t mod 86400000 in
  pad 4 y +:+ "-" +:+ pad 2 m +:+ "-" +:+ pad 2 d +:+ "T"
  +:+ pad 2 (ms / 3600000) +:+ ":" +:+ pad 2 (ms / 60000 mod 60) +:+ ":"
  +:+ pad 2 (ms / 1000 mod 60) +:+ "." +:+ pad 3 (ms mod 1000) +:+ "Z".

(** 1 January 1970 was a Thursday *)
Definition end_of_week (t : Z) : Z :=
  let day := t / 86400000 in
  let weekday := (day + 4) mod 7 in
  (day + (7 - weekday)) * 86400000 + 86399999.

Definition hex_digit (n : Z) : ascii :=
  if n <? 10 then ascii_of_N (Z.to_N (48 + n)) else ascii_of_N (Z.to_N (55 + n)).

Fixpoint escape (s : string) : string :=
  match s with
  | EmptyString => EmptyString
  | String c r =>
      let n := Z.of_N (N_of_ascii c) in
      if Regex.digit c || ((65 <=? n) && (n <=? 90)) || ((97 <=? n) && (n <=? 122))
         || (n =? 45) || (n =? 95) || (n =? 46) || (n =? 42)
      then String c (escape r)
      else if n =? 32 then String "+" (escape r)
      else String "%" (String (hex_digit (n / 16)) (String (hex_digit (n mod 16)) (escape r)))
  end.

Definition string_to_number (s : string) : number :=
  let s := Regex.trim s in
  if String.eqb s "" then num 0
  else match JSON.parse_number s with
       | Some (n, EmptyString) => n
       | _ => NaN
       end.

Definition print_number (q : Q) : string :=
  match Qden q with
  | xH => pretty (Qnum q)
  | d => pretty (Qnum q) +:+ "/" +:+ pretty (Zpos d)
  end.

Definition builtins : Builtins :=
  {| Number_toString := print_number;
     Date_parse := parse_iso;
     Date_toISOString := print_iso;
     Date_endOfWeek := end_of_week;
     URLSearchParams_escape := escape;
     StringToNumber := string_to_number |}.

(** [{ title: 'Quiz Discussion' }] *)
Definition quizDiscussion : obj := <["title" := VStr "Quiz Discussion"]> ∅.

(** [{ title: 'Final Essay', type: 'assignment', pointsPossible: 20,
       submissionTypes: ['online_upload'] }] *)
Definition finalEssay : obj :=
  <["title" := VStr "Final Essay"]>
  (<["type" := VStr "assignment"]>
  (<["pointsPossible" := VNum (num 20)]>
  (<["submissionTypes" := VArr [VStr "online_upload"]]> ∅))).

(** [{ title: 'Reading response', type: 'assignment', courseName: 'History',
       pointsPossible: 0, description: '<p>Read  <b>chapter 2</b></p>' }] *)
Definition zeroPoints : obj :=
  <["title" := VStr "Reading response"]>
  (<["type" := VStr "assignment"]>
  (<["courseName" := VStr "History"]>
  (<["pointsPossible" := VNum (num 0)]>
  (<["description" := VStr "<p>Read  <b>chapter 2</b></p>"]> ∅)))).

(** a browser with no settings stored and no network *)
Definition offline : World :=
  {| sync_area := ∅; local_area := ∅;
     network := fun _ _ => NetworkError (TypeError "Failed to fetch");
     clock := fun n => 1700000000000 + Z.of_nat n;
     trace := [] |}.

(** a browser set up for the OpenAI provider, with no network *)
Definition unreachable : World :=
  {| sync_area := <["aiProvider" := VStr "openai"]> (<["openaiApiKey" := VStr "sk-test"]> ∅);
     local_area := ∅;
     network := fun _ _ => NetworkError (TypeError "Failed to fetch");
     clock := fun n => 1700000000000 + Z.of_nat n;
     trace := [] |}.

(** [Sure! {"minutes": 45, "reasoning": "ok"} thanks] *)
Definition sureText : string :=
  "Sure! {" +:+ TimeEstimator.dq +:+ "minutes" +:+ TimeEstimator.dq +:+ ": 45, "
  +:+ TimeEstimator.dq +:+ "reasoning" +:+ TimeEstimator.dq +:+ ": "
  +:+ TimeEstimator.dq +:+ "ok" +:+ TimeEstimator.dq +:+ "} thanks".

(** [Here is my estimate: {"minutes": 45, "reasoning": "short quiz"}. Tell
    me if {more detail} is needed.] *)
Definition laterBrace : string :=
  "Here is my estimate: {" +:+ TimeEstimator.dq +:+ "minutes" +:+ TimeEstimator.dq
  +:+ ": 45, " +:+ TimeEstimator.dq +:+ "reasoning" +:+ TimeEstimator.dq +:+ ": "
  +:+ TimeEstimator.dq +:+ "short quiz" +:+ TimeEstimator.dq
  +:+ "}. Tell me if {more detail} is needed.".

(** [{"a":1} {"minutes": 45}] *)
Definition twoObjects : string :=
  "{" +:+ TimeEstimator.dq +:+ "a" +:+ TimeEstimator.dq +:+ ":1} {"
  +:+ TimeEstimator.dq +:+ "minutes" +:+ TimeEstimator.dq +:+ ": 45}".

(** [{ title: 'Homework 3', pointsPossible: NaN }] *)
Definition nanPoints : obj :=
  <["title" := VStr "Homework 3"]> (<["pointsPossible" := VNum NaN]> ∅).

(** *** A campus with three courses, the second of which fails *)

Definition quoted (s : string) : string := TimeEstimator.dq +:+ s +:+ TimeEstimator.dq.

(** [[{"id": 1, "name": "Math"}, {"id": 2, "name": "Art"}, {"id": 3, "name": "History"}]] *)
Definition coursesBody : string :=
  "[{" +:+ quoted "id" +:+ ": 1, " +:+ quoted "name" +:+ ": " +:+ quoted "Math" +:+ "}, {"
  +:+ quoted "id" +:+ ": 2, " +:+ quoted "name" +:+ ": " +:+ quoted "Art" +:+ "}, {"
  +:+ quoted "id" +:+ ": 3, " +:+ quoted "name" +:+ ": " +:+ quoted "History" +:+ "}]".

(** [[{"id": 11, "name": "Problem set", "due_at": "2024-03-20T23:59:00Z"}]] *)
Definition mathBody : string :=
  "[{" +:+ quoted "id" +:+ ": 11, " +:+ quoted "name" +:+ ": " +:+ quoted "Problem set"
  +:+ ", " +:+ quoted "due_at" +:+ ": " +:+ quoted "2024-03-20T23:59:00Z" +:+ "}]".

(** [[{"id": 31, "name": "Source essay", "due_at": "2024-03-18T12:00:00Z"}]] *)
Definition historyBody : string :=
  "[{" +:+ quoted "id" +:+ ": 31, " +:+ quoted "name" +:+ ": " +:+ quoted "Source essay"
  +:+ ", " +:+ quoted "due_at" +:+ ": " +:+ quoted "2024-03-18T12:00:00Z" +:+ "}]".

Definition campusUrl : string := "https://canvas.example.edu/api/v1".

Definition campusNetwork (tick : nat) (req : Request) : HttpOutcome :=
  if String.eqb (url req) (campusUrl +:+ "/courses?enrollment_state=active&per_page=50")
  then Responds 200 coursesBody
  else if String.eqb (url req)
            (campusUrl +:+ "/courses/1/assignments?per_page=50&order_by=due_at&bucket=upcoming")
  then Responds 200 mathBody
  else if String.eqb (url req)
            (campusUrl +:+ "/courses/3/assignments?per_page=50&order_by=due_at&bucket=upcoming")
  then Responds 200 historyBody
  else Responds 500 "Internal Server Error".

Definition campus : World :=
  {| sync_area := <["canvasUrl" := VStr "https://canvas.example.edu/"]>
                  (<["apiToken" := VStr "token"]> ∅);
     local_area := ∅;
     network := campusNetwork;
     clock := fun n => 1710500000000 + Z.of_nat n;
     trace := [] |}.

Definition campusClient : CanvasAPI.Canvas :=
  {| CanvasAPI.baseUrl := VStr campusUrl; CanvasAPI.apiToken := VStr "token" |}.

Definition campusCourses : list value :=
  [VObj (<["id" := VNum (num 1)]> (<["name" := VStr "Math"]> ∅));
   VObj (<["id" := VNum (num 2)]> (<["name" := VStr "Art"]> ∅));
   VObj (<["id" := VNum (num 3)]> (<["name" := VStr "History"]> ∅))].

Definition problemSet : obj :=
  <["id" := VNum (num 11)]> (<["name" := VStr "Problem set"]>
  (<["due_at" := VStr "2024-03-20T23:59:00Z"]>
  (<["courseName" := VStr "Math"]> (<["courseId" := VNum (num 1)]> ∅)))).

Definition sourceEssay : obj :=
  <["id" := VNum (num 31)]> (<["name" := VStr "Source essay"]>
  (<["due_at" := VStr "2024-03-18T12:00:00Z"]>
  (<["courseName" := VStr "History"]> (<["courseId" := VNum (num 3)]> ∅)))).

(** *** A cache, and a source that is down *)

Definition staleCache : obj :=
  <["cachedAssignments" := VArr [VObj sourceEssay]]>
    (<["lastUpdated" := VNum (num 1710000000000)]> ∅).

(** a configured browser with a cache, while the source answers 503 *)
Definition outage : World :=
  {| sync_area := <["canvasUrl" := VStr "https://canvas.example.edu/"]>
                  (<["apiToken" := VStr "token"]> ∅);
     local_area := staleCache;
     network := fun _ _ => Responds 503 "Service Unavailable";
     clock := fun n => 1710500000000 + Z.of_nat n;
     trace := [] |}.

(** [[{"plannable_type": "assignment", "plannable_id": 31,
       "plannable_date": "2024-03-18T12:00:00Z", "context_name": "History",
       "plannable": {"title": "Source essay", "points_possible": 50}}]] *)
Definition plannerBody : string :=
  "[{" +:+ quoted "plannable_type" +:+ ": " +:+ quoted "assignment" +:+ ", "
  +:+ quoted "plannable_id" +:+ ": 31, "
  +:+ quoted "plannable_date" +:+ ": " +:+ quoted "2024-03-18T12:00:00Z" +:+ ", "
  +:+ quoted "context_name" +:+ ": " +:+ quoted "History" +:+ ", "
  +:+ quoted "plannable" +:+ ": {" +:+ quoted "title" +:+ ": " +:+ quoted "Source essay"
  +:+ ", " +:+ quoted "points_possible" +:+ ": 50}}]".

(** the same browser once the source answers again *)
Definition recovered : World :=
  {| sync_area := sync_area outage;
     local_area := staleCache;
     network := fun _ _ => Responds 200 plannerBody;
     clock := clock outage;
     trace := [] |}.
End Examples.

(** ** The heuristic scorer *)

Section Heuristic.
Import TimeEstimator.

Lemma or_else_text v s :
  textOf v = Some s -> call_toLowerCase (or_else v (VStr "")) = Ok (toLowerCase s).
Proof.
  unfold textOf, or_else.
  destruct v as [| |b|n|t|l|o]; try discriminate.
  5: { intros [= <-]. simpl. destruct (String.eqb t "") eqn:E; simpl; [|reflexivity].
       apply String.eqb_eq in E. subst. reflexivity. }
  all: destruct (truthy _) eqn:E; [discriminate|]; intros [= <-]; reflexivity.
Qed.

Lemma textOf_nonempty v s : textOf v = Some s -> s <> "" -> v = VStr s.
Proof.
  unfold textOf. destruct v; try (destruct (truthy _)); intros Hs Hne;
    first [discriminate Hs | injection Hs as <-; congruence].
Qed.

Lemma categorize_resolve (a : obj) title type :
  textOf (get a "title") = Some title ->
  textOf (get a "type") = Some type ->
  categorizeAssignment a = Ok (Design.resolveCategory title type).
Proof.
  intros Ht Hy. unfold categorizeAssignment.
  rewrite (or_else_text _ _ Ht), (or_else_text _ _ Hy). simpl.
  unfold Design.resolveCategory, Design.categoryRules. simpl.
  unfold Design.applies. simpl.
  generalize (toLowerCase title) (toLowerCase type). intros t y.
  rewrite !orb_false_r.
  destruct (String.eqb y "quiz" || includes t "quiz"); [reflexivity|].
  destruct (String.eqb y "discussion" || includes t "discussion"); [reflexivity|].
  destruct (includes t "essay" || includes t "paper"); [reflexivity|].
  destruct (includes t "project" || includes t "presentation"); [reflexivity|].
  rewrite <- !orb_assoc.
  destruct (includes t "exam" || (includes t "test" || (includes t "midterm" || includes t "final")));
    [reflexivity|].
  destruct (includes t "reading" || includes t "read"); reflexivity.
Qed.

Lemma append_cons c a b : String c a +:+ b = String c (a +:+ b).
Proof. reflexivity. Qed.

Lemma append_nil b : "" +:+ b = b.
Proof. reflexivity. Qed.

Lemma prefix_app p : forall s, String.prefix p s = true <-> exists b, s = p +:+ b.
Proof.
  induction p as [|c p IH]; intros s; simpl.
  - split; [intros _; exists s; reflexivity | destruct s; reflexivity].
  - destruct s as [|d s]; simpl.
    + split; [discriminate | intros [b Hb]; discriminate].
    + destruct (ascii_dec c d) as [->|Hne].
      * rewrite IH. split; intros [b Hb]; exists b;
          [rewrite Hb; reflexivity | rewrite append_cons in Hb; congruence].
      * split; [discriminate | intros [b Hb]; rewrite append_cons in Hb; congruence].
Qed.

Lemma includes_nil p : includes "" p = String.prefix p "" || false.
Proof. reflexivity. Qed.

Lemma includes_cons c s p : includes (String c s) p = String.prefix p (String c s) || includes s p.
Proof. reflexivity. Qed.

Lemma includes_spec p : forall s,
  includes s p = true <-> exists a b, s = a +:+ p +:+ b.
Proof.
  induction s as [|c s IH].
  - rewrite includes_nil, orb_false_r, prefix_app. split.
    + intros [b Hb]. exists "", b. exact Hb.
    + intros (a & b & Hab). destruct a; [exists b; exact Hab | discriminate].
  - rewrite includes_cons, orb_true_iff, prefix_app, IH. split.
    + intros [[b Hb] | (a & b & Hab)].
      * exists "", b. exact Hb.
      * exists (String c a), b. rewrite append_cons, Hab. reflexivity.
    + intros (a & b & Hab). destruct a as [|d a].
      * left. exists b. exact Hab.
      * right. exists a, b. rewrite append_cons in Hab. congruence.
Qed.

Lemma toLowerCase_app a b : toLowerCase (a +:+ b) = toLowerCase a +:+ toLowerCase b.
Proof. induction a as [|c a IH]; [reflexivity|]. rewrite append_cons. simpl. rewrite IH. reflexivity. Qed.

Lemma categorize_quiz_first (a : obj) pre word post type :
  get a "title" = VStr (pre +:+ word +:+ post) ->
  toLowerCase word = "quiz" ->
  textOf (get a "type") = Some type ->
  categorizeAssignment a = Ok "quiz".
Proof.
  intros Ht Hw Hy.
  rewrite (categorize_resolve a (pre +:+ word +:+ post) type); [|rewrite Ht; reflexivity|exact Hy].
  unfold Design.resolveCategory. simpl.
  assert (includes (toLowerCase (pre +:+ word +:+ post)) "quiz" = true) as Hin.
  { apply includes_spec. exists (toLowerCase pre), (toLowerCase post).
    rewrite !toLowerCase_app, Hw. reflexivity. }
  unfold Design.applies at 1. simpl. rewrite Hin, orb_true_r. reflexivity.
Qed.

Lemma resolveCategory_cases title type :
  In (Design.resolveCategory title type) Design.categories.
Proof.
  unfold Design.resolveCategory, Design.categoryRules. simpl.
  repeat (match goal with
          | |- context [if ?b then _ else _] => destruct b
          end; simpl; [tauto|]).
  simpl. tauto.
Qed.

Lemma categories_in_table c :
  In c Design.categories ->
  exists r, defaultEstimates !! c = Some r /\ lookupRule c = (r, false).
Proof.
  unfold lookupRule. simpl.
  intros [<-|[<-|[<-|[<-|[<-|[<-|[<-|[]]]]]]]]; eexists; split; reflexivity.
Qed.


Lemma clamp_in_range m :
  is_NaN m = false ->
  exists q, Math_min (Math_max m (num 15)) (num 480) = Finite q /\ (15 <= q)%Q /\ (q <= 480)%Q.
Proof.
  destruct m as [|[|]|x]; [discriminate| | |]; intros _.
  - exists 15%Q. split; [reflexivity | split; [apply Qle_refl | discriminate]].
  - exists 480%Q. split; [reflexivity | split; [discriminate | apply Qle_refl]].
  - unfold Math_max, Math_min, num, num_leb.
    destruct (Qle_bool x (inject_Z 15)) eqn:Elow.
    + exists 15%Q. split; [reflexivity | split; [apply Qle_refl | discriminate]].
    + assert (15 <= x)%Q as Hlow.
      { apply Qlt_le_weak, Qnot_le_lt. intros Hle.
        apply Qle_bool_iff in Hle. change (inject_Z 15) with 15%Q in Elow. congruence. }
      destruct (Qle_bool x (inject_Z 480)) eqn:Ehigh.
      * exists x. split; [reflexivity | split; [exact Hlow | apply Qle_bool_iff; exact Ehigh]].
      * exists 480%Q. split; [reflexivity | split; [discriminate | apply Qle_refl]].
Qed.

Lemma is_NaN_add_num m z : is_NaN (num_add m (num z)) = is_NaN m.
Proof. destruct m; reflexivity. Qed.

Lemma is_NaN_points b k p :
  0 < k -> is_NaN p = false -> is_NaN (num_add (num b) (num_mul p (num k))) = false.
Proof.
  intros Hk. destruct p as [|s|x]; [discriminate| |reflexivity]. intros _.
  unfold num_mul, num. 
  assert (Qcompare (inject_Z k) 0 = Gt) as ->.
  { unfold Qcompare. simpl. rewrite Z.mul_1_r. apply Z.compare_gt_iff. exact Hk. }
  reflexivity.
Qed.

Lemma category_perPoint_pos c :
  In c Design.categories -> 0 < perPoint (lookupRule c).1.
Proof.
  simpl. intros [<-|[<-|[<-|[<-|[<-|[<-|[<-|[]]]]]]]]; vm_compute; reflexivity.
Qed.

Lemma heuristic_in_range (a : obj) title type :
  textOf (get a "title") = Some title ->
  textOf (get a "type") = Some type ->
  get a "pointsPossible" <> VNum NaN ->
  exists q, getHeuristicEstimate a = Ok (Finite q) /\ (15 <= q)%Q /\ (q <= 480)%Q.
Proof.
  intros Ht Hy Hp. unfold getHeuristicEstimate.
  rewrite (categorize_resolve a title type Ht Hy).
  change (Ok (Design.resolveCategory title type) ≫= ?f) with (f (Design.resolveCategory title type)).
  pose proof (category_perPoint_pos _ (resolveCategory_cases title type)) as Hpos.
  set (rules := (lookupRule (Design.resolveCategory title type)).1) in *.
  cbv beta zeta.
  match goal with
  | |- exists q, Ok (Math_min (Math_max ?m _) _) = _ /\ _ =>
      destruct (clamp_in_range m) as (q & Hq & Hlow & Hhigh);
        [| exists q; rewrite Hq; auto]
  end.
  assert (is_NaN (match get a "pointsPossible" with
                  | VNum p => num_add (num (base rules)) (num_mul p (num (perPoint rules)))
                  | _ => num (base rules)
                  end) = false) as Hbase.
  { destruct (get a "pointsPossible") as [| | |p| | |]; try reflexivity.
    apply is_NaN_points; [exact Hpos|]. destruct p; [congruence|reflexivity|reflexivity]. }
  destruct (get a "submissionTypes"); try exact Hbase.
  repeat match goal with
         | |- context [if ?b then _ else _] => destruct b
         end; rewrite ?is_NaN_add_num; exact Hbase.
Qed.


(** C3.  Category resolution is the first match of the priority list quiz,
    discussion, essay/paper, project/presentation, exam/test/midterm/final,
    reading/read, with "assignment" as the default: the match is a
    substring match on the lower-cased title, and the explicit type field
    counts for quiz and discussion only.  A quiz key word anywhere in the
    title, in any letter case, wins over every other rule; "Quiz Discussion"
    resolves to "quiz" and not to "discussion". *)
Theorem categorizeAssignment_first_match (a : obj) (title type : string) :
  textOf (get a "title") = Some title ->
  textOf (get a "type") = Some type ->
  categorizeAssignment a = Ok (Design.resolveCategory title type)
  /\ (forall pre word post,
        title = pre +:+ word +:+ post -> toLowerCase word = "quiz" ->
        categorizeAssignment a = Ok "quiz")
  /\ (title = "Quiz Discussion" ->
        categorizeAssignment a = Ok "quiz" /\ categorizeAssignment a <> Ok "discussion").
Proof.
  intros Ht Hy. split; [exact (categorize_resolve a title type Ht Hy)|]. split.
  - intros pre word post -> Hw.
    refine (categorize_quiz_first a pre word post type _ Hw Hy).
    apply textOf_nonempty; [exact Ht|].
    destruct pre; [destruct word; discriminate | discriminate].
  - intros ->. rewrite (categorize_resolve a _ type Ht Hy).
    assert (Design.resolveCategory "Quiz Discussion" type = "quiz") as ->.
    { unfold Design.resolveCategory. simpl. unfold Design.applies at 1. simpl.
      rewrite orb_true_r. reflexivity. }
    split; [reflexivity | discriminate].
Qed.

Lemma categorizeAssignment_first_match_witness :
  textOf (get Examples.quizDiscussion "title") = Some "Quiz Discussion"
  /\ textOf (get Examples.quizDiscussion "type") = Some ""
  /\ categorizeAssignment Examples.quizDiscussion = Ok "quiz".
Proof.
  split; [reflexivity|]. split; [reflexivity|].
  exact (proj1 (proj2 (proj2 (categorizeAssignment_first_match
           Examples.quizDiscussion "Quiz Discussion" "" eq_refl eq_refl)) eq_refl)).
Defined.

(** C10.  The category found for an assignment is one of quiz, discussion,
    essay, project, exam, reading, assignment; each is a key of
    [defaultEstimates], so the lookup in [getHeuristicEstimate] finds its
    rule and the right operand of [||] is never taken. *)
Theorem categorizeAssignment_in_table (a : obj) (title type : string) :
  textOf (get a "title") = Some title ->
  textOf (get a "type") = Some type ->
  exists c r,
    categorizeAssignment a = Ok c
    /\ In c Design.categories
    /\ defaultEstimates !! c = Some r
    /\ lookupRule c = (r, false).
Proof.
  intros Ht Hy. exists (Design.resolveCategory title type).
  destruct (categories_in_table _ (resolveCategory_cases title type)) as (r & Hr & Hl).
  exists r. split; [exact (categorize_resolve a title type Ht Hy)|].
  split; [apply resolveCategory_cases|]. split; assumption.
Qed.

Lemma categorizeAssignment_in_table_witness :
  textOf (get Examples.finalEssay "title") = Some "Final Essay"
  /\ textOf (get Examples.finalEssay "type") = Some "assignment"
  /\ exists c r,
       categorizeAssignment Examples.finalEssay = Ok c
       /\ In c Design.categories
       /\ defaultEstimates !! c = Some r
       /\ lookupRule c = (r, false).
Proof.
  split; [reflexivity|]. split; [reflexivity|].
  apply (categorizeAssignment_in_table Examples.finalEssay "Final Essay" "assignment");
    reflexivity.
Defined.




End Heuristic.

(** ** The prompt *)

Section Prompt.
Context `{Builtins}.
Import TimeEstimator Design.

Lemma submissionLine_typed v types :
  arrayOf v = Some types ->
  submissionLine v = Ok (match types with
                         | [] => None
                         | _ => Some ("Submission types: " +:+ array_join ", " types)
                         end).
Proof.
  destruct v as [| | | | |l|]; simpl; try discriminate; intros [= <-]; try reflexivity.
  destruct l; reflexivity.
Qed.

Lemma descriptionLine_typed v desc :
  textOf v = Some desc ->
  descriptionLine v = Ok (if String.eqb desc "" then None
                          else Some ("Description snippet: " +:+ truncate (stripTags desc) 500)).
Proof.
  unfold textOf, descriptionLine.
  destruct v as [| |b|n|s|l|o]; try (destruct (truthy _) eqn:E; [discriminate|]);
    intros [= <-]; try reflexivity.
  unfold stripHtml. simpl truthy. destruct (String.eqb s "") eqn:E; reflexivity.
Qed.

Lemma filter_Boolean_cons_line c s x l :
  filter_Boolean (Some (String c s +:+ x) :: l) = (String c s +:+ x) :: filter_Boolean l.
Proof. reflexivity. Qed.

Lemma filter_Boolean_cons_None l : filter_Boolean (None :: l) = filter_Boolean l.
Proof. reflexivity. Qed.

Lemma detailLines_typed (a : obj) types desc :
  arrayOf (get a "submissionTypes") = Some types ->
  textOf (get a "description") = Some desc ->
  detailLines a = Ok (expectedLines a types desc).
Proof.
  intros Ht Hd. unfold detailLines, detailEntries.
  rewrite (submissionLine_typed _ _ Ht), (descriptionLine_typed _ _ Hd).
  unfold expectedLines, pointsLine.
  change (Ok ?x ≫= ?f) with (f x). cbv beta.
  change (Ok ?x ≫= ?f) with (f x). cbv beta.
  change (Ok ?x ≫= ?f) with (f x). cbv beta.
  f_equal. rewrite !filter_Boolean_cons_line. simpl app. do 3 f_equal.
  destruct (get a "pointsPossible"); destruct types; destruct (String.eqb desc ""); reflexivity.
Qed.

Lemma expectedLines_points (a : obj) types desc :
  hasLine "Points: " (expectedLines a types desc) <-> exists n, get a "pointsPossible" = VNum n.
Proof.
  unfold hasLine, expectedLines. rewrite !existsb_app.
  change (existsb _ [_; _; _]) with false.
  assert (existsb (String.prefix "Points: ")
            match types with
            | [] => []
            | _ => ["Submission types: " +:+ array_join ", " types]
            end = false) as -> by (destruct types; reflexivity).
  assert (existsb (String.prefix "Points: ")
            (if String.eqb desc "" then []
             else ["Description snippet: " +:+ truncate (stripTags desc) 500]) = false) as ->
    by (destruct (String.eqb desc ""); reflexivity).
  rewrite !orb_false_r, orb_false_l.
  destruct (get a "pointsPossible") as [| | |n| | |];
    try (split; [discriminate | intros [? [=]]]).
  split; [intros _; exists n; reflexivity|]. intros _. simpl.
  rewrite orb_false_r. apply prefix_app. eexists. reflexivity.
Qed.

Lemma expectedLines_submission (a : obj) types desc :
  hasLine "Submission types: " (expectedLines a types desc) <-> types <> [].
Proof.
  unfold hasLine, expectedLines. rewrite !existsb_app.
  change (existsb _ [_; _; _]) with false.
  assert (existsb (String.prefix "Submission types: ")
            match get a "pointsPossible" with
            | VNum n => ["Points: " +:+ number_toString n]
            | _ => []
            end = false) as -> by (destruct (get a "pointsPossible"); reflexivity).
  assert (existsb (String.prefix "Submission types: ")
            (if String.eqb desc "" then []
             else ["Description snippet: " +:+ truncate (stripTags desc) 500]) = false) as ->
    by (destruct (String.eqb desc ""); reflexivity).
  rewrite !orb_false_r, !orb_false_l.
  destruct types; [split; [discriminate | congruence]|].
  split; [discriminate|]. intros _. simpl.
  rewrite orb_false_r. apply prefix_app. eexists. reflexivity.
Qed.

Lemma expectedLines_description (a : obj) types desc :
  hasLine "Description snippet: " (expectedLines a types desc) <-> desc <> "".
Proof.
  unfold hasLine, expectedLines. rewrite !existsb_app.
  change (existsb _ [_; _; _]) with false.
  assert (existsb (String.prefix "Description snippet: ")
            match get a "pointsPossible" with
            | VNum n => ["Points: " +:+ number_toString n]
            | _ => []
            end = false) as -> by (destruct (get a "pointsPossible"); reflexivity).
  assert (existsb (String.prefix "Description snippet: ")
            match types with
            | [] => []
            | _ => ["Submission types: " +:+ array_join ", " types]
            end = false) as -> by (destruct types; reflexivity).
  rewrite !orb_false_l.
  destruct (String.eqb desc "") eqn:E.
  - apply String.eqb_eq in E. split; [discriminate | congruence].
  - apply String.eqb_neq in E. split; [intros _; exact E|]. intros _. simpl.
    rewrite orb_false_r. apply prefix_app. eexists. reflexivity.
Qed.

Lemma substring_0_split n : forall s,
  (n <= String.length s)%nat ->
  String.length (String.substring 0 n s) = n
  /\ exists rest, s = String.substring 0 n s +:+ rest.
Proof.
  induction n as [|n IH]; intros s Hn.
  - destruct s; (split; [reflexivity | eexists; reflexivity]).
  - destruct s as [|c s]; [simpl in Hn; lia|].
    destruct (IH s) as (Hlen & rest & Hrest); [simpl in Hn; lia|].
    split; [simpl; rewrite Hlen; reflexivity|].
    exists rest. simpl. change (String c ?x +:+ rest) with (String c (x +:+ rest)).
    rewrite <- Hrest. reflexivity.
Qed.

Lemma truncate_short text n :
  (String.length text <= n)%nat -> truncate text n = text.
Proof.
  intros Hn. unfold truncate.
  destruct (Nat.leb_spec (String.length text) n); [|lia].
  rewrite orb_true_r. reflexivity.
Qed.

Lemma truncate_long text n :
  (n < String.length text)%nat ->
  truncate text n = String.substring 0 n text +:+ "..."
  /\ String.length (String.substring 0 n text) = n
  /\ exists rest, text = String.substring 0 n text +:+ rest.
Proof.
  intros Hn. unfold truncate.
  destruct (Nat.leb_spec (String.length text) n); [lia|].
  assert (String.eqb text "" = false) as ->
    by (destruct text; [simpl in Hn; lia | reflexivity]).
  split; [reflexivity|]. apply substring_0_split. lia.
Qed.


(** C8.  [buildPrompt] renders the title, type and course, a Points line
    exactly when [pointsPossible] is a number (zero included), a submission
    types line exactly when the list has an element, and, when there is a
    description, a snippet with the tags stripped and the white space
    collapsed, cut after 500 characters with an ellipsis appended.  The
    earlier JavaScript file tests the points for truthiness instead, and
    leaves the Points line out for zero points. *)
Theorem buildPrompt_details :
  (forall (a : obj) (types : list value) (desc : string),
     arrayOf (get a "submissionTypes") = Some types ->
     textOf (get a "description") = Some desc ->
     exists lines,
       buildPrompt a = Ok (promptHeader +:+ String.concat nl lines +:+ promptFooter)
       /\ lines = expectedLines a types desc
       /\ (hasLine "Points: " lines <-> exists n, get a "pointsPossible" = VNum n)
       /\ (hasLine "Submission types: " lines <-> types <> [])
       /\ (hasLine "Description snippet: " lines <-> desc <> ""))
  /\ (forall text n, (String.length text <= n)%nat -> truncate text n = text)
  /\ (forall text n,
        (n < String.length text)%nat ->
        truncate text n = String.substring 0 n text +:+ "..."
        /\ String.length (String.substring 0 n text) = n
        /\ exists rest, text = String.substring 0 n text +:+ rest)
  /\ detailLines Examples.zeroPoints
      = Ok ["Title: Reading response"; "Type: assignment"; "Course: History";
            "Points: " +:+ Number_toString (inject_Z 0);
            "Description snippet: Read chapter 2"]
  /\ TimeEstimatorJS.detailLines Examples.zeroPoints
      = Ok ["Title: Reading response"; "Type: assignment"; "Course: History";
            "Description snippet: Read chapter 2"].
Proof.
  split; [|split; [exact truncate_short | split; [exact truncate_long |]]].
  - intros a types desc Ht Hd. exists (expectedLines a types desc).
    split; [unfold buildPrompt; rewrite (detailLines_typed a types desc Ht Hd); reflexivity|].
    split; [reflexivity|].
    split; [apply expectedLines_points|].
    split; [apply expectedLines_submission | apply expectedLines_description].
  - split; vm_compute; reflexivity.
Qed.

End Prompt.

Lemma buildPrompt_details_witness :
  arrayOf (get Examples.finalEssay "submissionTypes") = Some [VStr "online_upload"]
  /\ textOf (get Examples.finalEssay "description") = Some ""
  /\ exists lines,
       @TimeEstimator.buildPrompt Examples.builtins Examples.finalEssay
       = Ok (TimeEstimator.promptHeader +:+ String.concat TimeEstimator.nl lines
             +:+ TimeEstimator.promptFooter)
       /\ lines = ["Title: Final Essay"; "Type: assignment"; "Course: undefined";
                   "Points: 20"; "Submission types: online_upload"].
Proof.
  split; [reflexivity|]. split; [reflexivity|].
  destruct (proj1 (@buildPrompt_details Examples.builtins) Examples.finalEssay
              [VStr "online_upload"] "" eq_refl eq_refl) as (lines & Hp & Hl & _).
  exists lines. split; [exact Hp|]. rewrite Hl. vm_compute. reflexivity.
Defined.

(** ** The parser of the local backend *)

Section OllamaParser.
Import TimeEstimator Design.

(** the parse stage on a text: the greedy match parsed, or else the first
    "<number> minute(s)", or else the default *)
Lemma parseOllama_run text :
  parseOllama (VStr text)
  = Ok (firstSuccess [greedyJson text; bareMinutes text] defaultEstimate).
Proof.
  unfold parseOllama, greedyJson, bareMinutes, call_match.
  change (Ok ?x ≫= ?f) with (f x). cbv beta.
  destruct (Regex.String_match jsonRe text) as [chunks|]; simpl.
  - destruct (JSON.parse (Regex.whole chunks)) as [v|e]; simpl; [reflexivity|].
    destruct (Regex.String_match minutesRe text); reflexivity.
  - destruct (Regex.String_match minutesRe text); reflexivity.
Qed.

Lemma no_brace_cons c text :
  includes (String c text) "{" = false -> c <> "{"%char /\ includes text "{" = false.
Proof.
  intros Hn. split.
  - intros ->.
    assert (includes (String "{" text) "{" = true) as Hyes; [|congruence].
    apply includes_spec. exists "", text. reflexivity.
  - rewrite includes_cons in Hn. apply orb_false_iff in Hn as [_ Hrest]. exact Hrest.
Qed.

(** without an opening brace there is no embedded object *)
Lemma embeddedJson_no_brace text : includes text "{" = false -> embeddedJson text = None.
Proof.
  induction text as [|c text IH]; [reflexivity|].
  intros Hn. apply no_brace_cons in Hn as [Hc Hrest]. cbn [embeddedJson].
  destruct (Ascii.eqb_spec c "{") as [->|_]; [contradiction|]. exact (IH Hrest).
Qed.


End OllamaParser.

(** ** Effects *)

Section Effects.
Context {S : Type}.

Lemma bind_Ok {A B} (m : M S A) (f : A -> M S B) s a s' :
  m s = (Ok a, s') -> bind m f s = f a s'.
Proof. unfold bind. intros ->. reflexivity. Qed.

Lemma bind_Throw {A B} (m : M S A) (f : A -> M S B) s e s' :
  m s = (Throw e, s') -> bind m f s = (Throw e, s').
Proof. unfold bind. intros ->. reflexivity. Qed.

Lemma try_catchM_Ok {A} (m : M S A) h s a s' :
  m s = (Ok a, s') -> try_catchM m h s = (Ok a, s').
Proof. unfold try_catchM. intros ->. reflexivity. Qed.

Lemma try_catchM_Throw {A} (m : M S A) h s e s' :
  m s = (Throw e, s') -> try_catchM m h s = h e s'.
Proof. unfold try_catchM. intros ->. reflexivity. Qed.
End Effects.

Lemma fetches_record e w :
  fetches (record e w) = fetches w ++ match e with EFetch r => [r] | _ => [] end.
Proof.
  unfold fetches, record. simpl. rewrite omap_app. simpl.
  destruct e; reflexivity.
Qed.

Lemma local_writes_record e w :
  local_writes (record e w) = local_writes w ++ match e with ELocalSet i => [i] | _ => [] end.
Proof.
  unfold local_writes, record. simpl. rewrite omap_app. simpl.
  destruct e; reflexivity.
Qed.

Section Estimator.
Context `{Builtins}.
Import TimeEstimator Design.

Definition configKeys : list string :=
  ["aiProvider"; "openaiApiKey"; "anthropicApiKey"; "localLlmUrl";
   "localLlmModel"; "estimationModel"].

(** the fields of [this] after [configure()] has read [settings] *)
Definition configured (settings : obj) (e : Estimator) : Estimator :=
  let provider := or_else (get settings "aiProvider") (VStr "none") in
  let e := set_model (or_else (get settings "estimationModel") (VStr "gpt-3.5-turbo"))
             (set_aiProvider provider e) in
  if is_str provider "openai" then set_apiKey (get settings "openaiApiKey") e
  else if is_str provider "anthropic" then set_apiKey (get settings "anthropicApiKey") e
  else if is_str provider "local" then
    set_localLlmModel (or_else (get settings "localLlmModel") (VStr "qwen2.5-coder:1.5b"))
      (set_localLlmUrl (or_else (get settings "localLlmUrl") (VStr "http://localhost:11434")) e)
  else e.

Lemma configure_run e w :
  configure (e, w)
  = (Ok tt, (configured (pick configKeys (sync_area w)) e, record (ESyncGet configKeys) w)).
Proof.
  unfold configure, configured, bind, on_world, storage_sync_get, update. simpl.
  fold configKeys.
  set (settings := pick configKeys (sync_area w)).
  destruct (is_str (or_else (get settings "aiProvider") (VStr "none")) "openai"); [reflexivity|].
  destruct (is_str (or_else (get settings "aiProvider") (VStr "none")) "anthropic"); [reflexivity|].
  destruct (is_str (or_else (get settings "aiProvider") (VStr "none")) "local"); reflexivity.
Qed.

Lemma heuristicBranch_run a s m :
  getHeuristicEstimate a = Ok m -> heuristicBranch a s = (Ok (VNum m, "heuristic"), s).
Proof. unfold heuristicBranch, bind, lift, ret. intros ->. reflexivity. Qed.

(** the object [estimateSingle] returns *)
Definition enriched (a : obj) (minutes : value) (method : string) (now : Z) : obj :=
  <["estimatedAt" := VNum (num now)]>
    (<["estimationMethod" := VStr method]> (<["estimatedMinutes" := minutes]> a)).

(** the part of [estimateSingle] between [configure()] and [Date.now()] *)
Definition chooseEstimate (a : obj) : Method (value * string) := fun s =>
  (if useAI s.1 then try_catchM (aiBranch a) (fun _ => heuristicBranch a)
   else heuristicBranch a) s.

Lemma estimateSingle_run a e w :
  estimateSingle a (e, w)
  = match chooseEstimate a (configured (pick configKeys (sync_area w)) e,
                            record (ESyncGet configKeys) w) with
    | (Ok est, s) =>
        (Ok (enriched a est.1 est.2 (clock s.2 (length (trace s.2)))),
         (s.1, record ENow s.2))
    | (Throw err, s) => (Throw err, s)
    end.
Proof.
  unfold estimateSingle. rewrite (bind_Ok _ _ _ _ _ (configure_run e w)).
  unfold bind at 1. unfold this at 1. cbv beta iota.
  unfold bind at 1. unfold chooseEstimate. cbn [fst snd].
  match goal with |- context [match ?x with (_, _) => _ end] => destruct x as [[est|err] s] end;
    [|reflexivity].
  reflexivity.
Qed.

Lemma heuristic_total (a : obj) title type :
  textOf (get a "title") = Some title ->
  textOf (get a "type") = Some type ->
  exists m, getHeuristicEstimate a = Ok m.
Proof.
  intros Ht Hy. unfold getHeuristicEstimate.
  rewrite (categorize_resolve a title type Ht Hy). eexists. reflexivity.
Qed.

Lemma enriched_method a minutes method now :
  enriched a minutes method now !! "estimationMethod" = Some (VStr method).
Proof. unfold enriched. rewrite lookup_insert_ne by discriminate. apply lookup_insert_eq. Qed.

Lemma enriched_minutes a minutes method now :
  enriched a minutes method now !! "estimatedMinutes" = Some minutes.
Proof. unfold enriched. rewrite !lookup_insert_ne by discriminate. apply lookup_insert_eq. Qed.

Lemma enriched_at a minutes method now :
  enriched a minutes method now !! "estimatedAt" = Some (VNum (num now)).
Proof. unfold enriched. apply lookup_insert_eq. Qed.

Lemma enriched_other a minutes method now k :
  k <> "estimatedMinutes" -> k <> "estimationMethod" -> k <> "estimatedAt" ->
  enriched a minutes method now !! k = a !! k.
Proof. intros. unfold enriched. rewrite !lookup_insert_ne by congruence. reflexivity. Qed.

Lemma pick_cons k0 keys (area : obj) :
  pick (k0 :: keys) area
  = match area !! k0 with
    | Some v => <[k0 := v]> (pick keys area)
    | None => pick keys area
    end.
Proof. unfold pick. simpl. destruct (area !! k0); reflexivity. Qed.

Lemma lookup_pick keys (area : obj) k :
  pick keys area !! k = if decide (k ∈ keys) then area !! k else None.
Proof.
  induction keys as [|k0 keys IH].
  - unfold pick. simpl. rewrite lookup_empty. reflexivity.
  - rewrite pick_cons. destruct (area !! k0) as [v|] eqn:E.
    + rewrite lookup_insert. destruct (decide (k0 = k)) as [->|Hne].
      * rewrite decide_True by (left). congruence.
      * rewrite IH. destruct (decide (k ∈ keys)).
        -- rewrite decide_True by (right; assumption). reflexivity.
        -- rewrite decide_False; [reflexivity|]. intros [?|?]%elem_of_cons; congruence.
    + rewrite IH. destruct (decide (k ∈ keys)).
      * rewrite decide_True by (right; assumption). reflexivity.
      * destruct (decide (k ∈ k0 :: keys)) as [[->|?]%elem_of_cons|]; congruence.
Qed.

Lemma get_pick keys (area : obj) k : k ∈ keys -> get (pick keys area) k = get area k.
Proof. intros Hk. unfold get. rewrite lookup_pick, decide_True by assumption. reflexivity. Qed.

Lemma is_str_eq v lit : is_str v lit = true -> v = VStr lit.
Proof.
  destruct v; simpl; try discriminate. intros E. apply String.eqb_eq in E. congruence.
Qed.


Lemma useAI_configured settings e : useAI (configured settings e) = eligible settings.
Proof.
  unfold configured, eligible. cbv zeta.
  set (p := or_else (get settings "aiProvider") (VStr "none")).
  destruct (is_str p "openai") eqn:Eo.
  { apply is_str_eq in Eo. rewrite Eo. unfold useAI. simpl.
    destruct (truthy (get settings "openaiApiKey")); reflexivity. }
  destruct (is_str p "anthropic") eqn:Ea.
  { apply is_str_eq in Ea. rewrite Ea. unfold useAI. simpl.
    destruct (truthy (get settings "anthropicApiKey")); reflexivity. }
  destruct (is_str p "local") eqn:El.
  { unfold useAI. simpl. rewrite El. reflexivity. }
  unfold useAI. simpl. rewrite Eo, Ea, El. simpl. apply andb_false_r.
Qed.

Lemma eligible_pick area : eligible (pick configKeys area) = eligible area.
Proof.
  unfold eligible.
  rewrite !get_pick by (unfold configKeys; set_solver). reflexivity.
Qed.

Lemma estimateSingle_falls_back_ts (a : obj) (e : Estimator) (w : World) (title type : string) :
  textOf (get a "title") = Some title ->
  textOf (get a "type") = Some type ->
  eligible (sync_area w) = false
  \/ (exists err s2, aiBranch a (configure (e, w)).2 = (Throw err, s2)) ->
  exists minutes r s',
    getHeuristicEstimate a = Ok minutes
    /\ estimateSingle a (e, w) = (Ok r, s')
    /\ r !! "estimationMethod" = Some (VStr "heuristic")
    /\ r !! "estimatedMinutes" = Some (VNum minutes)
    /\ (eligible (sync_area w) = false -> fetches s'.2 = fetches w).
Proof.
  intros Ht Hy Hfail.
  destruct (heuristic_total a title type Ht Hy) as [m Hm].
  exists m. rewrite estimateSingle_run. rewrite configure_run in Hfail. cbn [snd] in Hfail.
  set (s1 := (configured (pick configKeys (sync_area w)) e, record (ESyncGet configKeys) w)) in *.
  unfold chooseEstimate.
  assert (useAI s1.1 = eligible (sync_area w)) as Hu
    by (unfold s1; cbn [fst]; rewrite useAI_configured; apply eligible_pick).
  destruct (useAI s1.1) eqn:Eu.
  - destruct Hfail as [Hno | (err & s2 & Hthrow)]; [congruence|].
    rewrite (try_catchM_Throw _ _ _ _ _ Hthrow), (heuristicBranch_run a s2 m Hm).
    eexists _, _. split; [exact Hm|]. split; [reflexivity|].
    split; [apply enriched_method|]. split; [apply enriched_minutes|]. congruence.
  - rewrite (heuristicBranch_run a s1 m Hm).
    eexists _, _. split; [exact Hm|]. split; [reflexivity|].
    split; [apply enriched_method|]. split; [apply enriched_minutes|].
    intros _. cbn [snd fst]. unfold s1. cbn [snd]. rewrite !fetches_record.
    rewrite !app_nil_r. reflexivity.
Qed.

End Estimator.

(** ** Methods that leave the storage areas alone *)

(** no storage area is written, and the trace only grows *)
Definition quiet (w w' : World) : Prop :=
  sync_area w' = sync_area w
  /\ local_area w' = local_area w
  /\ network w' = network w
  /\ clock w' = clock w
  /\ local_writes w' = local_writes w
  /\ exists events, trace w' = events ++ trace w.

(** a method that leaves the storage areas alone *)
Definition quietly {S A} (m : M (S * World) A) : Prop :=
  forall s, quiet s.2 (m s).2.2.

Section Quiet.

Lemma quiet_refl w : quiet w w.
Proof. repeat split. exists []. reflexivity. Qed.

Lemma quiet_trans w1 w2 w3 : quiet w1 w2 -> quiet w2 w3 -> quiet w1 w3.
Proof.
  intros (Hs & Hl & Hn & Hc & Hw & ev & Ht) (Hs' & Hl' & Hn' & Hc' & Hw' & ev' & Ht').
  repeat split; try congruence.
  exists (ev' ++ ev). rewrite Ht', Ht, app_assoc. reflexivity.
Qed.

Lemma quiet_record e w :
  (forall items, e <> ELocalSet items) -> quiet w (record e w).
Proof.
  intros He. repeat split.
  - rewrite local_writes_record. destruct e; try apply app_nil_r. destruct (He items eq_refl).
  - exists [e]. reflexivity.
Qed.

Context {S : Type}.

Lemma quietly_ret {A} (a : A) : quietly (ret (S := S * World) a).
Proof. intros s. apply quiet_refl. Qed.

Lemma quietly_throw {A} e : quietly (throw (S := S * World) (A := A) e).
Proof. intros s. apply quiet_refl. Qed.

Lemma quietly_lift {A} (r : result A) : quietly (lift (S := S * World) r).
Proof. intros s. apply quiet_refl. Qed.

Lemma quietly_this : quietly (this (S := S)).
Proof. intros s. apply quiet_refl. Qed.

Lemma quietly_update f : quietly (update (S := S) f).
Proof. intros s. apply quiet_refl. Qed.

Lemma quietly_bind {A B} (m : M (S * World) A) (f : A -> M (S * World) B) :
  quietly m -> (forall a, quietly (f a)) -> quietly (bind m f).
Proof.
  intros Hm Hf s. unfold bind. specialize (Hm s).
  destruct (m s) as [[a|e] s1]; simpl in *; [|exact Hm].
  exact (quiet_trans _ _ _ Hm (Hf a s1)).
Qed.

Lemma quietly_try_catchM {A} (m : M (S * World) A) h :
  quietly m -> (forall e, quietly (h e)) -> quietly (try_catchM m h).
Proof.
  intros Hm Hh s. unfold try_catchM. specialize (Hm s).
  destruct (m s) as [[a|e] s1]; simpl in *; [exact Hm|].
  exact (quiet_trans _ _ _ Hm (Hh e s1)).
Qed.

Lemma quietly_on_world {A} (m : M World A) :
  (forall w, quiet w (m w).2) -> quietly (on_world (S := S) m).
Proof.
  intros Hm s. unfold on_world. specialize (Hm s.2).
  destruct (m s.2) as [r w]. exact Hm.
Qed.

Lemma quietly_fetch req : quietly (on_world (S := S) (fetch req)).
Proof.
  apply quietly_on_world. intros w. unfold fetch.
  destruct (network w (length (trace w)) req); apply quiet_record; discriminate.
Qed.

Lemma quietly_sync_get keys : quietly (on_world (S := S) (storage_sync_get keys)).
Proof. apply quietly_on_world. intros w. apply quiet_record. discriminate. Qed.

Lemma quietly_Date_now : quietly (on_world (S := S) Date_now).
Proof. apply quietly_on_world. intros w. apply quiet_record. discriminate. Qed.

End Quiet.

Ltac quiet_step :=
  first
    [ apply quietly_ret | apply quietly_throw | apply quietly_lift | apply quietly_this
    | apply quietly_update | apply quietly_fetch | apply quietly_sync_get
    | apply quietly_Date_now
    | apply quietly_bind; [|intros ?]
    | apply quietly_try_catchM; [|intros ?]
    | match goal with |- quietly (if ?b then _ else _) => destruct b end ].

Section EstimatorQuiet.
Context `{Builtins}.
Import TimeEstimator.

Lemma quietly_callOpenAI prompt : quietly (callOpenAI prompt).
Proof. unfold callOpenAI. repeat quiet_step. Qed.

Lemma quietly_callAnthropic prompt : quietly (callAnthropic prompt).
Proof. unfold callAnthropic. repeat quiet_step. Qed.

Lemma quietly_callOllama prompt : quietly (callOllama prompt).
Proof. unfold callOllama. repeat quiet_step. Qed.

Lemma quietly_getAIEstimate a : quietly (getAIEstimate a).
Proof.
  unfold getAIEstimate.
  repeat first [ apply quietly_callOpenAI | apply quietly_callAnthropic
               | apply quietly_callOllama | quiet_step ].
Qed.

Lemma quietly_configure : quietly configure.
Proof. unfold configure. repeat quiet_step. Qed.

Lemma quietly_estimateSingle a : quietly (estimateSingle a).
Proof.
  unfold estimateSingle, aiBranch, heuristicBranch.
  repeat first [ apply quietly_configure | apply quietly_getAIEstimate | quiet_step ].
Qed.

Lemma quietly_estimateAll_loop l : forall acc, quietly (estimateAll_loop l acc).
Proof.
  induction l as [|a l IH]; intros acc; simpl.
  - apply quietly_ret.
  - apply quietly_bind; [apply quietly_estimateSingle | intros ?; apply IH].
Qed.

Lemma quietly_estimateAll l : quietly (estimateAll l).
Proof.
  unfold estimateAll. apply quietly_bind; [apply quietly_configure|].
  intros _. apply quietly_estimateAll_loop.
Qed.
End EstimatorQuiet.

(** ** [estimateAll] and the object [estimateSingle] returns *)

Section EstimateAll.
Context `{Builtins}.
Import TimeEstimator Design.

Lemma runsInOrder_length {S A B} (f : A -> M S B) items s out s' :
  runsInOrder f items s out s' -> length out = length items.
Proof. induction 1; simpl; congruence. Qed.

Lemma runsInOrder_lookup {S A B} (f : A -> M S B) items s out s' :
  runsInOrder f items s out s' ->
  forall i a, items !! i = Some a ->
  exists si si' b, f a si = (Ok b, si') /\ out !! i = Some b.
Proof.
  induction 1 as [|a0 items s b s1 out s2 Hf Hrun IH]; intros i a Hi; [discriminate|].
  destruct i as [|i]; simpl in Hi.
  - injection Hi as <-. exists s, s1, b. split; [exact Hf | reflexivity].
  - exact (IH i a Hi).
Qed.

Lemma chooseEstimate_total (a : obj) s :
  textual a -> exists est s', chooseEstimate a s = (Ok est, s').
Proof.
  intros [[title Ht] [type Hy]].
  destruct (heuristic_total a title type Ht Hy) as [m Hm].
  unfold chooseEstimate. destruct (useAI s.1).
  - unfold try_catchM. destruct (aiBranch a s) as [[est|err] s1]; [eauto|].
    rewrite (heuristicBranch_run a s1 m Hm). eauto.
  - rewrite (heuristicBranch_run a s m Hm). eauto.
Qed.

Lemma estimateSingle_total (a : obj) s :
  textual a -> exists r s', estimateSingle a s = (Ok r, s').
Proof.
  intros Ha. destruct s as [e w]. rewrite estimateSingle_run.
  destruct (chooseEstimate_total a
              (configured (pick configKeys (sync_area w)) e, record (ESyncGet configKeys) w) Ha)
    as (est & s' & ->).
  eauto.
Qed.

Lemma estimateAll_loop_runs items : forall acc s out s',
  estimateAll_loop items acc s = (Ok out, s') ->
  exists new, out = acc ++ new /\ runsInOrder estimateSingle items s new s'.
Proof.
  induction items as [|a items IH]; intros acc s out s'; simpl.
  - unfold ret. intros [= <- <-]. exists []. rewrite app_nil_r. split; [reflexivity | constructor].
  - unfold bind at 1. destruct (estimateSingle a s) as [[b|e] s1] eqn:Ea; [|discriminate].
    intros Hrest. destruct (IH _ _ _ _ Hrest) as (new & -> & Hrun).
    exists (b :: new). rewrite <- app_assoc. split; [reflexivity|].
    econstructor; eassumption.
Qed.

Lemma estimateAll_loop_total items : forall acc s,
  Forall textual items -> exists out s', estimateAll_loop items acc s = (Ok out, s').
Proof.
  induction items as [|a items IH]; intros acc s Hall; simpl.
  - unfold ret. eauto.
  - inversion Hall as [|? ? Ha Hrest]; subst.
    destruct (estimateSingle_total a s Ha) as (r & s1 & Hr).
    rewrite (bind_Ok _ _ _ _ _ Hr). apply IH. exact Hrest.
Qed.

Lemma estimateAll_unfold items s :
  estimateAll items s = estimateAll_loop items [] (configure s).2.
Proof.
  unfold estimateAll. destruct s as [e w]. rewrite (bind_Ok _ _ _ _ _ (configure_run e w)).
  rewrite configure_run. reflexivity.
Qed.

(** C6.  [estimateAll] runs [estimateSingle] on the items of the list in
    their order, each after the one before has finished, and returns the
    estimates in the same order: the output is as long as the input, its
    i-th element is what [estimateSingle] returned for the i-th item, and
    the empty list gives the empty list. *)
Theorem estimateAll_in_order (items : list obj) (s : Estimator * World) :
  Forall textual items ->
  exists out s',
    estimateAll items s = (Ok out, s')
    /\ runsInOrder estimateSingle items (configure s).2 out s'
    /\ length out = length items
    /\ (forall i a, items !! i = Some a ->
         exists si si' b, estimateSingle a si = (Ok b, si') /\ out !! i = Some b)
    /\ (items = [] -> out = [] /\ s' = (configure s).2).
Proof.
  intros Hall. rewrite estimateAll_unfold.
  destruct (estimateAll_loop_total items [] (configure s).2 Hall) as (out & s' & Hloop).
  exists out, s'. split; [exact Hloop|].
  destruct (estimateAll_loop_runs _ _ _ _ _ Hloop) as (new & -> & Hrun). simpl.
  split; [exact Hrun|]. split; [exact (runsInOrder_length _ _ _ _ _ Hrun)|].
  split; [exact (runsInOrder_lookup _ _ _ _ _ Hrun)|].
  intros ->. inversion Hrun; subst. split; reflexivity.
Qed.

Lemma chooseEstimate_quiet (a : obj) s : quiet s.2 (chooseEstimate a s).2.2.
Proof.
  unfold chooseEstimate. destruct (useAI s.1).
  - apply (quietly_try_catchM (aiBranch a) (fun _ => heuristicBranch a)).
    + unfold aiBranch. repeat first [apply quietly_getAIEstimate | quiet_step].
    + intros e. unfold heuristicBranch. repeat quiet_step.
  - unfold heuristicBranch. apply (quietly_bind (lift (getHeuristicEstimate a))); repeat quiet_step.
Qed.

Lemma chooseEstimate_method (a : obj) s est s' :
  chooseEstimate a s = (Ok est, s') -> est.2 = "ai" \/ est.2 = "heuristic".
Proof.
  assert (forall s0 est0 s1, heuristicBranch a s0 = (Ok est0, s1) -> est0.2 = "heuristic") as Hh.
  { intros s0 est0 s1. unfold heuristicBranch, bind, lift, ret.
    destruct (getHeuristicEstimate a); [|discriminate]. intros [= <- _]. reflexivity. }
  unfold chooseEstimate. destruct (useAI s.1); [|intros E; right; exact (Hh _ _ _ E)].
  unfold try_catchM. destruct (aiBranch a s) as [[est0|err] s1] eqn:Ea.
  - intros [= <- _]. left. revert Ea. unfold aiBranch, bind, lift, ret.
    destruct (getAIEstimate a s) as [[v|?] ?]; [|discriminate].
    destruct (member v "minutes"); [|discriminate]. intros [= <- _]. reflexivity.
  - intros E. right. exact (Hh _ _ _ E).
Qed.

(** C9.  The object [estimateSingle] returns is the assignment with the
    three properties [estimatedMinutes], [estimationMethod] and [estimatedAt]
    set, the last to a reading of the clock: every other property has the
    value it had, and when the assignment had none of the three, all of its
    properties are kept and exactly these three are added. *)
Theorem estimateSingle_frame (a : obj) (s : Estimator * World) :
  textual a ->
  exists r s' minutes method now,
    estimateSingle a s = (Ok r, s')
    /\ r = <["estimatedAt" := VNum (num now)]>
             (<["estimationMethod" := VStr method]> (<["estimatedMinutes" := minutes]> a))
    /\ (method = "ai" \/ method = "heuristic")
    /\ (exists tick, now = clock s.2 tick)
    /\ (forall k, k <> "estimatedMinutes" -> k <> "estimationMethod" -> k <> "estimatedAt" ->
         r !! k = a !! k)
    /\ (a !! "estimatedMinutes" = None -> a !! "estimationMethod" = None ->
         a !! "estimatedAt" = None ->
         a ⊆ r
         /\ dom r = dom a ∪ {["estimatedMinutes"; "estimationMethod"; "estimatedAt"]}).
Proof.
  intros Ha. destruct s as [e w]. rewrite estimateSingle_run.
  set (s1 := (configured (pick configKeys (sync_area w)) e, record (ESyncGet configKeys) w)).
  destruct (chooseEstimate_total a s1 Ha) as (est & s2 & Hest).
  pose proof (chooseEstimate_quiet a s1) as Hq. rewrite Hest in Hq.
  destruct Hq as (_ & _ & _ & Hclock & _). cbn [fst snd] in Hclock.
  rewrite Hest. eexists _, _, est.1, est.2, _. split; [reflexivity|].
  split; [reflexivity|]. split; [exact (chooseEstimate_method a s1 est s2 Hest)|].
  split; [eexists; rewrite Hclock; reflexivity|].
  split; [intros k ? ? ?; apply enriched_other; assumption|].
  intros Hm He Hat. fold (enriched a est.1 est.2 (clock s2.2 (length (trace s2.2)))).
  split.
  - apply map_subseteq_spec. intros k v Hk.
    rewrite enriched_other by congruence. exact Hk.
  - unfold enriched. rewrite !dom_insert_L. apply set_eq. intros k.
    rewrite !elem_of_union, !elem_of_singleton. tauto.
Qed.

End EstimateAll.

Lemma estimateAll_in_order_witness :
  Forall textual [Examples.finalEssay; Examples.quizDiscussion]
  /\ exists out s',
       @TimeEstimator.estimateAll Examples.builtins
         [Examples.finalEssay; Examples.quizDiscussion]
         (TimeEstimator.new_TimeEstimator, Examples.offline) = (Ok out, s')
       /\ length out = 2%nat.
Proof.
  assert (Forall textual [Examples.finalEssay; Examples.quizDiscussion]) as Hall
    by (repeat constructor; eexists; vm_compute; reflexivity).
  split; [exact Hall|].
  destruct (@estimateAll_in_order Examples.builtins _
              (TimeEstimator.new_TimeEstimator, Examples.offline) Hall)
    as (out & s' & Hrun & _ & Hlen & _).
  exists out, s'. split; [exact Hrun | exact Hlen].
Defined.

Lemma estimateSingle_frame_witness :
  textual Examples.finalEssay
  /\ exists r s',
       @TimeEstimator.estimateSingle Examples.builtins Examples.finalEssay
         (TimeEstimator.new_TimeEstimator, Examples.offline) = (Ok r, s')
       /\ r !! "title" = Some (VStr "Final Essay").
Proof.
  assert (textual Examples.finalEssay) as Ha by (split; eexists; vm_compute; reflexivity).
  split; [exact Ha|].
  destruct (@estimateSingle_frame Examples.builtins Examples.finalEssay
              (TimeEstimator.new_TimeEstimator, Examples.offline) Ha)
    as (r & s' & minutes & method & now & Hrun & _ & _ & _ & Hother & _).
  exists r, s'. split; [exact Hrun|].
  rewrite Hother by discriminate. reflexivity.
Defined.

(** ** The fallback to the heuristic *)

Section Fallback.
Context `{Builtins}.
Import Design.

Ltac fetch_fails Hnet :=
  unfold bind, this, on_world, fetch; cbn [fst snd];
  match goal with
  | |- context [network ?w ?n ?req] =>
      let Hreq := fresh in
      pose proof (Hnet req) as Hreq; cbn [fst snd] in Hreq;
      destruct (network w n req) as [err|st body]; [eauto|];
      destruct Hreq as [Hreq|Hreq];
      [ rewrite Hreq; cbn; unfold throw; eauto
      | destruct (ok _); cbn; unfold throw; [|eauto];
        unfold lift, json; cbn [text];
        destruct (JSON.parse body); [discriminate Hreq | eauto] ]
  end.

Lemma aiBranch_fails (a : obj) (s : TimeEstimator.Estimator * World) :
  nextFetchFails s.2 -> exists err s', TimeEstimator.aiBranch a s = (Throw err, s').
Proof.
  intros Hnet. unfold TimeEstimator.aiBranch, TimeEstimator.getAIEstimate.
  unfold bind at 1. unfold bind at 1. unfold lift at 1.
  destruct (TimeEstimator.buildPrompt a) as [prompt|err]; [|eauto].
  unfold bind at 1. unfold this at 1. cbn [fst].
  destruct (is_str _ "openai"); [unfold TimeEstimator.callOpenAI; fetch_fails Hnet|].
  destruct (is_str _ "anthropic"); [unfold TimeEstimator.callAnthropic; fetch_fails Hnet|].
  destruct (is_str _ "local"); [unfold TimeEstimator.callOllama; fetch_fails Hnet|].
  unfold throw. eauto.
Qed.


Definition configKeysJS : list string :=
  ["aiProvider"; "openaiApiKey"; "anthropicApiKey"; "estimationModel"].

Definition configuredJS (settings : obj) (e : TimeEstimator.Estimator) : TimeEstimator.Estimator :=
  let provider := or_else (get settings "aiProvider") (VStr "openai") in
  let e := TimeEstimator.set_model
             (or_else (get settings "estimationModel") (VStr "gpt-3.5-turbo"))
             (TimeEstimator.set_aiProvider provider e) in
  if is_str provider "openai" then TimeEstimator.set_apiKey (get settings "openaiApiKey") e
  else if is_str provider "anthropic"
       then TimeEstimator.set_apiKey (get settings "anthropicApiKey") e
       else e.

Lemma configureJS_run e w :
  TimeEstimatorJS.configure (e, w)
  = (Ok tt, (configuredJS (pick configKeysJS (sync_area w)) e,
             record (ESyncGet configKeysJS) w)).
Proof.
  unfold TimeEstimatorJS.configure, configuredJS, bind, on_world, storage_sync_get, update.
  simpl. fold configKeysJS.
  set (settings := pick configKeysJS (sync_area w)).
  destruct (is_str (or_else (get settings "aiProvider") (VStr "openai")) "openai");
    [reflexivity|].
  destruct (is_str (or_else (get settings "aiProvider") (VStr "openai")) "anthropic");
    reflexivity.
Qed.

Lemma heuristicBranchJS_run a s m :
  TimeEstimatorJS.getHeuristicEstimate a = Ok m ->
  TimeEstimatorJS.heuristicBranch a s = (Ok (VNum m, "heuristic"), s).
Proof. unfold TimeEstimatorJS.heuristicBranch, bind, lift, ret. intros ->. reflexivity. Qed.

Definition chooseEstimateJS (a : obj) : TimeEstimator.Method (value * string) := fun s =>
  (if truthy (TimeEstimator.apiKey s.1)
   then try_catchM (TimeEstimatorJS.aiBranch a) (fun _ => TimeEstimatorJS.heuristicBranch a)
   else TimeEstimatorJS.heuristicBranch a) s.

Lemma estimateSingleJS_run a e w :
  TimeEstimatorJS.estimateSingle a (e, w)
  = match chooseEstimateJS a (configuredJS (pick configKeysJS (sync_area w)) e,
                              record (ESyncGet configKeysJS) w) with
    | (Ok est, s) =>
        (Ok (enriched a est.1 est.2 (clock s.2 (length (trace s.2)))),
         (s.1, record ENow s.2))
    | (Throw err, s) => (Throw err, s)
    end.
Proof.
  unfold TimeEstimatorJS.estimateSingle. rewrite (bind_Ok _ _ _ _ _ (configureJS_run e w)).
  unfold bind at 1. unfold this at 1. cbv beta iota.
  unfold bind at 1. unfold chooseEstimateJS. cbn [fst snd].
  match goal with |- context [match ?x with (_, _) => _ end] => destruct x as [[est|err] s] end;
    [|reflexivity].
  reflexivity.
Qed.

Lemma heuristicJS_total (a : obj) title type types :
  textOf (get a "title") = Some title ->
  textOf (get a "type") = Some type ->
  arrayOf (get a "submissionTypes") = Some types ->
  exists m, TimeEstimatorJS.getHeuristicEstimate a = Ok m.
Proof.
  intros Ht Hy Hs. unfold TimeEstimatorJS.getHeuristicEstimate.
  rewrite (categorize_resolve a title type Ht Hy).
  change (Ok ?x ≫= ?f) with (f x). cbv beta zeta.
  destruct (get a "submissionTypes") as [| | | | |l|]; try discriminate;
    cbn; eexists; reflexivity.
Qed.

Lemma aiBranchJS_unknown (a : obj) (s : TimeEstimator.Estimator * World) :
  is_str (TimeEstimator.aiProvider s.1) "openai" = false ->
  is_str (TimeEstimator.aiProvider s.1) "anthropic" = false ->
  exists err, TimeEstimatorJS.aiBranch a s = (Throw err, s).
Proof.
  intros Ho Ha. unfold TimeEstimatorJS.aiBranch, TimeEstimatorJS.getAIEstimate.
  unfold bind at 1. unfold bind at 1. unfold lift at 1.
  destruct (TimeEstimatorJS.buildPrompt a) as [prompt|err]; [|eauto].
  unfold bind at 1. unfold this at 1. cbn [fst]. rewrite Ho, Ha. unfold throw. eauto.
Qed.

Lemma aiBranchJS_fails (a : obj) (s : TimeEstimator.Estimator * World) :
  nextFetchFails s.2 -> exists err s', TimeEstimatorJS.aiBranch a s = (Throw err, s').
Proof.
  intros Hnet. unfold TimeEstimatorJS.aiBranch, TimeEstimatorJS.getAIEstimate.
  unfold bind at 1. unfold bind at 1. unfold lift at 1.
  destruct (TimeEstimatorJS.buildPrompt a) as [prompt|err]; [|eauto].
  unfold bind at 1. unfold this at 1. cbn [fst].
  destruct (is_str _ "openai"); [unfold TimeEstimator.callOpenAI; fetch_fails Hnet|].
  destruct (is_str _ "anthropic"); [unfold TimeEstimatorJS.callAnthropic; fetch_fails Hnet|].
  unfold throw. eauto.
Qed.

Lemma eligibleHosted_pick area : eligibleHosted (pick configKeysJS area) = eligibleHosted area.
Proof.
  unfold eligibleHosted.
  rewrite !get_pick by (unfold configKeysJS; repeat constructor). reflexivity.
Qed.

Lemma estimateSingle_falls_back_js (a : obj) (e : TimeEstimator.Estimator) (w : World)
    (title type : string) (types : list value) :
  textOf (get a "title") = Some title ->
  textOf (get a "type") = Some type ->
  arrayOf (get a "submissionTypes") = Some types ->
  eligibleHosted (sync_area w) = false
  \/ (exists err s2,
        TimeEstimatorJS.aiBranch a (TimeEstimatorJS.configure (e, w)).2 = (Throw err, s2)) ->
  exists minutes r s',
    TimeEstimatorJS.getHeuristicEstimate a = Ok minutes
    /\ TimeEstimatorJS.estimateSingle a (e, w) = (Ok r, s')
    /\ r !! "estimationMethod" = Some (VStr "heuristic")
    /\ r !! "estimatedMinutes" = Some (VNum minutes)
    /\ (eligibleHosted (sync_area w) = false -> fetches s'.2 = fetches w).
Proof.
  intros Ht Hy Hs Hfail.
  destruct (heuristicJS_total a title type types Ht Hy Hs) as [m Hm].
  exists m. rewrite estimateSingleJS_run. rewrite configureJS_run in Hfail. cbn [snd] in Hfail.
  set (settings := pick configKeysJS (sync_area w)) in *.
  set (s1 := (configuredJS settings e, record (ESyncGet configKeysJS) w)) in *.
  assert (fetches s1.2 = fetches w) as Hf1
    by (unfold s1; cbn [snd]; rewrite fetches_record; apply app_nil_r).
  assert (forall s : TimeEstimator.Estimator * World,
            fetches (s.1, record ENow s.2).2 = fetches s.2) as Hnow
    by (intros s; cbn [snd]; rewrite fetches_record; apply app_nil_r).
  unfold chooseEstimateJS.
  destruct (truthy (TimeEstimator.apiKey s1.1)) eqn:Ek.
  - assert (exists err s2, TimeEstimatorJS.aiBranch a s1 = (Throw err, s2)
                           /\ (eligibleHosted (sync_area w) = false -> s2 = s1))
      as (err & s2 & Hthrow & Hsame).
    { destruct (eligibleHosted (sync_area w)) eqn:El.
      - destruct Hfail as [?|(err & s2 & Hthrow)]; [discriminate|].
        exists err, s2. split; [exact Hthrow | discriminate].
      - rewrite <- eligibleHosted_pick in El. fold settings in El.
        unfold eligibleHosted in El. unfold s1 in Ek. cbn [fst] in Ek.
        unfold configuredJS in Ek. cbv zeta in El, Ek.
        destruct (aiBranchJS_unknown a s1) as [err Herr].
        + unfold s1. cbn [fst]. unfold configuredJS. cbv zeta.
          destruct (is_str (or_else (get settings "aiProvider") (VStr "openai")) "openai") eqn:Eo.
          { simpl in Ek. rewrite Ek in El. discriminate. }
          destruct (is_str (or_else (get settings "aiProvider") (VStr "openai")) "anthropic");
            simpl; exact Eo.
        + unfold s1. cbn [fst]. unfold configuredJS. cbv zeta.
          destruct (is_str (or_else (get settings "aiProvider") (VStr "openai")) "openai") eqn:Eo.
          { simpl in Ek. rewrite Ek in El. discriminate. }
          destruct (is_str (or_else (get settings "aiProvider") (VStr "openai")) "anthropic")
            eqn:Ea; [|simpl; exact Ea].
          simpl in Ek. rewrite Ek in El. discriminate.
        + exists err, s1. split; [exact Herr | reflexivity]. }
    rewrite (try_catchM_Throw _ _ _ _ _ Hthrow), (heuristicBranchJS_run a s2 m Hm).
    eexists _, _. split; [exact Hm|]. split; [reflexivity|].
    split; [apply enriched_method|]. split; [apply enriched_minutes|].
    intros El. rewrite Hnow, (Hsame El). exact Hf1.
  - rewrite (heuristicBranchJS_run a s1 m Hm).
    eexists _, _. split; [exact Hm|]. split; [reflexivity|].
    split; [apply enriched_method|]. split; [apply enriched_minutes|].
    intros _. rewrite Hnow. exact Hf1.
Qed.


(** C2.  When the AI path throws, whatever the reason (a network error, a
    status other than success, a response that does not parse),
    [estimateSingle] does not throw: it returns the assignment with method
    "heuristic" and the minutes of [getHeuristicEstimate].  When the settings
    make AI ineligible (no provider or "none", or a hosted provider whose
    credential is empty) it returns the same and sends no request.  Both
    hold of the TypeScript file and of the earlier JavaScript file. *)
Theorem estimateSingle_never_raises (a : obj) (e : TimeEstimator.Estimator) (w : World)
    (title type : string) :
  textOf (get a "title") = Some title ->
  textOf (get a "type") = Some type ->
  (eligible (sync_area w) = false
   \/ nextFetchFails (TimeEstimator.configure (e, w)).2.2
   \/ (exists err s2,
         TimeEstimator.aiBranch a (TimeEstimator.configure (e, w)).2 = (Throw err, s2)) ->
   exists minutes r s',
     TimeEstimator.getHeuristicEstimate a = Ok minutes
     /\ TimeEstimator.estimateSingle a (e, w) = (Ok r, s')
     /\ r !! "estimationMethod" = Some (VStr "heuristic")
     /\ r !! "estimatedMinutes" = Some (VNum minutes)
     /\ (eligible (sync_area w) = false -> fetches s'.2 = fetches w))
  /\ (forall types,
        arrayOf (get a "submissionTypes") = Some types ->
        eligibleHosted (sync_area w) = false
        \/ nextFetchFails (TimeEstimatorJS.configure (e, w)).2.2
        \/ (exists err s2,
              TimeEstimatorJS.aiBranch a (TimeEstimatorJS.configure (e, w)).2
              = (Throw err, s2)) ->
        exists minutes r s',
          TimeEstimatorJS.getHeuristicEstimate a = Ok minutes
          /\ TimeEstimatorJS.estimateSingle a (e, w) = (Ok r, s')
          /\ r !! "estimationMethod" = Some (VStr "heuristic")
          /\ r !! "estimatedMinutes" = Some (VNum minutes)
          /\ (eligibleHosted (sync_area w) = false -> fetches s'.2 = fetches w)).
Proof.
  intros Ht Hy. split.
  - intros Hfail. apply (estimateSingle_falls_back_ts a e w title type Ht Hy).
    destruct Hfail as [Hno|[Hnet|Hthrow]]; [left; exact Hno | right | right; exact Hthrow].
    exact (aiBranch_fails a _ Hnet).
  - intros types Hs Hfail. apply (estimateSingle_falls_back_js a e w title type types Ht Hy Hs).
    destruct Hfail as [Hno|[Hnet|Hthrow]]; [left; exact Hno | right | right; exact Hthrow].
    exact (aiBranchJS_fails a _ Hnet).
Qed.

End Fallback.

Lemma estimateSingle_never_raises_witness :
  textOf (get Examples.finalEssay "title") = Some "Final Essay"
  /\ textOf (get Examples.finalEssay "type") = Some "assignment"
  /\ Design.eligible (sync_area Examples.unreachable) = true
  /\ exists r s',
       @TimeEstimator.estimateSingle Examples.builtins Examples.finalEssay
         (TimeEstimator.new_TimeEstimator, Examples.unreachable) = (Ok r, s')
       /\ r !! "estimationMethod" = Some (VStr "heuristic").
Proof.
  split; [reflexivity|]. split; [reflexivity|]. split; [reflexivity|].
  destruct (proj1 (@estimateSingle_never_raises Examples.builtins Examples.finalEssay
                     TimeEstimator.new_TimeEstimator Examples.unreachable
                     "Final Essay" "assignment" eq_refl eq_refl))
    as (minutes & r & s' & _ & Hrun & Hmethod & _).
  - right. left. intros req. exact I.
  - exists r, s'. split; [exact Hrun | exact Hmethod].
Defined.

(** ** The regular expressions of the parsers *)

Section RegexFacts.
Import Regex.

Lemma append_assoc a b c : (a +:+ b) +:+ c = a +:+ (b +:+ c).
Proof.
  induction a as [|x a IH]; [reflexivity|].
  rewrite !append_cons, IH. reflexivity.
Qed.

Lemma append_nil_r a : a +:+ "" = a.
Proof. induction a as [|x a IH]; [reflexivity|]. rewrite append_cons, IH. reflexivity. Qed.

Lemma whole_cons m ms : whole (m :: ms) = m +:+ whole ms.
Proof. reflexivity. Qed.

Lemma whole_app a b : whole (a ++ b) = whole a +:+ whole b.
Proof.
  induction a as [|m a IH]; [reflexivity|].
  simpl app. rewrite !whole_cons, IH, append_assoc. reflexivity.
Qed.

Lemma star_then_sound p k : forall s chunks,
  star_then p k s = Some chunks ->
  exists m ms rest,
    chunks = m :: ms /\ all_in p m = true /\ s = m +:+ rest /\ k rest = Some ms.
Proof.
  assert (forall s chunks, cons EmptyString <$> k s = Some chunks ->
            exists m ms rest,
              chunks = m :: ms /\ all_in p m = true /\ s = m +:+ rest /\ k rest = Some ms)
    as Hzero.
  { intros s chunks Hk. destruct (k s) as [ms|] eqn:E; [|discriminate].
    injection Hk as <-. exists "", ms, s.
    split; [reflexivity|]. split; [reflexivity|]. split; [reflexivity | exact E]. }
  induction s as [|c s IH]; intros chunks; simpl; [apply Hzero|].
  destruct (p c) eqn:Ep; [|apply Hzero].
  destruct (star_then p k s) as [chunks'|] eqn:Es; [|apply Hzero].
  intros [= <-]. destruct (IH chunks' eq_refl) as (m & ms & rest & -> & Hall & -> & Hk).
  exists (String c m), ms, rest. simpl. rewrite Ep, Hall.
  split; [reflexivity|]. split; [reflexivity|]. split; [reflexivity | exact Hk].
Qed.

Lemma match_here_sound r : forall s chunks,
  match_here r s = Some chunks ->
  Forall2 accepts r chunks /\ exists rest, s = whole chunks +:+ rest.
Proof.
  induction r as [|a r IH]; intros s chunks; simpl.
  - intros [= <-]. split; [constructor | exists s; reflexivity].
  - destruct a as [p|p|p|p].
    + destruct s as [|c s]; [discriminate|]. destruct (p c) eqn:Ep; [|discriminate].
      destruct (match_here r s) as [ms|] eqn:E; [|discriminate]. intros [= <-].
      destruct (IH s ms E) as (Hms & rest & ->).
      split; [constructor; [exists c; auto | exact Hms] | exists rest; reflexivity].
    + assert (forall t, cons EmptyString <$> match_here r t = Some chunks ->
                Forall2 accepts (Opt p :: r) chunks /\ exists rest, t = whole chunks +:+ rest)
        as Hzero.
      { intros t Hk. destruct (match_here r t) as [ms|] eqn:E; [|discriminate].
        injection Hk as <-. destruct (IH t ms E) as (Hms & rest & ->).
        split; [constructor; [left; reflexivity | exact Hms] | exists rest; reflexivity]. }
      destruct s as [|c s]; [apply Hzero|]. destruct (p c) eqn:Ep; [|apply Hzero].
      destruct (match_here r s) as [ms|] eqn:E; [|apply Hzero]. intros [= <-].
      destruct (IH s ms E) as (Hms & rest & ->).
      split; [constructor; [right; exists c; auto | exact Hms] | exists rest; reflexivity].
    + intros Hs. destruct (star_then_sound p _ s chunks Hs) as (m & ms & rest & -> & Hall & -> & Hk).
      destruct (IH rest ms Hk) as (Hms & rest' & ->).
      split; [constructor; [exact Hall | exact Hms]|].
      exists rest'. rewrite whole_cons, append_assoc. reflexivity.
    + destruct s as [|c s]; [discriminate|]. destruct (p c) eqn:Ep; [|discriminate].
      destruct (star_then p (match_here r) s) as [chunks'|] eqn:Es; [|discriminate].
      intros [= <-].
      destruct (star_then_sound p _ s chunks' Es) as (m & ms & rest & -> & Hall & -> & Hk).
      destruct (IH rest ms Hk) as (Hms & rest' & ->). simpl push.
      split; [constructor; [split; [discriminate | simpl; rewrite Ep, Hall; reflexivity]
                           | exact Hms]|].
      exists rest'. rewrite whole_cons, !append_cons, append_assoc. reflexivity.
Qed.

Lemma String_match_sound r : forall s chunks,
  String_match r s = Some chunks ->
  Forall2 accepts r chunks /\ exists pre post, s = pre +:+ whole chunks +:+ post.
Proof.
  induction s as [|c s IH]; intros chunks; simpl.
  - destruct (match_here r "") as [ms|] eqn:E; [|discriminate]. intros [= <-].
    destruct (match_here_sound r _ _ E) as (Hms & rest & Hrest).
    split; [exact Hms | exists "", rest; exact Hrest].
  - destruct (match_here r (String c s)) as [ms|] eqn:E.
    + intros [= <-]. destruct (match_here_sound r _ _ E) as (Hms & rest & Hrest).
      split; [exact Hms | exists "", rest; exact Hrest].
    + intros Hs. destruct (IH chunks Hs) as (Hms & pre & post & ->).
      split; [exact Hms | exists (String c pre), post; reflexivity].
Qed.

Lemma lit_accepts s : forall chunks, Forall2 accepts (lit s) chunks -> whole chunks = s.
Proof.
  induction s as [|c s IH]; intros chunks Hc; simpl in Hc.
  - inversion Hc. reflexivity.
  - inversion Hc as [|a m r ms Hm Hms]; subst. simpl in Hm.
    destruct Hm as (x & -> & Hx). rewrite whole_cons, (IH ms Hms).
    unfold chr in Hx. apply Ascii.eqb_eq in Hx. subst. reflexivity.
Qed.


Lemma star_then_of_k p k s ms :
  k s = Some ms -> exists chunks, star_then p k s = Some chunks.
Proof.
  intros Hk. destruct s as [|c s]; simpl; [rewrite Hk; eauto|].
  destruct (p c); [|rewrite Hk; simpl; eauto].
  destruct (star_then p k s); [eauto | rewrite Hk; simpl; eauto].
Qed.

Lemma star_then_complete p k : forall m rest ms,
  all_in p m = true -> k rest = Some ms ->
  exists chunks, star_then p k (m +:+ rest) = Some chunks.
Proof.
  induction m as [|c m IH]; intros rest ms Hall Hk.
  - exact (star_then_of_k p k rest ms Hk).
  - simpl in Hall. apply andb_true_iff in Hall as [Hc Hm].
    destruct (IH rest ms Hm Hk) as [chunks Hs].
    rewrite append_cons. simpl. rewrite Hc, Hs. eauto.
Qed.

Lemma match_here_complete r chunks :
  Forall2 accepts r chunks ->
  forall rest, exists found, match_here r (whole chunks +:+ rest) = Some found.
Proof.
  induction 1 as [|a m r ms Hm Hms IH]; intros rest; [simpl; eauto|].
  rewrite whole_cons, append_assoc. destruct (IH rest) as [found Hfound].
  destruct a as [p|p|p|p]; simpl in Hm.
  - destruct Hm as (c & -> & Hc). rewrite append_cons, append_nil. simpl.
    rewrite Hc, Hfound. simpl. eauto.
  - assert (exists f, match_here (Opt p :: r) (whole ms +:+ rest) = Some f) as Hzero.
    { simpl. destruct (whole ms +:+ rest) as [|c t] eqn:E; [rewrite Hfound; simpl; eauto|].
      destruct (p c); [|rewrite Hfound; simpl; eauto].
      destruct (match_here r t); [eauto | rewrite Hfound; simpl; eauto]. }
    destruct Hm as [->|(c & -> & Hc)]; [exact Hzero|].
    rewrite append_cons, append_nil. simpl. rewrite Hc, Hfound. eauto.
  - simpl. exact (star_then_complete p _ m _ found Hm Hfound).
  - destruct Hm as [Hne Hall]. destruct m as [|c m]; [congruence|].
    simpl in Hall. apply andb_true_iff in Hall as [Hc Hall].
    rewrite append_cons. simpl. rewrite Hc.
    destruct (star_then_complete p (match_here r) m _ found Hall Hfound) as [chunks' ->].
    simpl. eauto.
Qed.

Lemma String_match_complete r chunks post :
  Forall2 accepts r chunks ->
  forall pre, exists found, String_match r (pre +:+ whole chunks +:+ post) = Some found.
Proof.
  intros Hc. induction pre as [|c pre IH].
  - destruct (match_here_complete r chunks Hc post) as [found Hf].
    rewrite append_nil.
    destruct (whole chunks +:+ post); simpl; rewrite Hf; eauto.
  - rewrite append_cons. simpl. destruct (match_here r _); [eauto | exact IH].
Qed.

(** the match found is the leftmost one *)
Lemma String_match_leftmost r : forall s chunks,
  String_match r s = Some chunks ->
  exists pre post,
    s = pre +:+ whole chunks +:+ post
    /\ match_here r (whole chunks +:+ post) = Some chunks
    /\ forall pre1 c pre2,
         pre = pre1 +:+ String c pre2 ->
         match_here r (String c pre2 +:+ whole chunks +:+ post) = None.
Proof.
  assert (forall s chunks, match_here r s = Some chunks ->
            exists pre post,
              s = pre +:+ whole chunks +:+ post
              /\ match_here r (whole chunks +:+ post) = Some chunks
              /\ forall pre1 c pre2,
                   pre = pre1 +:+ String c pre2 ->
                   match_here r (String c pre2 +:+ whole chunks +:+ post) = None) as Hhere.
  { intros s chunks E. destruct (match_here_sound r _ _ E) as (_ & rest & Hrest).
    exists "", rest. split; [exact Hrest|]. split; [rewrite <- Hrest; exact E|].
    intros pre1 c pre2 Hp. destruct pre1; discriminate. }
  induction s as [|c s IH]; intros chunks; simpl.
  - destruct (match_here r "") as [ms|] eqn:E; [|discriminate]. intros [= <-]. exact (Hhere _ _ E).
  - destruct (match_here r (String c s)) as [ms|] eqn:E; [intros [= <-]; exact (Hhere _ _ E)|].
    intros Hs. destruct (IH chunks Hs) as (pre & post & -> & Hm & Hleft).
    exists (String c pre), post. split; [reflexivity|]. split; [exact Hm|].
    intros pre1 d pre2 Hp. destruct pre1 as [|x pre1].
    + rewrite append_nil in Hp. injection Hp as <- <-. exact E.
    + rewrite append_cons in Hp. injection Hp as _ Hp. exact (Hleft pre1 d pre2 Hp).
Qed.


Lemma match_here_cons_inv a r s chunks :
  match_here (a :: r) s = Some chunks ->
  exists m ms s', chunks = m :: ms /\ s = m +:+ s' /\ match_here r s' = Some ms.
Proof.
  destruct a as [p|p|p|p]; simpl.
  - destruct s as [|c s]; [discriminate|]. destruct (p c); [|discriminate].
    destruct (match_here r s) as [ms|] eqn:E; [|discriminate]. intros [= <-].
    exists (String c ""), ms, s. split; [reflexivity|]. split; [reflexivity | exact E].
  - assert (forall t, cons EmptyString <$> match_here r t = Some chunks ->
              exists m ms s', chunks = m :: ms /\ t = m +:+ s' /\ match_here r s' = Some ms)
      as Hzero.
    { intros t Hk. destruct (match_here r t) as [ms|] eqn:E; [|discriminate].
      injection Hk as <-. exists "", ms, t.
      split; [reflexivity|]. split; [reflexivity | exact E]. }
    destruct s as [|c s]; [apply Hzero|]. destruct (p c); [|apply Hzero].
    destruct (match_here r s) as [ms|] eqn:E; [|apply Hzero]. intros [= <-].
    exists (String c ""), ms, s. split; [reflexivity|]. split; [reflexivity | exact E].
  - intros Hs. destruct (star_then_sound p _ s chunks Hs) as (m & ms & rest & -> & _ & -> & Hk).
    exists m, ms, rest. split; [reflexivity|]. split; [reflexivity | exact Hk].
  - destruct s as [|c s]; [discriminate|]. destruct (p c); [|discriminate].
    destruct (star_then p (match_here r) s) as [chunks'|] eqn:Es; [|discriminate].
    intros [= <-].
    destruct (star_then_sound p _ s chunks' Es) as (m & ms & rest & -> & _ & -> & Hk).
    exists (String c m), ms, rest. split; [reflexivity|]. split; [reflexivity | exact Hk].
Qed.

(** a regex that ends in [[\s\S]*c] matches through the last [c] *)
Lemma greedy_tail c : forall s chunks,
  match_here [Star any; One (chr c)] s = Some chunks ->
  exists rest, s = whole chunks +:+ rest /\ includes rest (String c "") = false.
Proof.
  set (k := match_here [One (chr c)]).
  assert (forall x t, k (String x t) = if Ascii.eqb x c then Some [String x ""] else None) as Hk.
  { intros x t. unfold k. simpl. unfold chr. destruct (Ascii.eqb x c); reflexivity. }
  assert (forall t, star_then any k t = None -> includes t (String c "") = false) as Hnone.
  { intros t Ht. destruct (includes t (String c "")) eqn:Ei; [|reflexivity].
    apply includes_spec in Ei as (a & b & ->).
    destruct (star_then_complete any k a (String c "" +:+ b) [String c ""]) as [found Hf].
    - clear. induction a; [reflexivity | simpl; assumption].
    - rewrite append_cons, Hk, Ascii.eqb_refl. reflexivity.
    - rewrite Hf in Ht. discriminate. }
  change (match_here [Star any; One (chr c)]) with (star_then any k).
  induction s as [|x s IH]; intros chunks; simpl; [discriminate|].
  destruct (star_then any k s) as [chunks'|] eqn:Es.
  - intros [= <-]. destruct (IH chunks' eq_refl) as (rest & -> & Hrest).
    exists rest. split; [|exact Hrest].
    destruct (star_then_sound _ _ _ _ Es) as (m & ms & ? & -> & _). reflexivity.
  - rewrite Hk. destruct (Ascii.eqb x c) eqn:Ex; [|discriminate]. intros [= <-].
    exists s. split; [reflexivity | exact (Hnone s Es)].
Qed.

Lemma greedy_end c r : forall s chunks,
  match_here (r ++ [Star any; One (chr c)]) s = Some chunks ->
  exists rest, s = whole chunks +:+ rest /\ includes rest (String c "") = false.
Proof.
  induction r as [|a r IH]; intros s chunks; [apply greedy_tail|].
  simpl app. intros Hs.
  destruct (match_here_cons_inv _ _ _ _ Hs) as (m & ms & s' & -> & -> & Hms).
  destruct (IH s' ms Hms) as (rest & -> & Hrest).
  exists rest. split; [|exact Hrest]. rewrite whole_cons, append_assoc. reflexivity.
Qed.


Lemma append_inv_head a b c : a +:+ b = a +:+ c -> b = c.
Proof.
  induction a as [|x a IH]; [rewrite !append_nil; auto|].
  rewrite !append_cons. intros [= E]. exact (IH E).
Qed.

Lemma all_in_any s : all_in any s = true.
Proof. induction s; [reflexivity | simpl; assumption]. Qed.

End RegexFacts.

Section Stages.
Import Regex TimeEstimator Design.

(** what the first stage extracts: the part of the text from its first
    opening brace through its last closing brace, with the key in between *)
Lemma jsonRe_shape text chunks :
  String_match jsonRe text = Some chunks ->
  exists pre before after post,
    text = pre +:+ whole chunks +:+ post
    /\ whole chunks = "{" +:+ before +:+ minutesKey +:+ after +:+ "}"
    /\ includes pre "{" = false
    /\ includes post "}" = false.
Proof.
  intros Hs. destruct (String_match_leftmost _ _ _ Hs) as (pre & post & -> & Hm & Hleft).
  destruct (match_here_sound _ _ _ Hm) as (Hacc & _).
  unfold jsonRe in Hacc.
  apply Forall2_app_inv_l in Hacc as (head & tail & Hhead & Htail & ->).
  apply Forall2_app_inv_l in Htail as (key & last & Hkey & Hlast & ->).
  pose proof (lit_accepts _ _ Hkey) as Hkw. fold minutesKey in Hkw.
  inversion Hhead as [|a1 c1 r1 k1 Hc1 Hr1]; subst.
  inversion Hr1 as [|a2 c2 r2 k2 Hc2 Hr2]; subst. inversion Hr2; subst.
  inversion Hlast as [|a3 c3 r3 k3 Hc3 Hr3]; subst.
  inversion Hr3 as [|a4 c4 r4 k4 Hc4 Hr4]; subst. inversion Hr4; subst.
  simpl in Hc1, Hc4. destruct Hc1 as (x1 & -> & Hx1). destruct Hc4 as (x4 & -> & Hx4).
  unfold chr in Hx1, Hx4. apply Ascii.eqb_eq in Hx1, Hx4. subst x1 x4.
  assert (whole ([String "{" ""; c2] ++ key ++ [c3; String "}" ""])
          = "{" +:+ c2 +:+ minutesKey +:+ c3 +:+ "}") as Hwhole.
  { rewrite !whole_app, Hkw. rewrite !whole_cons. simpl whole.
    rewrite ?append_assoc, ?append_nil_r. reflexivity. }
  exists pre, c2, c3, post. split; [reflexivity|]. split; [exact Hwhole|]. split.
  - destruct (includes pre "{") eqn:Ei; [|reflexivity].
    apply includes_spec in Ei as (a & b & ->).
    specialize (Hleft a "{"%char b eq_refl).
    assert (Forall2 accepts jsonRe
              ([String "{" ""; b +:+ "{" +:+ c2] ++ key ++ [c3; String "}" ""])) as Hacc'.
    { unfold jsonRe. apply Forall2_app; [|apply Forall2_app; assumption].
      constructor; [exists "{"%char; split; reflexivity|].
      constructor; [apply all_in_any | constructor]. }
    destruct (match_here_complete _ _ Hacc' post) as [found Hfound].
    assert (String "{" b
              +:+ whole ([String "{" ""; c2] ++ key ++ [c3; String "}" ""]) +:+ post
            = whole ([String "{" ""; b +:+ "{" +:+ c2] ++ key ++ [c3; String "}" ""])
              +:+ post) as Heq.
    { rewrite Hwhole, !whole_app, Hkw, !whole_cons. simpl whole.
      rewrite ?append_assoc, ?append_nil_r, ?append_cons, ?append_nil. repeat (rewrite ?append_assoc, ?append_cons, ?append_nil); reflexivity. }
    rewrite Heq in Hleft. congruence.
  - assert (jsonRe = ([One (chr "{"); Star any] ++ lit minutesKey) ++ [Star any; One (chr "}")])
      as Hre by (unfold jsonRe; rewrite <- app_assoc; reflexivity).
    rewrite Hre in Hm. destruct (greedy_end _ _ _ _ Hm) as (rest & Hrest & Hno).
    apply append_inv_head in Hrest. subst rest. exact Hno.
Qed.

Lemma digit_cases c :
  digit c = true ->
  space c = false /\ c <> "-"%char /\ c <> "+"%char /\ c <> "x"%char /\ c <> "X"%char
  /\ exists z, JSON.digit_val c = Some z /\ 0 <= z <= 9.
Proof.
  destruct c as [[] [] [] [] [] [] [] []]; try discriminate; intros _;
    (split; [reflexivity|]); repeat (split; [discriminate|]);
    eexists; (split; [reflexivity | vm_compute; split; discriminate]).
Qed.

Lemma take_digits_all d :
  all_in digit d = true ->
  exists ds, JSON.take_digits d = (ds, "") /\ length ds = String.length d
             /\ Forall (fun z => 0 <= z <= 9) ds.
Proof.
  induction d as [|c d IH]; simpl; [exists []; repeat split; constructor|].
  intros [Hc Hd]%andb_true_iff. destruct (IH Hd) as (ds & -> & Hlen & Hall).
  destruct (digit_cases c Hc) as (_ & _ & _ & _ & _ & z & -> & Hz).
  exists (z :: ds). split; [reflexivity|]. split; [simpl; congruence | constructor; assumption].
Qed.

Lemma digits_fold_nonneg ds : forall acc,
  0 <= acc -> Forall (fun z => 0 <= z <= 9) ds ->
  0 <= fold_left (fun acc d => acc * 10 + d) ds acc.
Proof.
  induction ds as [|d ds IH]; intros acc Hacc Hall; simpl; [exact Hacc|].
  inversion Hall; subst. apply IH; [lia | assumption].
Qed.

(** [parseInt] of a run of digits is the number they spell *)
Lemma parseInt_digits d :
  d <> "" -> all_in digit d = true ->
  exists n, 0 <= n /\ parseInt d = num n.
Proof.
  intros Hne Hall. destruct (take_digits_all d Hall) as (ds & Htake & Hlen & Hds).
  exists (JSON.digits_to_Z ds). split; [apply digits_fold_nonneg; [lia | exact Hds]|].
  destruct d as [|c d]; [congruence|]. simpl in Hall.
  apply andb_true_iff in Hall as [Hc Hd].
  destruct (digit_cases c Hc) as (Hsp & Hminus & Hplus & _ & _ & _).
  unfold parseInt. simpl trimStart. rewrite Hsp.
  assert (match String c d with
          | String "-" r => (-1, r)
          | String "+" r => (1, r)
          | _ => (1, String c d)
          end = (1, String c d)) as ->.
  { destruct c as [[] [] [] [] [] [] [] []]; try reflexivity; congruence. }
  assert (String.prefix "0x" (String c d) || String.prefix "0X" (String c d) = false) as ->.
  { destruct (String.prefix "0x" (String c d)) eqn:E1.
    { apply prefix_app in E1 as [b Hb]. rewrite !append_cons, append_nil in Hb.
      injection Hb as -> ->. simpl in Hd. discriminate. }
    destruct (String.prefix "0X" (String c d)) eqn:E2; [|reflexivity].
    apply prefix_app in E2 as [b Hb]. rewrite !append_cons, append_nil in Hb.
    injection Hb as -> ->. simpl in Hd. discriminate. }
  rewrite Htake. destruct ds as [|z ds]; [discriminate Hlen|].
  f_equal. f_equal. lia.
Qed.


End Stages.

Section OllamaCall.
Context `{Builtins}.
Import TimeEstimator Design.

(** without an opening brace the pattern of stage one matches nowhere *)
Lemma jsonRe_no_brace text :
  includes text "{" = false -> Regex.String_match jsonRe text = None.
Proof.
  intros Hn. destruct (Regex.String_match jsonRe text) as [chunks|] eqn:Hs; [|reflexivity].
  destruct (jsonRe_shape text chunks Hs) as (pre & before & after & post & Ht & Hw & _).
  assert (includes text "{" = true) as Hyes; [|congruence].
  apply includes_spec. exists pre, (before +:+ minutesKey +:+ after +:+ "}" +:+ post).
  rewrite Ht, Hw. rewrite ?append_assoc. reflexivity.
Qed.

Lemma parseOllama_no_brace text :
  includes text "{" = false -> parseOllama (VStr text) = Ok (parseCascade text).
Proof.
  intros Hn. rewrite parseOllama_run. unfold parseCascade, greedyJson.
  rewrite (jsonRe_no_brace text Hn), (embeddedJson_no_brace text Hn). reflexivity.
Qed.

Lemma callOllama_parses prompt (s : Estimator * World) st body data reply :
  (forall req, network s.2 (length (trace s.2)) req = Responds st body) ->
  ok {| status := st; text := body |} = true ->
  JSON.parse body = Ok data ->
  member data "response" = Ok (VStr reply) ->
  exists s', callOllama prompt s = (parseOllama (VStr reply), s').
Proof.
  intros Hnet Hok Hjson Hresp. unfold callOllama, bind, this, on_world, fetch. cbn [fst snd].
  rewrite Hnet. cbn [fst snd]. rewrite Hok. cbn [negb].
  unfold lift, json. cbn [text]. rewrite Hjson, Hresp, parseOllama_run. eauto.
Qed.

(** C4.  On a reply that is a text the parse stage of [callOllama] never
    throws, and [callOllama] returns what it gives.  On the text
    [Sure! {"minutes": 45, "reasoning": "ok"} thanks], which is no JSON as a
    whole, it gives 45 minutes, as the cascade of the design does; on a text
    without an opening brace it is that cascade: the first
    "<number> minute(s)", or else the fixed default of 60 minutes.  But its
    first stage is not the first JSON object with a "minutes" key: it takes
    the text from the first opening brace through the last closing brace,
    and when that does not parse as a whole the stage fails.  So on
    [Here is my estimate: {"minutes": 45, "reasoning": "short quiz"}. Tell me
    if {more detail} is needed.] and on [{"a":1} {"minutes": 45}] the code
    gives the default of 60 minutes where the cascade gives 45.  A reply that
    is [undefined] makes the stage throw a [TypeError]. *)
Theorem parseOllama_cascade :
  (forall text, exists v, parseOllama (VStr text) = Ok v)
  /\ (forall prompt (s : Estimator * World) st body data reply,
        (forall req, network s.2 (length (trace s.2)) req = Responds st body) ->
        ok {| status := st; text := body |} = true ->
        JSON.parse body = Ok data ->
        member data "response" = Ok (VStr reply) ->
        exists s', callOllama prompt s = (parseOllama (VStr reply), s'))
  /\ is_ok (JSON.parse Examples.sureText) = false
  /\ parseCascade Examples.sureText = estimateOf (num 45) (VStr "ok")
  /\ parseOllama (VStr Examples.sureText) = Ok (parseCascade Examples.sureText)
  /\ member (estimateOf (num 45) (VStr "ok")) "minutes" = Ok (VNum (num 45))
  /\ (forall text,
        includes text "{" = false -> parseOllama (VStr text) = Ok (parseCascade text))
  /\ (forall text,
        includes text "{" = false ->
        Regex.String_match minutesRe text = None ->
        parseOllama (VStr text) = Ok defaultEstimate)
  /\ parseOllama (VStr "It should take about 90 minutes.")
     = Ok (estimateOf (num 90) (VStr "It should take about 90 minutes."))
  /\ parseOllama (VStr "No idea, sorry.") = Ok defaultEstimate
  /\ member defaultEstimate "minutes" = Ok (VNum (num 60))
  /\ (forall text chunks,
        Regex.String_match jsonRe text = Some chunks ->
        (exists pre before after post,
           text = pre +:+ Regex.whole chunks +:+ post
           /\ Regex.whole chunks = "{" +:+ before +:+ minutesKey +:+ after +:+ "}"
           /\ includes pre "{" = false
           /\ includes post "}" = false)
        /\ parseOllama (VStr text)
           = Ok (match JSON.parse (Regex.whole chunks) with
                 | Ok v => v
                 | Throw _ => firstSuccess [bareMinutes text] defaultEstimate
                 end))
  /\ parseCascade Examples.laterBrace = estimateOf (num 45) (VStr "short quiz")
  /\ parseOllama (VStr Examples.laterBrace) = Ok defaultEstimate
  /\ (exists o, parseCascade Examples.twoObjects = VObj o
                /\ o !! "minutes" = Some (VNum (num 45)))
  /\ parseOllama (VStr Examples.twoObjects) = Ok defaultEstimate
  /\ (forall text chunks,
        Regex.String_match minutesRe text = Some chunks ->
        exists digits n,
          head chunks = Some digits
          /\ Regex.all_in Regex.digit digits = true
          /\ 0 <= n
          /\ parseInt digits = num n)
  /\ (exists msg, parseOllama VUndefined = Throw (TypeError msg)).
Proof.
  split; [intros text; rewrite parseOllama_run; eauto|].
  split; [exact callOllama_parses|].
  split; [vm_compute; reflexivity|]. split; [vm_compute; reflexivity|].
  split; [vm_compute; reflexivity|]. split; [vm_compute; reflexivity|].
  split; [exact parseOllama_no_brace|].
  split.
  { intros text Hn Hm. rewrite (parseOllama_no_brace text Hn).
    unfold parseCascade, bareMinutes.
    rewrite (embeddedJson_no_brace text Hn), Hm. reflexivity. }
  split; [vm_compute; reflexivity|]. split; [vm_compute; reflexivity|].
  split; [vm_compute; reflexivity|].
  split.
  { intros text chunks Hs. split; [exact (jsonRe_shape text chunks Hs)|].
    rewrite parseOllama_run. unfold greedyJson. rewrite Hs. cbn [mbind option_bind].
    destruct (JSON.parse (Regex.whole chunks)); reflexivity. }
  split; [vm_compute; reflexivity|]. split; [vm_compute; reflexivity|].
  split; [eexists; split; vm_compute; reflexivity|].
  split; [vm_compute; reflexivity|].
  split.
  { intros text chunks Hs. destruct (String_match_sound _ _ _ Hs) as (Hacc & _).
    unfold minutesRe in Hacc. simpl app in Hacc.
    inversion Hacc as [|a digits r rest Hd Hrest]; subst. destruct Hd as [Hne Hall].
    destruct (parseInt_digits digits Hne Hall) as (n & Hn & Hp).
    exists digits, n. split; [reflexivity|]. split; [exact Hall|]. split; assumption. }
  eexists. vm_compute. reflexivity.
Qed.

End OllamaCall.

(** ** The source client *)

Section Sorting.
Import CanvasAPI.
Context {A : Type} (key : A -> Z).

(** ascending by [key] *)
Definition byKey (a b : A) : Prop := key a <= key b.

(** the comparison of a [compare] function that subtracts the keys *)
Definition keyAfter (a b : A) : bool := key b <? key a.

Lemma sort_insert_perm (after : A -> A -> bool) x l :
  Permutation (sort_insert after x l) (x :: l).
Proof.
  induction l as [|y l IH]; simpl; [reflexivity|].
  destruct (after x y); [|reflexivity].
  rewrite IH. apply perm_swap.
Qed.

Lemma Array_sort_perm (after : A -> A -> bool) l : Permutation (Array_sort after l) l.
Proof.
  induction l as [|x l IH]; simpl; [reflexivity|].
  unfold Array_sort in *. simpl. rewrite sort_insert_perm, IH. reflexivity.
Qed.

Lemma sort_insert_sorted x l :
  StronglySorted byKey l -> StronglySorted byKey (sort_insert keyAfter x l).
Proof.
  induction 1 as [|y l Hl IH Hy]; simpl; [repeat constructor|].
  unfold keyAfter at 1. destruct (Z.ltb_spec (key y) (key x)) as [Hlt|Hge].
  - constructor; [exact IH|].
    rewrite sort_insert_perm. constructor; [unfold byKey; lia | exact Hy].
  - constructor; [constructor; assumption|].
    constructor; [exact Hge|].
    eapply Forall_impl; [exact Hy|]. unfold byKey. intros z Hz. simpl in Hz. lia.
Qed.

Lemma Array_sort_sorted l : StronglySorted byKey (Array_sort keyAfter l).
Proof.
  induction l as [|x l IH]; [constructor|].
  unfold Array_sort in *. simpl. apply sort_insert_sorted. exact IH.
Qed.

Lemma sort_insert_ext (f g : A -> A -> bool) x l :
  Forall (fun y => f x y = g x y) l -> sort_insert f x l = sort_insert g x l.
Proof.
  induction 1 as [|y l Hy Hl IH]; simpl; [reflexivity|].
  rewrite Hy, IH. reflexivity.
Qed.

Lemma Array_sort_ext (P : A -> Prop) (f g : A -> A -> bool) l :
  (forall x y, P x -> P y -> f x y = g x y) ->
  Forall P l -> Array_sort f l = Array_sort g l.
Proof.
  intros Hfg. induction 1 as [|x l Hx Hl IH]; [reflexivity|].
  unfold Array_sort in *. simpl. rewrite IH.
  apply sort_insert_ext.
  assert (Forall P (foldr (sort_insert g) [] l)) as HP.
  { change (Forall P (Array_sort g l)). rewrite Array_sort_perm. exact Hl. }
  eapply Forall_impl; [exact HP|]. intros y Hy. simpl. apply Hfg; assumption.
Qed.

End Sorting.

Section Upcoming.
Context `{Builtins}.
Import CanvasAPI Design.

Lemma request_run c w endpoint :
  ready c ->
  request endpoint (c, w)
  = (requestOutcome (network w (length (trace w)) (canvasRequest c endpoint)),
     (c, record (EFetch (canvasRequest c endpoint)) w)).
Proof.
  intros [Hu Ht]. unfold request, bind at 1. unfold this at 1. cbn [fst snd].
  rewrite Hu, Ht. cbn [negb orb]. unfold try_catchM, bind, on_world, fetch. cbn [fst snd].
  fold (canvasRequest c endpoint).
  destruct (network w (length (trace w)) (canvasRequest c endpoint)) as [e|st body]; simpl;
    [reflexivity|].
  destruct (ok {| status := st; text := body |}); simpl; [|reflexivity].
  unfold lift, json. simpl. destruct (JSON.parse body); reflexivity.
Qed.

Lemma member_opt v k : nullish v = false -> member v k = Ok (opt_member v k).
Proof. destruct v; simpl; try reflexivity; discriminate. Qed.

Lemma upcoming_step_run c w course acc :
  ready c -> nullish course = false ->
  upcoming_step course acc (c, w)
  = (Ok (acc ++ courseItems course
                  (network w (length (trace w)) (assignmentsRequest c course))),
     (c, record (EFetch (assignmentsRequest c course)) w)).
Proof.
  intros Hc Hn. unfold upcoming_step, try_catchM.
  assert (forall s, lift (S := Canvas * World) (member course "id") s
                    = (Ok (opt_member course "id"), s)) as Hid
    by (intros s; unfold lift; rewrite (member_opt _ _ Hn); reflexivity).
  rewrite (bind_Ok _ _ _ _ _ (Hid (c, w))).
  unfold getCourseAssignments_upcoming. unfold bind at 1.
  rewrite (request_run c w _ Hc). fold (assignmentsRequest c course).
  unfold courseItems.
  destruct (requestOutcome _) as [v|e].
  - unfold bind at 1. unfold lift at 1. destruct (enrich course v) as [items|e].
    + reflexivity.
    + rewrite (bind_Ok _ _ _ _ _ (Hid _)). rewrite app_nil_r. reflexivity.
  - rewrite (bind_Ok _ _ _ _ _ (Hid _)). rewrite app_nil_r. reflexivity.
Qed.

Lemma upcoming_loop_run c courses : forall w acc,
  ready c -> Forall (fun course => nullish course = false) courses ->
  exists w',
    upcoming_loop courses acc (c, w)
    = (Ok (acc ++ assignmentsOf c w (length (trace w)) courses), (c, w'))
    /\ local_area w' = local_area w
    /\ local_writes w' = local_writes w.
Proof.
  induction courses as [|course courses IH]; intros w acc Hc Hall.
  - exists w. unfold assignmentsOf. simpl. rewrite app_nil_r. auto.
  - inversion Hall as [|? ? Hn Hrest]; subst. simpl.
    rewrite (bind_Ok _ _ _ _ _ (upcoming_step_run c w course acc Hc Hn)).
    destruct (IH (record (EFetch (assignmentsRequest c course)) w)
                 (acc ++ courseItems course
                           (network w (length (trace w)) (assignmentsRequest c course)))
                 Hc Hrest) as (w' & -> & Hl & Hw).
    exists w'. split; [|split; [exact Hl | rewrite Hw, local_writes_record; apply app_nil_r]].
    f_equal. f_equal. rewrite <- app_assoc. f_equal.
    unfold assignmentsOf. simpl. rewrite Nat.add_0_r. f_equal. f_equal.
    apply imap_ext. intros i x _. simpl. rewrite Nat.add_succ_r. reflexivity.
Qed.


Lemma dueAfter_key a b : dated a -> dated b -> dueAfter a b = keyAfter dueTime a b.
Proof.
  intros [x Hx] [y Hy]. unfold dueAfter, compareDue, keyAfter, dueTime.
  rewrite Hx, Hy. simpl. unfold Qle_bool. simpl. rewrite Z.mul_1_r.
  destruct (Z.leb_spec (x - y) 0), (Z.ltb_spec y x); simpl; try reflexivity; lia.
Qed.

(** C5.  [getUpcomingAssignments] asks for the assignments of every active
    course; a course whose request fails contributes nothing and the loop
    goes on, so the result holds exactly the assignments of the courses
    whose request succeeded, reordered by [sort]: ascending by due date when
    every due date is a date.  With three courses of which the second fails,
    the result is made of the assignments of the first and the third. *)
Theorem getUpcomingAssignments_partial (c : Canvas) (w : World) (courses : list value) :
  ready c ->
  requestOutcome (network w (length (trace w)) (canvasRequest c coursesEndpoint))
  = Ok (VArr courses) ->
  Forall (fun course => nullish course = false) courses ->
  exists result s',
    getUpcomingAssignments (c, w) = (Ok result, s')
    /\ result = Array_sort dueAfter (assignmentsOf c w (S (length (trace w))) courses)
    /\ Permutation result (assignmentsOf c w (S (length (trace w))) courses)
    /\ (Forall dated result -> StronglySorted (byKey dueTime) result)
    /\ (forall first second third,
          courses = [first; second; third] ->
          is_ok (requestOutcome (network w (length (trace w) + 2)
                                   (assignmentsRequest c second))) = false ->
          Permutation result
            (courseItems first (network w (length (trace w) + 1)
                                  (assignmentsRequest c first))
             ++ courseItems third (network w (length (trace w) + 3)
                                     (assignmentsRequest c third)))).
Proof.
  intros Hc Hcourses Hall.
  set (items := assignmentsOf c w (S (length (trace w))) courses).
  exists (Array_sort dueAfter items).
  unfold getUpcomingAssignments, getCourses. unfold bind at 1.
  rewrite (request_run c w _ Hc). fold coursesEndpoint. rewrite Hcourses.
  unfold bind at 1. unfold lift at 1. simpl iterate. cbv iota beta.
  destruct (upcoming_loop_run c courses (record (EFetch (canvasRequest c coursesEndpoint)) w)
              [] Hc Hall) as (w' & Hloop & _).
  simpl in Hloop. fold items in Hloop.
  rewrite (bind_Ok _ _ _ _ _ Hloop). unfold ret.
  eexists. split; [reflexivity|]. split; [reflexivity|].
  split; [apply Array_sort_perm|]. split.
  - intros Hd.
    assert (Forall dated items) as Hitems by (rewrite <- (Array_sort_perm dueAfter); exact Hd).
    rewrite (Array_sort_ext dated dueAfter (keyAfter dueTime) items dueAfter_key Hitems).
    apply Array_sort_sorted.
  - intros first second third -> Hfail. rewrite Array_sort_perm.
    unfold items, assignmentsOf. simpl. rewrite app_nil_r.
    replace (S (length (trace w) + 0)) with (length (trace w) + 1)%nat by lia.
    replace (S (length (trace w) + 1)) with (length (trace w) + 2)%nat by lia.
    replace (S (length (trace w) + 2)) with (length (trace w) + 3)%nat by lia.
    unfold courseItems at 2.
    destruct (requestOutcome (network w (length (trace w) + 2) (assignmentsRequest c second)));
      [discriminate|].
    reflexivity.
Qed.

End Upcoming.

Lemma getUpcomingAssignments_partial_witness :
  @Design.ready Examples.campusClient
  /\ @Design.requestOutcome
       (network Examples.campus (length (trace Examples.campus))
          (@Design.canvasRequest Examples.builtins Examples.campusClient
             Design.coursesEndpoint))
     = Ok (VArr Examples.campusCourses)
  /\ Forall (fun course => nullish course = false) Examples.campusCourses
  /\ exists s',
       @CanvasAPI.getUpcomingAssignments Examples.builtins
         (Examples.campusClient, Examples.campus)
       = (Ok [Examples.sourceEssay; Examples.problemSet], s').
Proof.
  assert (Design.ready Examples.campusClient) as Hready by (split; reflexivity).
  assert (Forall (fun course => nullish course = false) Examples.campusCourses) as Hall
    by (repeat constructor).
  assert (Design.requestOutcome
            (network Examples.campus (length (trace Examples.campus))
               (@Design.canvasRequest Examples.builtins Examples.campusClient
                  Design.coursesEndpoint))
          = Ok (VArr Examples.campusCourses)) as Hcourses by (vm_compute; reflexivity).
  split; [exact Hready|]. split; [exact Hcourses|]. split; [exact Hall|].
  destruct (@getUpcomingAssignments_partial Examples.builtins Examples.campusClient
              Examples.campus Examples.campusCourses Hready Hcourses Hall)
    as (result & s' & Hrun & Hresult & _).
  exists s'. rewrite Hrun, Hresult. vm_compute. reflexivity.
Defined.

(** ** The refresh pass of the worker *)

(** a task of the worker that leaves the storage areas alone *)
Definition calm {A} (m : M World A) : Prop := forall w, quiet w (m w).2.


Section Calm.

Lemma calm_ret {A} (a : A) : calm (ret a).
Proof. intros w. apply quiet_refl. Qed.

Lemma calm_bind {A B} (m : M World A) (f : A -> M World B) :
  calm m -> (forall a, calm (f a)) -> calm (bind m f).
Proof.
  intros Hm Hf w. unfold bind. specialize (Hm w).
  destruct (m w) as [[a|e] w1]; simpl in *; [|exact Hm].
  exact (quiet_trans _ _ _ Hm (Hf a w1)).
Qed.

Lemma calm_with_instance {S A} (init : S) (m : M (S * World) A) :
  quietly m -> calm (with_instance init m).
Proof.
  intros Hm w. unfold with_instance. specialize (Hm (init, w)).
  destruct (m (init, w)) as [r s]. exact Hm.
Qed.

Lemma calm_sync_get keys : calm (storage_sync_get keys).
Proof. intros w. apply quiet_record. discriminate. Qed.

Lemma calm_Date_now : calm Date_now.
Proof. intros w. apply quiet_record. discriminate. Qed.

Lemma calm_notify options : calm (notifications_create options).
Proof. intros w. apply quiet_record. discriminate. Qed.

End Calm.

Section CanvasQuiet.
Context `{Builtins}.
Import CanvasAPI.

Lemma quietly_request endpoint : quietly (request endpoint).
Proof. unfold request. repeat quiet_step. Qed.

Lemma quietly_canvas_configure url token : quietly (configure url token).
Proof. unfold configure. destruct url; repeat quiet_step. Qed.

Lemma quietly_getTodoItems : quietly getTodoItems.
Proof.
  unfold getTodoItems, getEndOfWeek.
  repeat first [apply quietly_request | quiet_step].
Qed.

Lemma calm_fetchTodoItems settings : calm (ServiceWorker.fetchTodoItems settings).
Proof.
  apply calm_with_instance. apply quietly_bind; [apply quietly_canvas_configure|].
  intros _. apply quietly_getTodoItems.
Qed.

Lemma calm_checkForUrgentAssignments assignments :
  calm (ServiceWorker.checkForUrgentAssignments assignments).
Proof.
  unfold ServiceWorker.checkForUrgentAssignments.
  apply calm_bind; [apply calm_sync_get|]. intros settings.
  destruct (negb _); [apply calm_ret|].
  apply calm_bind; [apply calm_Date_now|]. intros now.
  destruct (_ <? _)%nat; [apply calm_notify | apply calm_ret].
Qed.

Lemma checkForUrgentAssignments_ok assignments w :
  (ServiceWorker.checkForUrgentAssignments assignments w).1 = Ok tt.
Proof.
  unfold ServiceWorker.checkForUrgentAssignments, bind, storage_sync_get, Date_now,
    notifications_create, ret.
  destruct (negb _); [reflexivity|]. simpl.
  destruct (_ <? _)%nat; reflexivity.
Qed.
End CanvasQuiet.

Section EstimatorJSQuiet.
Context `{Builtins}.
Import TimeEstimatorJS.

Lemma quietly_js_estimateAll l : quietly (estimateAll l).
Proof.
  assert (quietly configure) as Hc by (unfold configure; repeat quiet_step).
  assert (forall a, quietly (estimateSingle a)) as Hs.
  { intros a. unfold estimateSingle, aiBranch, heuristicBranch, getAIEstimate,
      callAnthropic.
    repeat first [apply Hc | apply quietly_callOpenAI | quiet_step]. }
  unfold estimateAll. apply quietly_bind; [exact Hc|]. intros _.
  generalize (@nil obj). induction l as [|a l IH]; intros acc; simpl.
  - apply quietly_ret.
  - apply quietly_bind; [apply Hs | intros ?; apply IH].
Qed.
End EstimatorJSQuiet.

Section Refresh.
Context `{Builtins}.

Lemma networkFails_next w w' : networkFails w -> quiet w w' -> nextFetchFails w'.
Proof.
  intros Hnet (_ & _ & Hn & _) req. rewrite Hn. apply Hnet.
Qed.

Lemma request_fails endpoint (s : CanvasAPI.Canvas * World) :
  nextFetchFails s.2 -> exists error s', CanvasAPI.request endpoint s = (Throw error, s').
Proof.
  intros Hnet. unfold CanvasAPI.request. unfold bind at 1. unfold this at 1. cbn [fst].
  destruct (_ || _); [unfold throw; eauto|].
  unfold try_catchM, bind, on_world, fetch.
  match goal with
  | |- context [network ?w ?n ?req] =>
      pose proof (Hnet req) as Hreq; destruct (network w n req) as [err|st body]
  end.
  - unfold throw. eauto.
  - destruct Hreq as [Hreq|Hreq].
    + rewrite Hreq. cbn. unfold throw. eauto.
    + destruct (ok _); cbn; unfold throw; [|eauto].
      unfold lift, json. cbn [text].
      destruct (JSON.parse body); [discriminate Hreq | eauto].
Qed.

Lemma getTodoItems_fails (s : CanvasAPI.Canvas * World) :
  networkFails s.2 -> exists error s', CanvasAPI.getTodoItems s = (Throw error, s').
Proof.
  intros Hnet. unfold CanvasAPI.getTodoItems, CanvasAPI.getEndOfWeek.
  unfold bind at 1. unfold on_world at 1, Date_now at 1. cbn [snd fst].
  unfold bind at 1. unfold bind at 1. unfold on_world at 1, Date_now at 1. cbn [snd fst].
  unfold ret at 1.
  set (s1 := (s.1, record ENow (record ENow s.2))).
  assert (quiet s.2 s1.2) as Hq1.
  { apply quiet_trans with (record ENow s.2); apply quiet_record; discriminate. }
  match goal with |- context [CanvasAPI.request ?e] => set (planner := e) end.
  destruct (request_fails planner s1 (networkFails_next _ _ Hnet Hq1)) as (e1 & s2 & E1).
  erewrite try_catchM_Throw by (apply bind_Throw; exact E1).
  assert (quiet s.2 s2.2) as Hq2.
  { apply quiet_trans with s1.2; [exact Hq1|].
    pose proof (quietly_request planner s1) as Hq. rewrite E1 in Hq. exact Hq. }
  destruct (request_fails "/users/self/todo" s2 (networkFails_next _ _ Hnet Hq2))
    as (e2 & s3 & E2).
  exists e2, s3. apply bind_Throw. exact E2.
Qed.

Lemma fetchTodoItems_fails settings w :
  networkFails w -> exists error w', ServiceWorker.fetchTodoItems settings w = (Throw error, w').
Proof.
  intros Hnet. unfold ServiceWorker.fetchTodoItems, with_instance.
  unfold bind. 
  destruct (CanvasAPI.configure _ _ _) as [[[]|e] s1] eqn:E; [|eauto].
  assert (quiet w s1.2) as Hq.
  { pose proof (quietly_canvas_configure (get settings "canvasUrl") (get settings "apiToken")
                  (CanvasAPI.new_CanvasAPI, w)) as Hq.
    rewrite E in Hq. exact Hq. }
  destruct (getTodoItems_fails s1) as (e & s2 & E2).
  { intros tick req. destruct Hq as (_ & _ & -> & _). apply Hnet. }
  rewrite E2. eauto.
Qed.

Section Imported.
Variable new_estimator : TimeEstimator.Estimator.
Variable estimateAll : list obj -> TimeEstimator.Method (list obj).
Hypothesis estimateAll_quiet : forall raw, quietly (estimateAll raw).

Lemma calm_estimateItems raw : calm (ServiceWorker.estimateItems new_estimator estimateAll raw).
Proof. apply calm_with_instance, estimateAll_quiet. Qed.

Lemma untouched_of_quiet w w' :
  quiet w w' -> local_area w' = local_area w /\ local_writes w' = local_writes w.
Proof. intros (_ & Hl & _ & _ & Hw & _). split; assumption. Qed.

Lemma refreshWith_discipline (w : World) :
  cacheDiscipline (ServiceWorker.refreshWith new_estimator estimateAll)
    (ServiceWorker.estimateItems new_estimator estimateAll) w.
Proof.
  unfold cacheDiscipline.
  set (keys := ["canvasUrl"; "apiToken"]).
  set (settings := pick keys (sync_area w)).
  set (w0 := record (ESyncGet keys) w).
  assert (quiet w w0) as Hq0 by (apply quiet_record; discriminate).
  assert (get settings "canvasUrl" = get (sync_area w) "canvasUrl") as Hurl
    by (apply get_pick; unfold keys; set_solver).
  assert (get settings "apiToken" = get (sync_area w) "apiToken") as Htok
    by (apply get_pick; unfold keys; set_solver).
  assert (ServiceWorker.refreshWith new_estimator estimateAll w =
          if negb (truthy (get (sync_area w) "canvasUrl"))
             || negb (truthy (get (sync_area w) "apiToken"))
          then (Ok tt, w0)
          else match ServiceWorker.fetchTodoItems settings w0 with
               | (Throw _, w1) => (Ok tt, w1)
               | (Ok raw, w1) =>
                   match ServiceWorker.estimateItems new_estimator estimateAll raw w1 with
                   | (Throw _, w2) => (Ok tt, w2)
                   | (Ok assignments, w2) =>
                       let written :=
                         ServiceWorker.snapshot assignments (clock w2 (length (trace w2))) in
                       (Ok tt,
                        (ServiceWorker.checkForUrgentAssignments assignments
                           (record (ELocalSet written) (write_local written (record ENow w2)))).2)
                   end
               end) as Hrun.
  { unfold ServiceWorker.refreshWith, ServiceWorker.refreshBody, try_catchM.
    unfold bind at 1. unfold storage_sync_get at 1.
    fold keys. fold settings. fold w0. rewrite Hurl, Htok.
    destruct (_ || _); [reflexivity|].
    unfold bind at 1.
    destruct (ServiceWorker.fetchTodoItems settings w0) as [[raw|e] w1]; [|reflexivity].
    unfold bind at 1.
    destruct (ServiceWorker.estimateItems _ _ raw w1) as [[assignments|e] w2]; [|reflexivity].
    unfold bind at 1. unfold Date_now at 1.
    unfold bind at 1. unfold storage_local_set at 1.
    pose proof (checkForUrgentAssignments_ok assignments
      (record (ELocalSet (ServiceWorker.snapshot assignments (clock w2 (length (trace w2)))))
         (write_local (ServiceWorker.snapshot assignments (clock w2 (length (trace w2))))
            (record ENow w2)))) as Hok.
    cbv zeta.
    destruct (ServiceWorker.checkForUrgentAssignments _ _) as [r wf].
    simpl in Hok. subst r. reflexivity. }
  rewrite Hrun. clear Hrun.
  assert (fetches w0 = fetches w) as Hf
    by (unfold w0; rewrite fetches_record; apply app_nil_r).
  destruct (truthy (get (sync_area w) "canvasUrl")) eqn:Ecu; cbn [negb orb];
    [destruct (truthy (get (sync_area w) "apiToken")) eqn:Eat; cbn [negb orb]|].
  2,3: cbn [fst snd]; pose proof (untouched_of_quiet _ _ Hq0) as Hu;
       repeat (split; [solve [reflexivity | intros; first [exact Hu | split; assumption]]|]);
       left; exact Hu.
  pose proof (calm_fetchTodoItems settings w0) as Hq1.
  destruct (ServiceWorker.fetchTodoItems settings w0) as [[raw|e] w1] eqn:Efetch;
    cbn [snd] in Hq1.
  2: { cbn [fst snd].
       pose proof (untouched_of_quiet _ _ (quiet_trans _ _ _ Hq0 Hq1)) as Hu.
       split; [reflexivity|]. split; [intros [?|?]; discriminate|].
       repeat (split; [solve [intros; exact Hu]|]). left; exact Hu. }
  pose proof (calm_estimateItems raw w1) as Hq2.
  destruct (ServiceWorker.estimateItems _ _ raw w1) as [[assignments|e2] w2] eqn:Eest;
    cbn [snd] in Hq2.
  2: { cbn [fst snd].
       pose proof (untouched_of_quiet _ _
                     (quiet_trans _ _ _ Hq0 (quiet_trans _ _ _ Hq1 Hq2))) as Hu.
       split; [reflexivity|]. split; [intros [?|?]; discriminate|].
       repeat (split; [solve [intros; exact Hu]|]). left; exact Hu. }
  cbv zeta. cbn [fst snd].
  set (written := ServiceWorker.snapshot assignments (clock w2 (length (trace w2)))).
  split; [reflexivity|]. split; [intros [?|?]; discriminate|].
  split; [intros ? ? [=]|]. split; [intros ? ? ? ? [= <- <-]; rewrite Eest; intros [=]|].
  split.
  { intros Hnet. destruct (fetchTodoItems_fails settings w0) as (e & w' & E).
    - intros tick req. destruct Hq0 as (_ & _ & -> & _). apply Hnet.
    - rewrite Efetch in E. discriminate E. }
  right. exists raw, w1, assignments, w2.
  split; [reflexivity|]. split; [reflexivity|]. split; [reflexivity|].
  split; [exact Eest|]. fold written.
  pose proof (calm_checkForUrgentAssignments assignments
                (record (ELocalSet written) (write_local written (record ENow w2)))) as Hq3.
  destruct Hq3 as (_ & Hl & _ & _ & Hw & _).
  pose proof (untouched_of_quiet _ _
                (quiet_trans _ _ _ Hq0 (quiet_trans _ _ _ Hq1 Hq2))) as [Hl2 Hw2].
  split.
  - rewrite Hw, local_writes_record.
    change (local_writes (write_local written (record ENow w2)))
      with (local_writes (record ENow w2)).
    rewrite local_writes_record, app_nil_r, Hw2. reflexivity.
  - rewrite Hl. cbn [local_area record write_local]. rewrite Hl2. reflexivity.
Qed.
End Imported.

(** C7. A refresh pass never raises, and it writes the cache only after the
    fetch and the estimation have both succeeded: with a credential missing
    it makes no request at all, and when the fetch stage or the estimation
    stage throws (as the fetch stage does whenever every request fails) the
    local area, so [cachedAssignments] and [lastUpdated], is what it was and
    nothing has been written to it; otherwise the one write is the snapshot
    of the estimated items and the time.  This holds with either estimator
    behind the import. *)
Theorem refresh_keeps_cache (w : World) :
  cacheDiscipline ServiceWorker.refreshAssignmentsInBackground
    (ServiceWorker.estimateItems TimeEstimator.new_TimeEstimator TimeEstimator.estimateAll) w
  /\ cacheDiscipline ServiceWorker.refreshAssignmentsInBackground_js
       (ServiceWorker.estimateItems TimeEstimatorJS.new_TimeEstimator
          TimeEstimatorJS.estimateAll) w.
Proof.
  split.
  - apply refreshWith_discipline. intros raw. apply quietly_estimateAll.
  - apply refreshWith_discipline. intros raw. apply quietly_js_estimateAll.
Qed.
End Refresh.

(** with the source answering 503 to everything, the pass returns and the
    cache of the day before is still there *)
Lemma refresh_keeps_cache_witness :
  let refresh := @ServiceWorker.refreshAssignmentsInBackground_js Examples.builtins in
  networkFails Examples.outage
  /\ (refresh Examples.outage).1 = Ok tt
  /\ local_area (refresh Examples.outage).2 = Examples.staleCache
  /\ local_writes (refresh Examples.outage).2 = [].
Proof.
  assert (networkFails Examples.outage) as Hnet by (intros tick req; left; reflexivity).
  destruct (@refresh_keeps_cache Examples.builtins Examples.outage)
    as [_ (Hok & _ & _ & _ & Hfail & _)].
  split; [exact Hnet|]. split; [exact Hok|]. exact (Hfail Hnet).
Defined.

(** once the source answers, the same pass replaces the cache *)
Example refresh_writes_cache :
  let final := (@ServiceWorker.refreshAssignmentsInBackground_js Examples.builtins
                  Examples.recovered).2 in
  length (fetches final) = 1%nat
  /\ length (local_writes final) = 1%nat
  /\ get (local_area final) "lastUpdated" = VNum (num 1710500000007)
  /\ exists a, get (local_area final) "cachedAssignments" = VArr [VObj a]
              /\ get a "title" = VStr "Source essay"
              /\ get a "estimationMethod" = VStr "heuristic".
Proof.
  cbv zeta. split; [vm_compute; reflexivity|]. split; [vm_compute; reflexivity|].
  split; [vm_compute; reflexivity|].
  eexists. split; [vm_compute; reflexivity|]. split; vm_compute; reflexivity.
Qed.

(** * More of the code

    What the estimator, the source client, the worker and the helpers do
    besides: the requests they send, what they leave alone, what they
    return at the edges. *)

(** further example inputs *)
Module Cases.

(** [{"response": "about 100000 minutes"}]: the answer of a local model *)
Definition generated : string :=
  "{" +:+ Examples.quoted "response" +:+ ": " +:+ Examples.quoted "about 100000 minutes"
  +:+ "}".

(** a browser set up for a local model that answers *)
Definition localModel : World :=
  {| sync_area := <["aiProvider" := VStr "local"]> ∅;
     local_area := ∅;
     network := fun _ _ => Responds 200 generated;
     clock := fun n => 1710500000000 + Z.of_nat n;
     trace := [] |}.

(** the items of [Examples.plannerBody] *)
Definition plannerItems : list value :=
  match JSON.parse Examples.plannerBody with
  | Ok (VArr items) => items
  | _ => []
  end.

End Cases.

(** ** The text [stripHtml] leaves *)

(** the text has a [>] *)
Fixpoint has_gt (s : string) : bool :=
  match s with
  | String c r => Ascii.eqb c ">" || has_gt r
  | EmptyString => false
  end.

(** no [<] of the text has a [>] after it *)
Fixpoint tagless (s : string) : bool :=
  match s with
  | String c r => negb (Ascii.eqb c "<" && has_gt r) && tagless r
  | EmptyString => true
  end.

(** the text up to the first [>], and the text after it *)
Fixpoint until_gt (s : string) : option (string * string) :=
  match s with
  | String c r =>
      if Ascii.eqb c ">" then Some (EmptyString, r)
      else '(a, rest) ← until_gt r; Some (String c a, rest)
  | EmptyString => None
  end.

(** the white space the text starts with *)
Fixpoint leading_spaces (s : string) : string :=
  match s with
  | String c r => if Regex.space c then String c (leading_spaces r) else EmptyString
  | EmptyString => EmptyString
  end.

Definition starts_with_space (s : string) : bool :=
  match s with
  | String c _ => Regex.space c
  | EmptyString => false
  end.

Fixpoint ends_with_space (s : string) : bool :=
  match s with
  | String c EmptyString => Regex.space c
  | String _ r => ends_with_space r
  | EmptyString => false
  end.

(** every white space character is one space, with no white space after it *)
Fixpoint single_spaced (s : string) : bool :=
  match s with
  | String c r =>
      (if Regex.space c then Ascii.eqb c " " && negb (starts_with_space r) else true)
      && single_spaced r
  | EmptyString => true
  end.

Section StripHtml.
Import Regex TimeEstimator.

Lemma replace_from_skip re rep x : forall rest,
  replace_from re rep (x +:+ rest) (String.length x) = replace_from re rep rest 0.
Proof.
  induction x as [|c x IH]; intros rest; [reflexivity|].
  rewrite append_cons. simpl. apply IH.
Qed.

Lemma length_append a b :
  String.length (a +:+ b) = (String.length a + String.length b)%nat.
Proof. induction a as [|c a IH]; [reflexivity|]. rewrite append_cons. simpl. rewrite IH. reflexivity. Qed.

Lemma until_gt_split s a rest : until_gt s = Some (a, rest) -> s = a +:+ ">" +:+ rest.
Proof.
  revert a rest. induction s as [|c s IH]; intros a rest; simpl; [discriminate|].
  destruct (Ascii.eqb_spec c ">") as [->|Hc].
  - intros [= <- <-]. reflexivity.
  - destruct (until_gt s) as [[a' rest']|]; simpl; [|discriminate].
    intros [= <- <-]. rewrite append_cons, <- (IH a' rest' eq_refl). reflexivity.
Qed.

Lemma until_gt_none s : until_gt s = None <-> has_gt s = false.
Proof.
  induction s as [|c s IH]; simpl; [tauto|].
  destruct (Ascii.eqb c ">"); simpl; [split; discriminate|].
  destruct (until_gt s) as [[a rest]|]; simpl.
  - split; [discriminate|]. intros E. apply IH in E. discriminate.
  - split; [intros _; apply IH; reflexivity | reflexivity].
Qed.

Lemma tag_body s :
  star_then (not_chr ">") (match_here [One (chr ">")]) s
  = match until_gt s with
    | Some (a, _) => Some [a; ">"]
    | None => None
    end.
Proof.
  induction s as [|c s IH]; [reflexivity|].
  cbn [star_then until_gt]. unfold not_chr at 1.
  destruct (Ascii.eqb_spec c ">") as [->|Hc]; cbn [negb].
  - reflexivity.
  - rewrite IH. destruct (until_gt s) as [[a rest]|]; [reflexivity|].
    cbn. unfold chr. destruct (Ascii.eqb_spec c ">"); [contradiction|reflexivity].
Qed.

Lemma match_tag c s :
  match_here tagRe (String c s)
  = if Ascii.eqb c "<" then
      match until_gt s with
      | Some (a, _) => Some ["<"; a; ">"]
      | None => None
      end
    else None.
Proof.
  unfold tagRe. cbn [match_here]. unfold chr at 1.
  destruct (Ascii.eqb_spec c "<") as [->|Hc]; [|reflexivity].
  change (match_here [Star (not_chr ">"); One (chr ">")] s)
    with (star_then (not_chr ">") (match_here [One (chr ">")]) s).
  rewrite tag_body. destruct (until_gt s) as [[a rest]|]; reflexivity.
Qed.

Lemma match_tag_nil : match_here tagRe "" = None.
Proof. reflexivity. Qed.

Definition untag (s : string) : string := String_replace_g tagRe " " s.
Definition collapse (s : string) : string := String_replace_g spacesRe " " s.

Lemma untag_cons c s :
  untag (String c s)
  = if Ascii.eqb c "<" then
      match until_gt s with
      | Some (_, rest) => String " " (untag rest)
      | None => String c (untag s)
      end
    else String c (untag s).
Proof.
  unfold untag, String_replace_g. cbn [replace_from]. rewrite match_tag.
  destruct (Ascii.eqb c "<"); [|reflexivity].
  destruct (until_gt s) as [[a rest]|] eqn:E; [|reflexivity].
  apply until_gt_split in E. subst s.
  assert (String.length (whole ["<"; a; ">"]) = S (String.length (a +:+ ">"))) as ->.
  { rewrite !whole_cons. change (whole []) with "". rewrite append_nil_r. reflexivity. }
  rewrite <- append_assoc, replace_from_skip. reflexivity.
Qed.

Lemma length_lt_until_gt s a rest :
  until_gt s = Some (a, rest) -> (String.length rest < S (String.length s))%nat.
Proof.
  intros E. apply until_gt_split in E. subst s.
  rewrite !length_append. simpl. lia.
Qed.

Lemma untag_no_gt s : has_gt s = false -> untag s = s.
Proof.
  induction s as [|c s IH]; [reflexivity|]. simpl.
  intros E. apply orb_false_iff in E as [Hc Hs].
  rewrite untag_cons. apply until_gt_none in Hs as Hn. rewrite Hn.
  rewrite (IH Hs). destruct (Ascii.eqb c "<"); reflexivity.
Qed.

Lemma tagless_no_gt s : has_gt s = false -> tagless s = true.
Proof.
  induction s as [|c s IH]; [reflexivity|]. simpl.
  intros E. apply orb_false_iff in E as [Hc Hs].
  rewrite Hs, andb_false_r, (IH Hs). reflexivity.
Qed.

Lemma tagless_untag_bounded n : forall s, (String.length s < n)%nat -> tagless (untag s) = true.
Proof.
  induction n as [|n IH]; intros s Hn; [lia|].
  destruct s as [|c s]; [reflexivity|].
  rewrite untag_cons. simpl in Hn.
  destruct (Ascii.eqb_spec c "<") as [->|Hc].
  - destruct (until_gt s) as [[a rest]|] eqn:E.
    + simpl. apply IH. apply length_lt_until_gt in E. lia.
    + apply until_gt_none in E. rewrite (untag_no_gt s E).
      simpl. rewrite E. simpl. apply tagless_no_gt, E.
  - simpl. destruct (Ascii.eqb_spec c "<"); [contradiction|]. simpl. apply IH. lia.
Qed.

Lemma tagless_untag s : tagless (untag s) = true.
Proof. apply (tagless_untag_bounded (S (String.length s))). lia. Qed.

Lemma untag_tagless s : tagless s = true -> untag s = s.
Proof.
  induction s as [|c s IH]; [reflexivity|]. simpl.
  intros E. apply andb_true_iff in E as [Hc Hs].
  rewrite untag_cons, (IH Hs).
  destruct (Ascii.eqb c "<"); [|reflexivity].
  simpl in Hc. apply negb_true_iff in Hc. apply until_gt_none in Hc. rewrite Hc. reflexivity.
Qed.

Lemma tagless_no_match s : tagless s = true -> String_match tagRe s = None.
Proof.
  induction s as [|c s IH]; [reflexivity|]. simpl tagless.
  intros E. apply andb_true_iff in E as [Hc Hs].
  cbn [String_match]. rewrite match_tag, (IH Hs).
  destruct (Ascii.eqb c "<"); [|reflexivity].
  simpl in Hc. apply negb_true_iff in Hc. apply until_gt_none in Hc. rewrite Hc. reflexivity.
Qed.


Lemma space_not_bracket c :
  space c = true -> Ascii.eqb c ">" = false /\ Ascii.eqb c "<" = false.
Proof.
  destruct c as [[] [] [] [] [] [] [] []]; vm_compute; intros E;
    first [discriminate E | split; reflexivity].
Qed.

Lemma leading_split s : s = leading_spaces s +:+ trimStart s.
Proof.
  induction s as [|c s IH]; [reflexivity|]. simpl.
  destruct (space c); [|reflexivity]. rewrite append_cons, <- IH. reflexivity.
Qed.

Lemma star_run s : star_then space (match_here []) s = Some [leading_spaces s].
Proof.
  induction s as [|c s IH]; [reflexivity|]. cbn [star_then leading_spaces].
  destruct (space c); [|reflexivity]. rewrite IH. reflexivity.
Qed.

Lemma collapse_cons c s :
  collapse (String c s)
  = if space c then String " " (collapse (trimStart s)) else String c (collapse s).
Proof.
  unfold collapse, String_replace_g, spacesRe. cbn [replace_from match_here].
  destruct (space c); [|reflexivity].
  rewrite star_run. cbn [fmap option_fmap option_map push].
  assert (String.length (whole [String c (leading_spaces s)])
          = S (String.length (leading_spaces s))) as ->.
  { rewrite whole_cons. change (whole []) with "". rewrite append_nil_r. reflexivity. }
  rewrite (leading_split s) at 1. rewrite replace_from_skip. reflexivity.
Qed.

Lemma trimStart_length s : (String.length (trimStart s) <= String.length s)%nat.
Proof. induction s as [|c s IH]; simpl; [lia|]. destruct (space c); simpl; lia. Qed.

Lemma starts_trimStart s : starts_with_space (trimStart s) = false.
Proof.
  induction s as [|c s IH]; [reflexivity|]. simpl.
  destruct (space c) eqn:E; [exact IH | simpl; exact E].
Qed.

Lemma trimStart_id s : starts_with_space s = false -> trimStart s = s.
Proof. destruct s as [|c s]; simpl; [reflexivity|]. intros ->. reflexivity. Qed.

Lemma space_space : space " "%char = true.
Proof. reflexivity. Qed.

Lemma starts_collapse s : starts_with_space (collapse s) = starts_with_space s.
Proof.
  destruct s as [|c s]; [reflexivity|]. rewrite collapse_cons. simpl.
  destruct (space c) eqn:E; simpl; [reflexivity | exact E].
Qed.

Lemma has_gt_trimStart s : has_gt (trimStart s) = has_gt s.
Proof.
  induction s as [|c s IH]; [reflexivity|]. simpl.
  destruct (space c) eqn:E; [|reflexivity].
  destruct (space_not_bracket c E) as [-> _]. exact IH.
Qed.

Lemma tagless_trimStart s : tagless (trimStart s) = tagless s.
Proof.
  induction s as [|c s IH]; [reflexivity|]. simpl.
  destruct (space c) eqn:E; [|reflexivity].
  destruct (space_not_bracket c E) as [_ ->]. exact IH.
Qed.

Lemma collapse_facts n : forall s,
  (String.length s < n)%nat ->
  single_spaced (collapse s) = true
  /\ has_gt (collapse s) = has_gt s
  /\ tagless (collapse s) = tagless s.
Proof.
  induction n as [|n IH]; intros s Hn; [lia|].
  destruct s as [|c s]; [repeat split|].
  rewrite collapse_cons. simpl in Hn.
  destruct (space c) eqn:E.
  - pose proof (trimStart_length s).
    destruct (IH (trimStart s)) as (H1 & H2 & H3); [lia|].
    destruct (space_not_bracket c E) as [Hgt Hlt].
    simpl. rewrite starts_collapse, starts_trimStart, H1, H2, H3, Hgt, Hlt.
    rewrite has_gt_trimStart, tagless_trimStart. repeat split.
  - destruct (IH s) as (H1 & H2 & H3); [lia|].
    simpl. rewrite E, H1, H2, H3. repeat split.
Qed.

Lemma collapse_single_spaced s : single_spaced s = true -> collapse s = s.
Proof.
  induction s as [|c s IH]; [reflexivity|]. simpl.
  intros E. apply andb_true_iff in E as [Hc Hs].
  rewrite collapse_cons. destruct (space c).
  - apply andb_true_iff in Hc as [Hc Hn]. apply Ascii.eqb_eq in Hc. subst c.
    apply negb_true_iff in Hn. rewrite (trimStart_id s Hn), (IH Hs). reflexivity.
  - rewrite (IH Hs). reflexivity.
Qed.

Lemma trimEnd_cons c s :
  trimEnd (String c s)
  = if space c && String.eqb (trimEnd s) "" then "" else String c (trimEnd s).
Proof. reflexivity. Qed.

Lemma trimEnd_facts s :
  has_gt (trimEnd s) = has_gt s
  /\ tagless (trimEnd s) = tagless s
  /\ (single_spaced s = true -> single_spaced (trimEnd s) = true)
  /\ (starts_with_space s = false -> starts_with_space (trimEnd s) = false)
  /\ ends_with_space (trimEnd s) = false
  /\ trimEnd (trimEnd s) = trimEnd s.
Proof.
  induction s as [|c s (H1 & H2 & H3 & H4 & H5 & H6)]; [repeat split|].
  rewrite trimEnd_cons.
  destruct (space c && String.eqb (trimEnd s) "") eqn:Edrop.
  - apply andb_true_iff in Edrop as [E Hnil]. apply String.eqb_eq in Hnil.
    destruct (space_not_bracket c E) as [Hgt Hlt].
    rewrite Hnil in H1, H2.
    cbn [has_gt tagless]. rewrite Hgt, Hlt, <- H1, <- H2. repeat split; reflexivity.
  - assert (trimEnd (String c (trimEnd s)) = String c (trimEnd s)) as Hidem.
    { rewrite trimEnd_cons, H6, Edrop. reflexivity. }
    cbn [has_gt tagless single_spaced starts_with_space].
    rewrite H1, H2. split; [reflexivity|]. split; [reflexivity|]. split.
    { intros Hs. apply andb_true_iff in Hs as [Ha Hb]. rewrite (H3 Hb), andb_true_r.
      destruct (space c); [|reflexivity].
      apply andb_true_iff in Ha as [Ha Hn]. rewrite Ha. simpl.
      apply negb_true_iff in Hn. rewrite (H4 Hn). reflexivity. }
    split; [tauto|]. split; [|exact Hidem].
    destruct (trimEnd s) as [|d t] eqn:Et; [|exact H5].
    cbn [ends_with_space]. destruct (space c); [discriminate Edrop | reflexivity].
Qed.

Lemma single_spaced_trimStart s : single_spaced s = true -> single_spaced (trimStart s) = true.
Proof.
  induction s as [|c s IH]; [reflexivity|]. simpl.
  destruct (space c) eqn:E; [|simpl; rewrite E; tauto].
  intros Hs. apply andb_true_iff in Hs as [_ Hs]. exact (IH Hs).
Qed.

Lemma ends_snoc pre c : ends_with_space (pre +:+ String c "") = space c.
Proof.
  induction pre as [|d pre IH]; [reflexivity|].
  rewrite append_cons. cbn [ends_with_space]. rewrite IH.
  destruct (pre +:+ String c "") eqn:E; [|reflexivity].
  destruct pre; discriminate E.
Qed.

Lemma single_spaced_at pre : forall s c post,
  single_spaced s = true -> s = pre +:+ String c post -> space c = true ->
  c = " "%char /\ starts_with_space post = false.
Proof.
  induction pre as [|d pre IH]; intros s c post Hs -> Hc.
  - rewrite append_nil in Hs. simpl in Hs. rewrite Hc in Hs.
    apply andb_true_iff in Hs as [Ha _]. apply andb_true_iff in Ha as [Ha Hn].
    apply Ascii.eqb_eq in Ha. apply negb_true_iff in Hn. split; assumption.
  - rewrite append_cons in Hs. simpl in Hs. apply andb_true_iff in Hs as [_ Hs].
    exact (IH _ c post Hs eq_refl Hc).
Qed.

(** what [stripHtml] leaves of a text *)
Lemma stripTags_facts html :
  let out := stripTags html in
  tagless out = true
  /\ single_spaced out = true
  /\ starts_with_space out = false
  /\ ends_with_space out = false
  /\ stripTags out = out.
Proof.
  cbv zeta. unfold stripTags. fold (untag html). fold (collapse (untag html)).
  set (t := collapse (untag html)).
  destruct (collapse_facts (S (String.length (untag html))) (untag html)) as (C1 & C2 & C3);
    [lia|]. fold t in C1, C2, C3.
  rewrite tagless_untag in C3.
  unfold trim.
  destruct (trimEnd_facts (trimStart t)) as (E1 & E2 & E3 & E4 & E5 & E6).
  assert (tagless (trimEnd (trimStart t)) = true) as Htag
    by (rewrite E2, tagless_trimStart; exact C3).
  assert (single_spaced (trimEnd (trimStart t)) = true) as Hsp
    by (apply E3, single_spaced_trimStart, C1).
  assert (starts_with_space (trimEnd (trimStart t)) = false) as Hst
    by (apply E4, starts_trimStart).
  repeat (split; [assumption|]).
  fold (untag (trimEnd (trimStart t))). rewrite (untag_tagless _ Htag).
  fold (collapse (trimEnd (trimStart t))). rewrite (collapse_single_spaced _ Hsp).
  rewrite (trimStart_id _ Hst). exact E6.
Qed.

End StripHtml.

Section StripHtmlTheorem.
Import Regex TimeEstimator.

Lemma has_gt_mid tag rest : has_gt (tag +:+ ">" +:+ rest) = true.
Proof.
  induction tag as [|c tag IH]; [reflexivity|].
  rewrite append_cons. simpl. rewrite IH. apply orb_true_r.
Qed.

Lemma tagless_tag before tag rest :
  tagless (before +:+ "<" +:+ tag +:+ ">" +:+ rest) = false.
Proof.
  induction before as [|c before IH].
  - rewrite append_nil, append_cons, append_nil. cbn [tagless].
    rewrite has_gt_mid. reflexivity.
  - rewrite append_cons. simpl. rewrite IH. apply andb_false_r.
Qed.

(** X1. [stripHtml] leaves no tag and tidy white space: for every text it
    returns a text in which the tag pattern matches nowhere (no [<] has a
    [>] after it), in which every white-space character is one space that
    is neither the first nor the last character nor followed by white space,
    and which [stripHtml] leaves as it is. *)
Theorem stripHtml_normal_form (html : string) :
  exists out,
    stripHtml (VStr html) = Ok out
    /\ String_match tagRe out = None
    /\ (forall before tag rest, out <> before +:+ "<" +:+ tag +:+ ">" +:+ rest)
    /\ (forall before c rest,
          out = before +:+ String c rest -> space c = true ->
          c = " "%char /\ before <> "" /\ rest <> ""
          /\ forall d rest', rest = String d rest' -> space d = false)
    /\ stripHtml (VStr out) = Ok out.
Proof.
  destruct (stripTags_facts html) as (Htag & Hsp & Hst & Hend & Hidem).
  assert (forall s, stripHtml (VStr s) = Ok (stripTags s)) as Hcall.
  { intros s. unfold stripHtml. cbn [truthy].
    destruct (String.eqb_spec s "") as [->|Hne]; reflexivity. }
  exists (stripTags html). split; [apply Hcall|].
  split; [apply tagless_no_match, Htag|].
  split.
  { intros before tag rest E. rewrite E, tagless_tag in Htag. discriminate Htag. }
  split.
  { intros before c rest E Hc.
    destruct (single_spaced_at before _ c rest Hsp E Hc) as [-> Hnext].
    split; [reflexivity|]. split.
    - intros ->. rewrite append_nil in E. rewrite E in Hst. simpl in Hst. congruence.
    - split.
      + intros ->. rewrite E, ends_snoc in Hend. congruence.
      + intros d rest' ->. exact Hnext. }
  rewrite Hcall, Hidem. reflexivity.
Qed.

End StripHtmlTheorem.

(** ** Requests *)

Section EstimatorRequests.
Context `{Builtins}.
Import TimeEstimator Design.

(** a step that leaves the instance and the browser as they are *)
Definition still {S A} (m : M S A) : Prop := forall s, (m s).2 = s.

Lemma still_ret {S A} (a : A) : still (ret (S := S) a).
Proof. intros s. reflexivity. Qed.
Lemma still_throw {S A} e : still (throw (S := S) (A := A) e).
Proof. intros s. reflexivity. Qed.
Lemma still_lift {S A} (r : result A) : still (lift (S := S) r).
Proof. intros s. reflexivity. Qed.
Lemma still_this {S} : still (this (S := S)).
Proof. intros s. reflexivity. Qed.
Lemma still_bind {S A B} (m : M S A) (f : A -> M S B) :
  still m -> (forall a, still (f a)) -> still (bind m f).
Proof.
  intros Hm Hf s. unfold bind. specialize (Hm s).
  destruct (m s) as [[a|e] s1]; simpl in *; subst s1; [apply Hf | reflexivity].
Qed.

Ltac still_step :=
  repeat first
    [ apply still_ret | apply still_throw | apply still_lift | apply still_this
    | apply still_bind; [|intros ?]
    | match goal with |- still (if ?b then _ else _) => destruct b end ].

(** the endpoint of the provider the instance is set to *)
Definition selfEndpoint (self : Estimator) : option string :=
  if is_str (aiProvider self) "openai"
  then Some "https://api.openai.com/v1/chat/completions"
  else if is_str (aiProvider self) "anthropic"
  then Some "https://api.anthropic.com/v1/messages"
  else if is_str (aiProvider self) "local"
  then Some (toString (localLlmUrl self) +:+ "/api/generate")
  else None.

(** the endpoint of the provider the settings name *)
Definition aiEndpoint (settings : obj) : option string :=
  let provider := or_else (get settings "aiProvider") (VStr "none") in
  if is_str provider "openai"
  then Some "https://api.openai.com/v1/chat/completions"
  else if is_str provider "anthropic"
  then Some "https://api.anthropic.com/v1/messages"
  else if is_str provider "local"
  then Some (toString (or_else (get settings "localLlmUrl") (VStr "http://localhost:11434"))
             +:+ "/api/generate")
  else None.

(** what a run did to the world: nothing, or one POST to [endpoint] *)
Definition oneCall {A} (endpoint : option string) (s : Estimator * World)
    (out : result A * (Estimator * World)) : Prop :=
  out.2 = s
  \/ exists req,
       out.2 = (s.1, record (EFetch req) s.2)
       /\ method req = "POST"
       /\ Some (url req) = endpoint.

Lemma call_world (req : Request) (k : Response -> Method value) s :
  (forall r, still (k r)) ->
  ((response <- on_world (fetch req) ;; k response) s).2 = (s.1, record (EFetch req) s.2).
Proof.
  intros Hk. unfold bind, on_world, fetch.
  destruct (network _ _ _) as [e|st body]; [reflexivity|]. apply Hk.
Qed.

Lemma callOpenAI_world prompt s :
  exists req,
    (callOpenAI prompt s).2 = (s.1, record (EFetch req) s.2)
    /\ method req = "POST"
    /\ url req = "https://api.openai.com/v1/chat/completions".
Proof.
  eexists. split.
  { unfold callOpenAI. rewrite (bind_Ok this _ s s.1 s eq_refl).
    apply call_world. intros r. still_step. }
  split; reflexivity.
Qed.

Lemma callAnthropic_world prompt s :
  exists req,
    (callAnthropic prompt s).2 = (s.1, record (EFetch req) s.2)
    /\ method req = "POST"
    /\ url req = "https://api.anthropic.com/v1/messages".
Proof.
  eexists. split.
  { unfold callAnthropic. rewrite (bind_Ok this _ s s.1 s eq_refl).
    apply call_world. intros r. still_step. }
  split; reflexivity.
Qed.

Lemma callOllama_world prompt s :
  exists req,
    (callOllama prompt s).2 = (s.1, record (EFetch req) s.2)
    /\ method req = "POST"
    /\ url req = toString (localLlmUrl s.1) +:+ "/api/generate".
Proof.
  eexists. split.
  { unfold callOllama. rewrite (bind_Ok this _ s s.1 s eq_refl).
    apply call_world. intros r. still_step. }
  split; reflexivity.
Qed.

Lemma getAIEstimate_world a s : oneCall (selfEndpoint s.1) s (getAIEstimate a s).
Proof.
  unfold getAIEstimate, oneCall, selfEndpoint.
  destruct (buildPrompt a) as [prompt|e] eqn:Ep.
  2: { left. erewrite bind_Throw by (unfold lift; reflexivity). reflexivity. }
  erewrite bind_Ok by (unfold lift; reflexivity).
  rewrite (bind_Ok this _ s s.1 s eq_refl).
  destruct (is_str _ "openai").
  { right. destruct (callOpenAI_world prompt s) as (req & Hw & Hm & Hu).
    exists req. rewrite Hu. repeat split; assumption. }
  destruct (is_str _ "anthropic").
  { right. destruct (callAnthropic_world prompt s) as (req & Hw & Hm & Hu).
    exists req. rewrite Hu. repeat split; assumption. }
  destruct (is_str _ "local").
  { right. destruct (callOllama_world prompt s) as (req & Hw & Hm & Hu).
    exists req. rewrite Hu. repeat split; assumption. }
  left. reflexivity.
Qed.

Lemma heuristicBranch_still a : still (heuristicBranch a).
Proof. unfold heuristicBranch. still_step. Qed.

Lemma bind_still {S A B} (m : M S A) (k : A -> M S B) s :
  (forall a, still (k a)) -> (bind m k s).2 = (m s).2.
Proof.
  intros Hk. unfold bind. destruct (m s) as [[a|e] s1]; [apply Hk | reflexivity].
Qed.

Lemma try_catchM_still {S A} (m : M S A) h s :
  (forall e, still (h e)) -> (try_catchM m h s).2 = (m s).2.
Proof.
  intros Hh. unfold try_catchM. destruct (m s) as [[a|e] s1]; [reflexivity | apply Hh].
Qed.

Lemma chooseEstimate_world a s :
  oneCall (selfEndpoint s.1) s (chooseEstimate a s)
  /\ (useAI s.1 = false -> (chooseEstimate a s).2 = s).
Proof.
  unfold chooseEstimate. destruct (useAI s.1).
  - split; [|discriminate]. unfold oneCall.
    rewrite try_catchM_still by (intros e; apply heuristicBranch_still).
    unfold aiBranch. rewrite bind_still by (intros v; still_step).
    apply getAIEstimate_world.
  - split; [left|intros _]; apply heuristicBranch_still.
Qed.

Lemma selfEndpoint_configured settings e :
  selfEndpoint (configured settings e) = aiEndpoint settings.
Proof.
  unfold selfEndpoint, aiEndpoint, configured. cbv zeta.
  set (provider := or_else (get settings "aiProvider") (VStr "none")).
  destruct (is_str provider "openai") eqn:Eo; [cbn; rewrite Eo; reflexivity|].
  destruct (is_str provider "anthropic") eqn:Ea; [cbn; rewrite Eo, Ea; reflexivity|].
  destruct (is_str provider "local") eqn:El; cbn; rewrite Eo, Ea, El; reflexivity.
Qed.

Lemma aiEndpoint_pick area : aiEndpoint (pick configKeys area) = aiEndpoint area.
Proof.
  unfold aiEndpoint. rewrite !get_pick by (unfold configKeys; set_solver). reflexivity.
Qed.

(** the requests of one [estimateSingle] *)
Lemma estimateSingle_sent a (s : Estimator * World) :
  exists sent,
    fetches (estimateSingle a s).2.2 = fetches s.2 ++ sent
    /\ (length sent <= 1)%nat
    /\ Forall (fun req => method req = "POST"
                          /\ Some (url req) = aiEndpoint (sync_area s.2)) sent
    /\ (eligible (sync_area s.2) = false -> sent = []).
Proof.
  destruct s as [e w]. rewrite estimateSingle_run. cbn [snd].
  set (s1 := (configured (pick configKeys (sync_area w)) e, record (ESyncGet configKeys) w)).
  destruct (chooseEstimate_world a s1) as [Hc Hno].
  assert (fetches s1.2 = fetches w) as Hf1
    by (unfold s1; cbn [snd]; rewrite fetches_record; apply app_nil_r).
  assert (selfEndpoint s1.1 = aiEndpoint (sync_area w)) as Hend
    by (unfold s1; cbn [fst]; rewrite selfEndpoint_configured; apply aiEndpoint_pick).
  assert (useAI s1.1 = eligible (sync_area w)) as Huse
    by (unfold s1; cbn [fst]; rewrite useAI_configured; apply eligible_pick).
  rewrite Hend in Hc. rewrite Huse in Hno.
  assert (exists sent,
            fetches (chooseEstimate a s1).2.2 = fetches w ++ sent
            /\ (length sent <= 1)%nat
            /\ Forall (fun req => method req = "POST"
                                  /\ Some (url req) = aiEndpoint (sync_area w)) sent
            /\ (eligible (sync_area w) = false -> sent = [])) as (sent & Hs & Hl & Hall & Hnone).
  { destruct (eligible (sync_area w)) eqn:El.
    - destruct Hc as [Hc|(req & Hc & Hm & Hu)]; rewrite Hc.
      + exists []. rewrite app_nil_r.
        split; [exact Hf1|]. split; [simpl; lia|]. split; [constructor | discriminate].
      + exists [req]. cbn [snd]. rewrite fetches_record, Hf1.
        split; [reflexivity|]. split; [simpl; lia|].
        split; [repeat constructor; assumption | discriminate].
    - rewrite (Hno eq_refl). exists []. rewrite app_nil_r.
      split; [exact Hf1|]. split; [simpl; lia|]. split; [constructor | reflexivity]. }
  exists sent. split; [|split; [exact Hl | split; [exact Hall | exact Hnone]]].
  destruct (chooseEstimate a s1) as [[est|err] s2]; cbn [snd] in *; [|exact Hs].
  rewrite fetches_record, app_nil_r. exact Hs.
Qed.

Lemma estimateAll_loop_sent items : forall acc (s : Estimator * World),
  exists sent,
    fetches (estimateAll_loop items acc s).2.2 = fetches s.2 ++ sent
    /\ (length sent <= length items)%nat
    /\ Forall (fun req => method req = "POST"
                          /\ Some (url req) = aiEndpoint (sync_area s.2)) sent
    /\ (eligible (sync_area s.2) = false -> sent = []).
Proof.
  induction items as [|a items IH]; intros acc s.
  - exists []. rewrite app_nil_r.
    split; [reflexivity|]. split; [simpl; lia|]. split; [constructor | reflexivity].
  - cbn [estimateAll_loop]. unfold bind.
    destruct (estimateSingle_sent a s) as (sent1 & Hs1 & Hl1 & Hall1 & Hn1).
    pose proof (quietly_estimateSingle a s) as (Hsync & _).
    destruct (estimateSingle a s) as [[r|e] s1]; cbn [snd] in *.
    + destruct (IH (acc ++ [r]) s1) as (sent2 & Hs2 & Hl2 & Hall2 & Hn2).
      rewrite Hsync in Hall2, Hn2.
      exists (sent1 ++ sent2). rewrite Hs2, Hs1, app_assoc, length_app.
      split; [reflexivity|]. split; [simpl; lia|]. split; [apply Forall_app; split; assumption|].
      intros El. rewrite (Hn1 El), (Hn2 El). reflexivity.
    + exists sent1.
      split; [exact Hs1|]. split; [simpl; lia|]. split; [exact Hall1 | exact Hn1].
Qed.

(** X2. [estimateAll] never writes to a storage area.  It sends at most one
    request for each assignment, each a POST to the endpoint of the provider
    the settings name, and none at all when the settings make AI
    ineligible. *)
Theorem estimateAll_requests (items : list obj) (s : Estimator * World) :
  let final := (estimateAll items s).2.2 in
  sync_area final = sync_area s.2
  /\ local_area final = local_area s.2
  /\ local_writes final = local_writes s.2
  /\ exists sent,
       fetches final = fetches s.2 ++ sent
       /\ (length sent <= length items)%nat
       /\ Forall (fun req => method req = "POST"
                             /\ Some (url req) = aiEndpoint (sync_area s.2)) sent
       /\ (eligible (sync_area s.2) = false -> sent = []).
Proof.
  cbv zeta. destruct (quietly_estimateAll items s) as (Hs & Hl & _ & _ & Hw & _).
  split; [exact Hs|]. split; [exact Hl|]. split; [exact Hw|].
  destruct s as [e w]. unfold estimateAll. unfold bind at 1. rewrite configure_run.
  cbn [snd].
  destruct (estimateAll_loop_sent items []
              (configured (pick configKeys (sync_area w)) e, record (ESyncGet configKeys) w))
    as (sent & Hf & Hlen & Hall & Hnone).
  cbn [snd] in *. rewrite fetches_record, app_nil_r in Hf.
  exists sent. split; [exact Hf|]. split; [exact Hlen|]. split; [exact Hall | exact Hnone].
Qed.

End EstimatorRequests.

Section EstimatorMore.
Context `{Builtins}.
Import TimeEstimator Design.

Lemma configured_idem settings e :
  configured settings (configured settings e) = configured settings e.
Proof.
  unfold configured. cbv zeta.
  set (provider := or_else (get settings "aiProvider") (VStr "none")).
  destruct (is_str provider "openai"); [reflexivity|].
  destruct (is_str provider "anthropic"); [reflexivity|].
  destruct (is_str provider "local"); reflexivity.
Qed.

(** X3. [configure] reads the settings and nothing else: it never throws,
    sends no request and writes nothing.  Afterwards the provider is the
    stored one, or "none", and the model the stored one, or the default;
    whether AI is tried depends on the settings alone, not on what the
    instance held before; and configuring again changes nothing. *)
Theorem configure_settles (e : Estimator) (w : World) :
  let after := (configure (e, w)).2 in
  (configure (e, w)).1 = Ok tt
  /\ aiProvider after.1 = or_else (get (sync_area w) "aiProvider") (VStr "none")
  /\ model after.1 = or_else (get (sync_area w) "estimationModel") (VStr "gpt-3.5-turbo")
  /\ useAI after.1 = eligible (sync_area w)
  /\ (configure after).2.1 = after.1
  /\ sync_area after.2 = sync_area w
  /\ local_area after.2 = local_area w
  /\ fetches after.2 = fetches w
  /\ local_writes after.2 = local_writes w.
Proof.
  cbv zeta. rewrite configure_run. cbn [fst snd].
  split; [reflexivity|].
  split.
  { unfold configured. cbv zeta. rewrite !get_pick by (unfold configKeys; set_solver).
    set (provider := or_else (get (sync_area w) "aiProvider") (VStr "none")).
    destruct (is_str provider "openai"); [reflexivity|].
    destruct (is_str provider "anthropic"); [reflexivity|].
    destruct (is_str provider "local"); reflexivity. }
  split.
  { unfold configured. cbv zeta. rewrite !get_pick by (unfold configKeys; set_solver).
    set (provider := or_else (get (sync_area w) "aiProvider") (VStr "none")).
    destruct (is_str provider "openai"); [reflexivity|].
    destruct (is_str provider "anthropic"); [reflexivity|].
    destruct (is_str provider "local"); reflexivity. }
  split; [rewrite useAI_configured; apply eligible_pick|].
  split; [rewrite configure_run; cbn [fst snd]; apply configured_idem|].
  split; [reflexivity|]. split; [reflexivity|].
  split; [rewrite fetches_record; apply app_nil_r|].
  rewrite local_writes_record. apply app_nil_r.
Qed.

(** X4. What an AI call returns is passed on as it is: when AI is eligible and
    [getAIEstimate] returns a value, [estimateSingle] marks the method "ai"
    and stores the value's [minutes] property unchanged, whatever it holds;
    the heuristic and its bounds play no part. *)
Theorem estimateSingle_keeps_ai_minutes (a : obj) (e : Estimator) (w : World)
    (estimate minutes : value) (s1 : Estimator * World) :
  eligible (sync_area w) = true ->
  getAIEstimate a (configure (e, w)).2 = (Ok estimate, s1) ->
  member estimate "minutes" = Ok minutes ->
  exists r s',
    estimateSingle a (e, w) = (Ok r, s')
    /\ r !! "estimatedMinutes" = Some minutes
    /\ r !! "estimationMethod" = Some (VStr "ai")
    /\ forall k, k <> "estimatedMinutes" -> k <> "estimationMethod" -> k <> "estimatedAt" ->
         r !! k = a !! k.
Proof.
  intros El Hai Hmin. rewrite estimateSingle_run. rewrite configure_run in Hai.
  cbn [snd] in Hai.
  unfold chooseEstimate. cbn [fst].
  rewrite useAI_configured, eligible_pick, El.
  erewrite try_catchM_Ok.
  2: { unfold aiBranch. erewrite bind_Ok by exact Hai.
       erewrite bind_Ok by (unfold lift; rewrite Hmin; reflexivity). reflexivity. }
  eexists _, _. split; [reflexivity|]. cbn [fst snd].
  split; [apply enriched_minutes|]. split; [apply enriched_method|].
  intros k. apply enriched_other.
Qed.

Lemma minutesRe_digits text chunks :
  Regex.String_match minutesRe text = Some chunks ->
  exists digits n, head chunks = Some digits /\ 0 <= n /\ parseInt digits = num n.
Proof.
  intros Hs. destruct (String_match_sound _ _ _ Hs) as (Hacc & _).
  unfold minutesRe in Hacc. simpl app in Hacc.
  inversion Hacc as [|x digits r rest Hd Hrest]; subst. destruct Hd as [Hne Hall].
  destruct (parseInt_digits digits Hne Hall) as (n & Hn & Hp).
  exists digits, n. split; [reflexivity|]. split; assumption.
Qed.

(** X5. The parse stage of the hosted back ends ([callOpenAI], [callAnthropic]):
    a reply that is JSON as a whole is returned as parsed, whatever it is;
    a reply that is no JSON but holds "<number> minute(s)" gives that
    number, a non-negative integer, with the reply as reasoning; any other
    text throws "Could not parse AI response", with no default; a missing
    reply throws a [TypeError]; and [null] is returned as [null]. *)
Theorem parseHosted_stages :
  (forall text v, JSON.parse text = Ok v -> parseHosted (VStr text) = Ok v)
  /\ (forall text chunks,
        is_ok (JSON.parse text) = false ->
        Regex.String_match minutesRe text = Some chunks ->
        exists digits n,
          head chunks = Some digits /\ 0 <= n /\ parseInt digits = num n
          /\ parseHosted (VStr text) = Ok (estimateOf (num n) (VStr text)))
  /\ (forall text,
        is_ok (JSON.parse text) = false ->
        Regex.String_match minutesRe text = None ->
        parseHosted (VStr text) = Throw (Error "Could not parse AI response"))
  /\ (exists msg, parseHosted VUndefined = Throw (TypeError msg))
  /\ parseHosted VNull = Ok VNull.
Proof.
  split.
  { intros text v Hp. unfold parseHosted, JSON_parse. cbn [toString]. rewrite Hp. reflexivity. }
  split.
  { intros text chunks Hp Hm. destruct (minutesRe_digits text chunks Hm) as (d & n & Hd & Hn & Hi).
    exists d, n. split; [exact Hd|]. split; [exact Hn|]. split; [exact Hi|].
    unfold parseHosted, JSON_parse. cbn [toString].
    destruct (JSON.parse text); [discriminate Hp|]. cbn [try_catch call_match].
    unfold mbind, result_bind. rewrite Hm, Hd.
    change (default "" (Some d)) with d. rewrite Hi. reflexivity. }
  split.
  { intros text Hp Hm. unfold parseHosted, JSON_parse. cbn [toString].
    destruct (JSON.parse text); [discriminate Hp|]. cbn [try_catch call_match].
    unfold mbind, result_bind. rewrite Hm. reflexivity. }
  split; [eexists; vm_compute; reflexivity | vm_compute; reflexivity].
Qed.

End EstimatorMore.

(** a value [JSON.parse] can return: no [undefined], no NaN, no infinity *)
Inductive Json : value -> Prop :=
  | Json_null : Json VNull
  | Json_bool b : Json (VBool b)
  | Json_num q : Json (VNum (Finite q))
  | Json_str s : Json (VStr s)
  | Json_arr l : Forall Json l -> Json (VArr l)
  | Json_obj o : map_Forall (fun _ v => Json v) o -> Json (VObj o).

Section JsonValues.

Lemma expect_Json lit v s r w : Json v -> JSON.expect lit v s = Some (w, r) -> Json w.
Proof. unfold JSON.expect. destruct (String.prefix lit s); [|discriminate]. intros Hv [= <- _]. exact Hv. Qed.

Lemma parse_number_Json s n r : JSON.parse_number s = Some (n, r) -> Json (VNum n).
Proof.
  unfold JSON.parse_number.
  destruct (match s with String "-" r0 => (-1, r0) | _ => (1, s) end) as [sign s1].
  destruct (JSON.parse_int_part s1) as [[ints s2]|]; [|discriminate]. simpl.
  destruct (JSON.parse_frac_part s2) as [[fracs s3]|]; [|discriminate]. simpl.
  destruct (JSON.parse_exp_part s3) as [[e s4]|]; [|discriminate]. simpl.
  intros [= <- _]. constructor.
Qed.

Lemma parse_Json_fuel fuel :
  (forall s v r, JSON.parse_value fuel s = Some (v, r) -> Json v)
  /\ (forall acc s v r,
        Forall Json acc -> JSON.parse_elements fuel acc s = Some (v, r) -> Json v)
  /\ (forall acc s v r,
        map_Forall (fun _ x => Json x) acc ->
        JSON.parse_members fuel acc s = Some (v, r) -> Json v).
Proof.
  induction fuel as [|f (IHv & IHe & IHm)]; [repeat split; intros; discriminate|].
  split; [|split].
  - intros s v r. cbn [JSON.parse_value].
    destruct (JSON.skip_ws s) as [|c t]; [discriminate|].
    destruct (Ascii.eqb c "{").
    { destruct (JSON.skip_ws t) as [|d u] eqn:Et.
      - apply IHm. apply map_Forall_empty.
      - destruct (Ascii.eqb_spec d "}") as [->|Hd].
        + intros [= <- _]. constructor. apply map_Forall_empty.
        + assert (JSON.parse_members f ∅ (String d u) = Some (v, r) -> Json v) as Hm
            by (apply IHm, map_Forall_empty).
          destruct d as [[] [] [] [] [] [] [] []]; try exact Hm.
          contradiction Hd; reflexivity. }
    destruct (Ascii.eqb c "[").
    { destruct (JSON.skip_ws t) as [|d u] eqn:Et.
      - apply IHe. constructor.
      - destruct (Ascii.eqb_spec d "]") as [->|Hd].
        + intros [= <- _]. constructor. constructor.
        + assert (JSON.parse_elements f [] (String d u) = Some (v, r) -> Json v) as Hm
            by (apply IHe; constructor).
          destruct d as [[] [] [] [] [] [] [] []]; try exact Hm.
          contradiction Hd; reflexivity. }
    destruct (Ascii.eqb c (ascii_of_N 34)).
    { destruct (JSON.parse_string t) as [[str r']|]; [|discriminate].
      simpl. intros [= <- _]. constructor. }
    destruct (Ascii.eqb c "t"); [apply expect_Json; constructor|].
    destruct (Ascii.eqb c "f"); [apply expect_Json; constructor|].
    destruct (Ascii.eqb c "n"); [apply expect_Json; constructor|].
    destruct (JSON.parse_number (String c t)) as [[n r']|] eqn:En; [|discriminate].
    simpl. intros [= <- _]. exact (parse_number_Json _ _ _ En).
  - intros acc s v r Hacc. cbn [JSON.parse_elements].
    destruct (JSON.parse_value f s) as [[x r1]|] eqn:Ex; [|discriminate]. simpl.
    pose proof (IHv _ _ _ Ex) as Hx.
    assert (Forall Json (acc ++ [x])) as Hacc'
      by (apply Forall_app; split; [exact Hacc | repeat constructor; exact Hx]).
    destruct (JSON.skip_ws r1) as [|d u]; [discriminate|].
    destruct (Ascii.eqb_spec d ",") as [->|Hc]; [apply IHe; exact Hacc'|].
    destruct (Ascii.eqb_spec d "]") as [->|Hb]; [intros [= <- _]; constructor; exact Hacc'|].
    destruct d as [[] [] [] [] [] [] [] []]; try discriminate;
      first [contradiction Hc; reflexivity | contradiction Hb; reflexivity].
  - intros acc s v r Hacc. cbn [JSON.parse_members].
    destruct (JSON.skip_ws s) as [|c t]; [discriminate|].
    destruct (Ascii.eqb c (ascii_of_N 34)); [|discriminate].
    destruct (JSON.parse_string t) as [[key r1]|]; [|discriminate]. simpl.
    destruct (JSON.skip_ws r1) as [|d u]; [discriminate|].
    destruct (Ascii.eqb_spec d ":") as [->|Hd].
    2: { destruct d as [[] [] [] [] [] [] [] []]; try discriminate.
         contradiction Hd; reflexivity. }
    destruct (JSON.parse_value f u) as [[x r3]|] eqn:Ex; [|discriminate]. simpl.
    pose proof (IHv _ _ _ Ex) as Hx.
    assert (map_Forall (fun _ y => Json y) (<[key := x]> acc)) as Hacc'
      by (apply map_Forall_insert_2; assumption).
    destruct (JSON.skip_ws r3) as [|d' u']; [discriminate|].
    destruct (Ascii.eqb_spec d' ",") as [->|Hc]; [apply IHm; exact Hacc'|].
    destruct (Ascii.eqb_spec d' "}") as [->|Hb]; [intros [= <- _]; constructor; exact Hacc'|].
    destruct d' as [[] [] [] [] [] [] [] []]; try discriminate;
      first [contradiction Hc; reflexivity | contradiction Hb; reflexivity].
Qed.

Lemma parse_Json text v : JSON.parse text = Ok v -> Json v.
Proof.
  unfold JSON.parse.
  destruct (JSON.parse_value _ text) as [[x rest]|] eqn:E; [|discriminate].
  destruct (JSON.skip_ws rest); [|discriminate]. intros [= <-].
  exact (proj1 (parse_Json_fuel _) _ _ _ E).
Qed.

Lemma Json_member v k : Json v -> Json (opt_member v k) \/ opt_member v k = VUndefined.
Proof.
  intros Hv. destruct Hv as [| | | | |o Ho]; try (right; reflexivity).
  unfold opt_member, get. destruct (o !! k) as [x|] eqn:E; [left|right; reflexivity].
  exact (Ho k x E).
Qed.

Lemma Json_not_NaN v : Json v -> v <> VNum NaN.
Proof. intros Hv E. subst. inversion Hv. Qed.

Lemma Json_member2_not_NaN v k1 k2 : Json v -> opt_member (opt_member v k1) k2 <> VNum NaN.
Proof.
  intros Hv. destruct (Json_member v k1 Hv) as [H1| ->]; [|discriminate].
  destruct (Json_member _ k2 H1) as [H2| ->]; [apply Json_not_NaN, H2 | discriminate].
Qed.

End JsonValues.

Section CanvasMore.
Context `{Builtins}.
Import CanvasAPI Design.

(** every character of the text is a slash *)
Fixpoint slashes (s : string) : bool :=
  match s with
  | String c r => Ascii.eqb c "/" && slashes r
  | EmptyString => true
  end.

Lemma strip_cons c s :
  stripTrailingSlashes (String c s)
  = if Ascii.eqb c "/" && String.eqb (stripTrailingSlashes s) "" then ""
    else String c (stripTrailingSlashes s).
Proof. reflexivity. Qed.

Lemma strip_split s : exists tail, s = stripTrailingSlashes s +:+ tail /\ slashes tail = true.
Proof.
  induction s as [|c s (tail & Hs & Ht)]; [exists ""; split; reflexivity|].
  rewrite strip_cons.
  destruct (Ascii.eqb c "/" && String.eqb (stripTrailingSlashes s) "") eqn:E.
  - apply andb_true_iff in E as [Hc Hnil]. apply String.eqb_eq in Hnil.
    rewrite Hnil, append_nil in Hs. subst s.
    exists (String c tail). split; [reflexivity|]. simpl. rewrite Hc. exact Ht.
  - exists tail. rewrite append_cons, <- Hs. split; [reflexivity | exact Ht].
Qed.

Lemma strip_idem s : stripTrailingSlashes (stripTrailingSlashes s) = stripTrailingSlashes s.
Proof.
  induction s as [|c s IH]; [reflexivity|]. rewrite strip_cons.
  destruct (Ascii.eqb c "/" && String.eqb (stripTrailingSlashes s) "") eqn:E; [reflexivity|].
  rewrite strip_cons, IH, E. reflexivity.
Qed.

Lemma strip_app_keep a b :
  stripTrailingSlashes b = b -> b <> "" -> stripTrailingSlashes (a +:+ b) = a +:+ b.
Proof.
  intros Hb Hne. induction a as [|c a IH]; [exact Hb|].
  rewrite append_cons, strip_cons, IH.
  destruct (a +:+ b) eqn:E; [destruct a; [contradiction | discriminate]|].
  rewrite andb_false_r. reflexivity.
Qed.

(** the base URL [configure] stores for the text [s] *)
Definition normalized (s : string) : string :=
  let stripped := stripTrailingSlashes s in
  if includes stripped "/api/v1" then stripped else stripped +:+ "/api/v1".

Lemma normalized_strip s : stripTrailingSlashes (normalized s) = normalized s.
Proof.
  unfold normalized. destruct (includes (stripTrailingSlashes s) "/api/v1"); [apply strip_idem|].
  apply strip_app_keep; [reflexivity | discriminate].
Qed.

Lemma normalized_includes s : includes (normalized s) "/api/v1" = true.
Proof.
  unfold normalized. destruct (includes (stripTrailingSlashes s) "/api/v1") eqn:E; [exact E|].
  apply includes_spec. exists (stripTrailingSlashes s), "". rewrite append_nil_r. reflexivity.
Qed.

Lemma normalized_idem s : normalized (normalized s) = normalized s.
Proof.
  unfold normalized at 1. rewrite normalized_strip, normalized_includes. reflexivity.
Qed.

(** X6. [configure] normalises the base URL: for a text it never throws and
    stores a URL that contains [/api/v1] and has no slash at its end, made of
    the text without its trailing slashes, with [/api/v1] appended unless it
    is there already; the token is stored as given; configuring with the
    stored URL again changes nothing.  For a URL that is no text it throws a
    [TypeError] and leaves the instance as it was.  It sends nothing. *)
Theorem configure_normalizes (c : Canvas) (w : World) (token : value) :
  (forall s,
     exists b tail,
       configure (VStr s) token (c, w)
       = (Ok tt, ({| baseUrl := VStr b; apiToken := token |}, w))
       /\ includes b "/api/v1" = true
       /\ stripTrailingSlashes b = b
       /\ s = stripTrailingSlashes s +:+ tail /\ slashes tail = true
       /\ (b = stripTrailingSlashes s \/ b = stripTrailingSlashes s +:+ "/api/v1")
       /\ (includes s "/api/v1" = false -> b = stripTrailingSlashes s +:+ "/api/v1")
       /\ configure (VStr b) token ({| baseUrl := VStr b; apiToken := token |}, w)
          = (Ok tt, ({| baseUrl := VStr b; apiToken := token |}, w)))
  /\ (forall url,
        (forall s, url <> VStr s) ->
        exists msg, configure url token (c, w) = (Throw (TypeError msg), (c, w))).
Proof.
  split.
  - intros s. destruct (strip_split s) as (tail & Hs & Ht).
    exists (normalized s), tail.
    split; [reflexivity|]. split; [apply normalized_includes|].
    split; [apply normalized_strip|]. split; [exact Hs|]. split; [exact Ht|].
    split; [unfold normalized; destruct (includes (stripTrailingSlashes s) "/api/v1"); tauto|].
    split.
    + intros Hno. unfold normalized.
      destruct (includes (stripTrailingSlashes s) "/api/v1") eqn:E; [|reflexivity].
      apply includes_spec in E as (x & y & E).
      assert (includes s "/api/v1" = true) as Hin; [|congruence].
      apply includes_spec. exists x, (y +:+ tail).
      rewrite Hs, E, !append_assoc. reflexivity.
    + unfold configure, update. cbn [fst snd]. fold (normalized (normalized s)).
      rewrite normalized_idem. reflexivity.
  - intros url Hurl. destruct url; try (eexists; reflexivity).
    destruct (Hurl s eq_refl).
Qed.


Lemma testConnection_run (c : Canvas) (w : World) :
  exists answer w',
    testConnection (c, w) = (Ok answer, (c, w'))
    /\ (answer = true <->
        ready c
        /\ exists user,
             requestOutcome (network w (length (trace w)) (canvasRequest c "/users/self"))
             = Ok user
             /\ truthy (opt_member user "id") = true)
    /\ fetches w'
       = fetches w ++ (if truthy (baseUrl c) && truthy (apiToken c)
                       then [canvasRequest c "/users/self"] else [])
    /\ sync_area w' = sync_area w
    /\ local_area w' = local_area w
    /\ local_writes w' = local_writes w.
Proof.
  unfold testConnection.
  destruct (truthy (baseUrl c) && truthy (apiToken c)) eqn:Er.
  - apply andb_true_iff in Er as [Hb Ht].
    assert (ready c) as Hready by (split; assumption).
    pose proof (request_run c w "/users/self" Hready) as Hrun.
    destruct (requestOutcome (network w (length (trace w)) (canvasRequest c "/users/self")))
      as [user|e] eqn:Eout.
    + destruct (nullish user) eqn:En.
      * exists false, (record (EFetch (canvasRequest c "/users/self")) w).
        split.
        { erewrite try_catchM_Throw; [reflexivity|].
          erewrite bind_Ok by exact Hrun. apply bind_Throw.
          unfold lift. destruct user; try discriminate En; reflexivity. }
        split.
        { split; [discriminate|]. intros (_ & u & [= <-] & Hu).
          destruct user; try discriminate En; discriminate Hu. }
        rewrite fetches_record, local_writes_record, app_nil_r. repeat split.
      * exists (truthy (opt_member user "id")),
               (record (EFetch (canvasRequest c "/users/self")) w).
        split.
        { erewrite try_catchM_Ok; [reflexivity|].
          erewrite bind_Ok by exact Hrun.
          erewrite bind_Ok by (unfold lift; rewrite (member_opt _ _ En); reflexivity).
          reflexivity. }
        split.
        { split; [intros Hu; split; [exact Hready | exists user; split; [reflexivity | exact Hu]]
                 | intros (_ & u & [= <-] & Hu); exact Hu]. }
        rewrite fetches_record, local_writes_record, app_nil_r. repeat split.
    + exists false, (record (EFetch (canvasRequest c "/users/self")) w).
      split.
      { erewrite try_catchM_Throw; [reflexivity|]. apply bind_Throw. exact Hrun. }
      split; [split; [discriminate | intros (_ & u & Hu & _); discriminate Hu]|].
      rewrite fetches_record, local_writes_record, app_nil_r. repeat split.
  - exists false, w. split.
    { erewrite try_catchM_Throw; [reflexivity|]. apply bind_Throw.
      unfold request. rewrite (bind_Ok this _ (c, w) c (c, w) eq_refl).
      apply andb_false_iff in Er.
      assert (negb (truthy (baseUrl c)) || negb (truthy (apiToken c)) = true) as ->
        by (destruct Er as [-> | ->]; [reflexivity | apply orb_true_r]).
      reflexivity. }
    split.
    { split; [discriminate|]. intros ([Hb Ht] & _). rewrite Hb, Ht in Er. discriminate. }
    rewrite app_nil_r. repeat split.
Qed.

(** X7. [testConnection] never throws.  It answers [true] exactly when the
    instance is configured and the request for [/users/self] succeeds with a
    user whose [id] is truthy; it sends that one request, or none when the
    instance is not configured, and changes neither the instance nor a
    storage area. *)
Theorem testConnection_total (c : Canvas) (w : World) :
  exists answer w',
    testConnection (c, w) = (Ok answer, (c, w'))
    /\ (answer = true <->
        ready c
        /\ exists user,
             requestOutcome (network w (length (trace w)) (canvasRequest c "/users/self"))
             = Ok user
             /\ truthy (opt_member user "id") = true)
    /\ fetches w'
       = fetches w ++ (if truthy (baseUrl c) && truthy (apiToken c)
                       then [canvasRequest c "/users/self"] else [])
    /\ sync_area w' = sync_area w
    /\ local_area w' = local_area w
    /\ local_writes w' = local_writes w.
Proof. exact (testConnection_run c w). Qed.


(** the endpoint [getTodoItems] asks first, with the two readings of the
    clock that make its dates *)
Definition plannerEndpoint (w : World) : string :=
  "/planner/items?"
  +:+ "start_date=" +:+ URLSearchParams_escape (Date_toISOString (clock w (length (trace w))))
  +:+ "&end_date="
  +:+ URLSearchParams_escape
        (Date_toISOString (Date_endOfWeek (clock w (S (length (trace w))))))
  +:+ "&per_page=100".

(** X8. [getTodoItems] asks the planner endpoint for the rest of the week
    first; when that request, or the normalisation of its answer, throws, it
    asks [/users/self/todo] and returns what that stage gives, dropping the
    first error.  It sends one request when the planner stage succeeds and
    two when it does not, and writes to no storage area. *)
Theorem getTodoItems_fallback (c : Canvas) (w : World) :
  ready c ->
  let tick := length (trace w) in
  let planner :=
    requestOutcome (network w (tick + 2) (canvasRequest c (plannerEndpoint w)))
    ≫= normalizePlannerItems in
  let todo :=
    requestOutcome (network w (tick + 3) (canvasRequest c "/users/self/todo"))
    ≫= normalizeTodoItems in
  exists w',
    getTodoItems (c, w)
    = (match planner with Ok items => Ok items | Throw _ => todo end, (c, w'))
    /\ fetches w'
       = fetches w ++ canvasRequest c (plannerEndpoint w)
                      :: (if is_ok planner then [] else [canvasRequest c "/users/self/todo"])
    /\ sync_area w' = sync_area w
    /\ local_area w' = local_area w
    /\ local_writes w' = local_writes w.
Proof.
  intros Hready. cbv zeta.
  unfold getTodoItems, getEndOfWeek.
  unfold bind at 1. unfold on_world at 1, Date_now at 1. cbn [snd fst].
  unfold bind at 1. unfold bind at 1. unfold on_world at 1, Date_now at 1. cbn [snd fst].
  unfold ret at 1.
  set (w2 := record ENow (record ENow w)).
  assert (length (trace w2) = (length (trace w) + 2)%nat) as Hlen by (simpl; lia).
  fold (plannerEndpoint w).
  pose proof (request_run c w2 (plannerEndpoint w) Hready) as Hp. rewrite Hlen in Hp.
  change (network w2) with (network w) in Hp.
  set (w3 := record (EFetch (canvasRequest c (plannerEndpoint w))) w2) in *.
  assert (fetches w3 = fetches w ++ [canvasRequest c (plannerEndpoint w)]) as Hf3.
  { unfold w3, w2. rewrite !fetches_record, !app_nil_r. reflexivity. }
  assert (local_writes w3 = local_writes w) as Hw3.
  { unfold w3, w2. rewrite !local_writes_record, !app_nil_r. reflexivity. }
  destruct (requestOutcome (network w (length (trace w) + 2)%nat
                                     (canvasRequest c (plannerEndpoint w)))
            ≫= normalizePlannerItems) as [items|e] eqn:Eplan.
  - exists w3. split.
    { erewrite try_catchM_Ok; [reflexivity|].
      destruct (requestOutcome _) as [v|e]; [|discriminate Eplan].
      erewrite bind_Ok by exact Hp. unfold lift. cbn in Eplan. rewrite Eplan. reflexivity. }
    cbn [is_ok]. rewrite Hf3, Hw3. repeat split.
  - pose proof (request_run c w3 "/users/self/todo" Hready) as Ht.
    assert (length (trace w3) = (length (trace w) + 3)%nat) as Hlen3 by (simpl; lia).
    rewrite Hlen3 in Ht. change (network w3) with (network w) in Ht.
    exists (record (EFetch (canvasRequest c "/users/self/todo")) w3). split.
    { assert (exists e', (plannerItems <- request (plannerEndpoint w) ;;
                          lift (normalizePlannerItems plannerItems)) (c, w2)
                         = (Throw e', (c, w3))) as (e' & Hthrow).
      { destruct (requestOutcome (network w (length (trace w) + 2)%nat
                                           (canvasRequest c (plannerEndpoint w))))
          as [v|e0].
        - exists e. erewrite bind_Ok by exact Hp. unfold lift. cbn in Eplan.
          rewrite Eplan. reflexivity.
        - exists e0. apply bind_Throw. exact Hp. }
      rewrite (try_catchM_Throw _ _ _ _ _ Hthrow).
      destruct (requestOutcome (network w (length (trace w) + 3)%nat
                                           (canvasRequest c "/users/self/todo")))
        as [v|e0].
      - erewrite bind_Ok by exact Ht. reflexivity.
      - erewrite bind_Throw by exact Ht. reflexivity. }
    cbn [is_ok]. rewrite fetches_record, local_writes_record, Hf3, Hw3, app_nil_r.
    rewrite <- app_assoc. repeat split.
Qed.


(** whether [normalizePlannerItems] keeps the item *)
Definition plannable (item : value) : bool :=
  is_str (opt_member item "plannable_type") "assignment"
  || is_str (opt_member item "plannable_type") "quiz".

(** the properties of a normalised item *)
Definition itemKeys : gset string :=
  list_to_set ["id"; "title"; "type"; "dueDate"; "courseName"; "courseId";
               "pointsPossible"; "htmlUrl"; "submissionTypes"; "description"; "completed"].

Lemma filterPlannable_filter items :
  Forall (fun item => nullish item = false) items ->
  filterPlannable items = Ok (List.filter plannable items).
Proof.
  induction items as [|item items IH]; intros Hall; [reflexivity|].
  apply Forall_cons in Hall as [Hitem Hrest].
  cbn [filterPlannable List.filter]. unfold isPlannable.
  rewrite (member_opt _ _ Hitem). cbn [mbind result_bind]. rewrite (IH Hrest).
  reflexivity.
Qed.

Lemma filterPlannable_throws items e :
  filterPlannable items = Throw e -> Exists (fun item => nullish item = true) items.
Proof.
  revert e. induction items as [|item items IH]; intros e; [discriminate|].
  cbn [filterPlannable]. destruct (nullish item) eqn:En; [intros _; left; exact En|].
  unfold isPlannable. rewrite (member_opt _ _ En). cbn [mbind result_bind].
  destruct (filterPlannable items) as [others|e'] eqn:E; [discriminate|].
  intros _. right. exact (IH e' eq_refl).
Qed.

Lemma or_else_truthy a b : truthy b = true -> truthy (or_else a b) = true.
Proof. unfold or_else. destruct (truthy a) eqn:E; [intros _; exact E | tauto]. Qed.

Lemma lookup_get (o : obj) k v : o !! k = Some v -> get o k = v.
Proof. unfold get. intros ->. reflexivity. Qed.

Lemma filterPlannable_kept items kept :
  filterPlannable items = Ok kept ->
  kept = List.filter plannable items /\ Forall (fun i => plannable i = true) kept.
Proof.
  revert kept. induction items as [|item items IH]; intros kept.
  - intros [= <-]. split; [reflexivity | constructor].
  - cbn [filterPlannable List.filter]. unfold isPlannable.
    destruct (member item "plannable_type") as [type|e] eqn:Em; [|discriminate].
    cbn [mbind result_bind].
    destruct (filterPlannable items) as [others|e]; [|discriminate].
    destruct (IH others eq_refl) as [-> Hall].
    assert (plannable item = is_str type "assignment" || is_str type "quiz") as Hp.
    { unfold plannable. destruct item; try discriminate Em;
        cbn in Em; injection Em as <-; reflexivity. }
    rewrite Hp. cbn [mbind result_bind].
    destruct (is_str type "assignment" || is_str type "quiz") eqn:Ek; intros [= <-].
    + split; [reflexivity|]. constructor; [exact Hp | exact Hall].
    + split; [reflexivity | exact Hall].
Qed.

Lemma normalizePlannerItems_ok items out :
  normalizePlannerItems (VArr items) = Ok out ->
  out = map plannerItem (List.filter plannable items).
Proof.
  unfold normalizePlannerItems.
  destruct (filterPlannable items) as [kept|e] eqn:E; cbn [mbind result_bind];
    [|discriminate].
  intros [= <-]. destruct (filterPlannable_kept items kept E) as [-> _]. reflexivity.
Qed.

Lemma normalizeTodoItems_ok items out :
  normalizeTodoItems (VArr items) = Ok out -> out = map todoItem items.
Proof.
  unfold normalizeTodoItems.
  destruct (forallb (fun item => negb (nullish item)) items); [|discriminate].
  intros [= <-]. reflexivity.
Qed.

(** X9. [normalizePlannerItems] keeps the items whose [plannable_type] is
    "assignment" or "quiz", in their order, and gives each the same eleven
    properties: its type is one of the two, its title is never empty (the
    type stands in for a missing one), the submission types and the
    description are never missing, and a quiz is categorised as a quiz
    whatever its title says.  It throws only for a [null] or [undefined]
    item. *)
Theorem normalizePlannerItems_shape (items : list value) :
  match normalizePlannerItems (VArr items) with
  | Ok out =>
      out = map plannerItem (List.filter plannable items)
      /\ (length out <= length items)%nat
      /\ Forall (fun a =>
                   dom a = itemKeys
                   /\ (get a "type" = VStr "assignment" \/ get a "type" = VStr "quiz")
                   /\ truthy (get a "title") = true
                   /\ truthy (get a "submissionTypes") = true
                   /\ get a "description" <> VUndefined
                   /\ (get a "type" = VStr "quiz" ->
                       forall title, get a "title" = VStr title ->
                       TimeEstimator.categorizeAssignment a = Ok "quiz")) out
  | Throw _ => Exists (fun item => nullish item = true) items
  end.
Proof.
  unfold normalizePlannerItems.
  destruct (filterPlannable items) as [kept|e] eqn:E; cbn [mbind result_bind].
  2: exact (filterPlannable_throws items e E).
  destruct (filterPlannable_kept items kept E) as [Hkept Hall].
  split; [rewrite Hkept; reflexivity|].
  split; [rewrite length_map, Hkept; apply List.filter_length_le|].
  apply Forall_map. eapply Forall_impl; [exact Hall|].
  intros item Hp. cbn beta.
  assert (get (plannerItem item) "type" = opt_member item "plannable_type") as Htype
    by (apply lookup_get; reflexivity).
  assert (get (plannerItem item) "title"
          = or_else (opt_member (opt_member item "plannable") "title")
                    (opt_member item "plannable_type")) as Htitle
    by (apply lookup_get; reflexivity).
  assert (opt_member item "plannable_type" = VStr "assignment"
          \/ opt_member item "plannable_type" = VStr "quiz") as Hcases.
  { unfold plannable in Hp. apply orb_true_iff in Hp as [Hp|Hp];
      apply is_str_eq in Hp; tauto. }
  split.
  { unfold plannerItem, itemKeys. rewrite !dom_insert_L, dom_empty_L. set_solver. }
  split; [rewrite Htype; exact Hcases|].
  split.
  { rewrite Htitle. apply or_else_truthy. destruct Hcases as [-> | ->]; reflexivity. }
  split.
  { erewrite lookup_get by reflexivity. apply or_else_truthy. reflexivity. }
  split.
  { erewrite lookup_get by reflexivity. unfold or_else.
    destruct (truthy _) eqn:Et; [|discriminate]. intros Hu. rewrite Hu in Et. discriminate. }
  intros Hq title Ht. unfold TimeEstimator.categorizeAssignment.
  rewrite Ht, Hq. unfold or_else. cbn [truthy].
  destruct (negb (String.eqb title "")); reflexivity.
Qed.

(** X10. [normalizeTodoItems] turns every item of the list into one
    assignment, in order: the title is never empty ("Untitled" stands in),
    the type never missing ("assignment" stands in), the item is never
    marked completed, and the submission types and the description are
    never missing.  It throws only for a [null] or [undefined] item. *)
Theorem normalizeTodoItems_shape (items : list value) :
  match normalizeTodoItems (VArr items) with
  | Ok out =>
      out = map todoItem items
      /\ length out = length items
      /\ Forall (fun a =>
                   dom a = itemKeys
                   /\ truthy (get a "title") = true
                   /\ truthy (get a "type") = true
                   /\ get a "completed" = VBool false
                   /\ truthy (get a "submissionTypes") = true
                   /\ get a "description" <> VUndefined) out
  | Throw _ => Exists (fun item => nullish item = true) items
  end.
Proof.
  unfold normalizeTodoItems.
  destruct (forallb (fun item => negb (nullish item)) items) eqn:E.
  - split; [reflexivity|]. split; [apply length_map|].
    apply Forall_map. apply Forall_forall. intros item _. cbn beta.
    split.
    { unfold todoItem, itemKeys. rewrite !dom_insert_L, dom_empty_L. set_solver. }
    split; [erewrite lookup_get by reflexivity; apply or_else_truthy; reflexivity|].
    split; [erewrite lookup_get by reflexivity; apply or_else_truthy; reflexivity|].
    split; [apply lookup_get; reflexivity|].
    split; [erewrite lookup_get by reflexivity; apply or_else_truthy; reflexivity|].
    erewrite lookup_get by reflexivity. unfold or_else.
    destruct (truthy _) eqn:Et; [|discriminate]. intros Hu. rewrite Hu in Et. discriminate.
  - apply Exists_exists.
    assert (exists item, In item items /\ negb (nullish item) = false) as (item & Hin & Hn).
    { clear -E. induction items as [|i items IH]; [discriminate|].
      simpl in E. apply andb_false_iff in E as [E|E].
      - exists i. split; [left; reflexivity | exact E].
      - destruct (IH E) as (x & Hx & Hn). exists x. split; [right; exact Hx | exact Hn]. }
    exists item. split; [apply list_elem_of_In; exact Hin|].
    apply negb_false_iff in Hn. exact Hn.
Qed.


(** X11. What comes from the source is always scored within the bounds: for
    the items of a JSON answer, after either normalisation, the points are
    never NaN (a JSON number is finite), so every assignment whose title and
    type are texts gets a finite heuristic estimate between 15 and 480
    minutes. *)
Theorem fetched_items_in_range (body : string) (items : list value) (out : list obj) :
  JSON.parse body = Ok (VArr items) ->
  normalizePlannerItems (VArr items) = Ok out \/ normalizeTodoItems (VArr items) = Ok out ->
  Forall (fun a =>
            get a "pointsPossible" <> VNum NaN
            /\ forall title type,
                 textOf (get a "title") = Some title ->
                 textOf (get a "type") = Some type ->
                 exists q,
                   TimeEstimator.getHeuristicEstimate a = Ok (Finite q)
                   /\ (15 <= q)%Q /\ (q <= 480)%Q) out.
Proof.
  intros Hparse Hnorm. apply parse_Json in Hparse.
  inversion Hparse as [| | | |l Hitems|]; subst.
  assert (forall a, In a out ->
            exists item k, In item items
              /\ get a "pointsPossible" = opt_member (opt_member item k) "points_possible")
    as Hsrc.
  { destruct Hnorm as [Hn|Hn].
    - rewrite (normalizePlannerItems_ok items out Hn).
      intros a Ha. apply in_map_iff in Ha as (item & <- & Hin).
      apply List.filter_In in Hin as [Hin _]. exists item, "plannable".
      split; [exact Hin | apply lookup_get; reflexivity].
    - rewrite (normalizeTodoItems_ok items out Hn).
      intros a Ha. apply in_map_iff in Ha as (item & <- & Hin).
      exists item, "assignment". split; [exact Hin | apply lookup_get; reflexivity]. }
  apply Forall_forall. intros a Ha. apply list_elem_of_In in Ha.
  destruct (Hsrc a Ha) as (item & k & Hin & Hp).
  assert (get a "pointsPossible" <> VNum NaN) as Hnan.
  { rewrite Hp. apply Json_member2_not_NaN.
    rewrite Forall_forall in Hitems. apply Hitems, list_elem_of_In, Hin. }
  split; [exact Hnan|]. intros title type Ht Hy.
  exact (heuristic_in_range a title type Ht Hy Hnan).
Qed.

End CanvasMore.

(** the notifications shown, the earliest first *)
Definition notifications (w : World) : list obj :=
  omap (fun e => match e with ENotify o => Some o | _ => None end) (rev (trace w)).

Section Urgent.
Context `{Builtins}.
Import ServiceWorker.

Lemma notifications_record e w :
  notifications (record e w)
  = notifications w ++ match e with ENotify o => [o] | _ => [] end.
Proof.
  unfold notifications, record. simpl. rewrite omap_app. simpl.
  destruct e; reflexivity.
Qed.

Lemma isUrgent_spec now a :
  isUrgent now a = true
  <-> exists due, CanvasAPI.Date_of (get a "dueDate") = Some due
                  /\ now < due /\ due < now + 86400000.
Proof.
  unfold isUrgent. destruct (CanvasAPI.Date_of _) as [due|].
  - rewrite andb_true_iff, !Z.ltb_lt. split.
    + intros [H1 H2]. exists due. split; [reflexivity | lia].
    + intros (d & [= <-] & H1 & H2). lia.
  - split; [discriminate | intros (d & Hd & _); discriminate].
Qed.

(** X12. [checkForUrgentAssignments] never throws, sends no request and writes
    to no storage area.  It shows one notification when notifications are
    switched on and some assignment is due after now and less than 24 hours
    from now, with the number of such assignments in its message, and none
    otherwise. *)
Theorem checkForUrgentAssignments_notifies (assignments : list obj) (w : World) :
  let final := (checkForUrgentAssignments assignments w).2 in
  let now := clock w (S (length (trace w))) in
  let urgent := filter (fun a => isUrgent now a = true) assignments in
  (checkForUrgentAssignments assignments w).1 = Ok tt
  /\ sync_area final = sync_area w
  /\ local_area final = local_area w
  /\ local_writes final = local_writes w
  /\ fetches final = fetches w
  /\ (forall a, a ∈ urgent <->
        a ∈ assignments
        /\ exists due, CanvasAPI.Date_of (get a "dueDate") = Some due
                       /\ now < due /\ due < now + 86400000)
  /\ (if truthy (get (sync_area w) "showNotifications") && (0 <? length urgent)%nat
      then exists options,
             notifications final = notifications w ++ [options]
             /\ get options "message"
                = VStr ("You have " +:+ pretty (length urgent)
                        +:+ " assignment(s) due within 24 hours!")
      else notifications final = notifications w).
Proof.
  cbv zeta.
  destruct (calm_checkForUrgentAssignments assignments w) as (Hs & Hl & _ & _ & Hw & _).
  split; [apply checkForUrgentAssignments_ok|].
  split; [exact Hs|]. split; [exact Hl|]. split; [exact Hw|].
  assert (forall a, a ∈ filter (fun a => isUrgent (clock w (S (length (trace w)))) a = true)
                         assignments <->
            a ∈ assignments
            /\ exists due, CanvasAPI.Date_of (get a "dueDate") = Some due
                 /\ clock w (S (length (trace w))) < due
                 /\ due < clock w (S (length (trace w))) + 86400000) as Hmem.
  { intros a. rewrite list_elem_of_filter, isUrgent_spec. tauto. }
  set (now := clock w (S (length (trace w)))) in *.
  set (urgent := filter (fun a => isUrgent now a = true) assignments) in *.
  assert (exists options,
            get options "message"
            = VStr ("You have " +:+ pretty (length urgent)
                    +:+ " assignment(s) due within 24 hours!")
            /\ checkForUrgentAssignments assignments w
               = (Ok tt,
                  if truthy (get (sync_area w) "showNotifications")
                  then if (0 <? length urgent)%nat
                       then record (ENotify options)
                              (record ENow (record (ESyncGet ["showNotifications"]) w))
                       else record ENow (record (ESyncGet ["showNotifications"]) w)
                  else record (ESyncGet ["showNotifications"]) w))
    as (options & Hmsg & Hrun).
  { eexists. split.
    2: { unfold checkForUrgentAssignments.
         unfold bind at 1. unfold storage_sync_get at 1.
         rewrite get_pick by (apply list_elem_of_singleton; reflexivity).
         destruct (truthy (get (sync_area w) "showNotifications")); cbn [negb];
           [|reflexivity].
         unfold bind at 1. unfold Date_now at 1. cbn [trace record length].
         change (clock (record (ESyncGet ["showNotifications"]) w)) with (clock w).
         fold now. fold urgent.
         destruct (0 <? length urgent)%nat; reflexivity. }
    apply lookup_get. reflexivity. }
  rewrite Hrun. cbn [snd].
  destruct (truthy (get (sync_area w) "showNotifications")); cbn [andb].
  - destruct (0 <? length urgent)%nat.
    + rewrite !fetches_record, !notifications_record, !app_nil_r.
      split; [reflexivity|]. split; [exact Hmem|].
      exists options. split; [reflexivity | exact Hmsg].
    + rewrite !fetches_record, !notifications_record, !app_nil_r.
      split; [reflexivity|]. split; [exact Hmem | reflexivity].
  - rewrite !fetches_record, !notifications_record, !app_nil_r.
    split; [reflexivity|]. split; [exact Hmem | reflexivity].
Qed.

End Urgent.

(** what [getAssignments] answers from the world [w] *)
Definition servesCache `{Builtins} (getAssignments : M World value) (w : World) : Prop :=
  let cached := local_area w in
  let now := clock w (S (length (trace w))) in
  let cacheAge :=
    num_sub (num now) (ToNumber (or_else (get cached "lastUpdated") (VNum (num 0)))) in
  let fresh := truthy (get cached "cachedAssignments") && num_ltb cacheAge (num 300000) in
  exists answer w',
    getAssignments w = (Ok (VObj answer), w')
    /\ sync_area w' = sync_area w
    /\ get answer "fromCache" = VBool fresh
    /\ get answer "assignments" = or_else (get (local_area w') "cachedAssignments") (VArr [])
    /\ get answer "lastUpdated" = get (local_area w') "lastUpdated"
    /\ (fresh = true -> w' = record ENow (record (ELocalGet ServiceWorker.cacheKeys) w))
    /\ (fresh = false -> networkFails w ->
        local_area w' = local_area w /\ local_writes w' = local_writes w)
    /\ (forall t, get cached "lastUpdated" = VNum (num t) ->
          (fresh = true <->
           truthy (get cached "cachedAssignments") = true /\ now - t < 300000)).

(** what [handleMessage] answers from the world [w] *)
Definition answersMessages `{Builtins} (handleMessage : value -> M World value) (w : World)
  : Prop :=
  (forall message,
     nullish message = true ->
     exists msg, handleMessage message w = (Throw (TypeError msg), w))
  /\ (forall message type,
        member message "type" = Ok type ->
        (type = VStr "REFRESH_ASSIGNMENTS" ->
         exists w', handleMessage message w
                    = (Ok (VObj (<["success" := VBool true]> ∅)), w')
                    /\ sync_area w' = sync_area w)
        /\ (type = VStr "GET_CACHED_ASSIGNMENTS" ->
            handleMessage message w
            = (Ok (VObj (pick ServiceWorker.cacheKeys (local_area w))),
               record (ELocalGet ServiceWorker.cacheKeys) w))
        /\ (type = VStr "GET_ASSIGNMENTS" \/ type = VStr "TEST_CONNECTION" ->
            exists answer w', handleMessage message w = (Ok (VObj answer), w')
                              /\ sync_area w' = sync_area w)
        /\ (Forall (fun known => is_str type known = false)
                   ["GET_ASSIGNMENTS"; "REFRESH_ASSIGNMENTS"; "GET_CACHED_ASSIGNMENTS";
                    "ESTIMATE_SINGLE"; "TEST_CONNECTION"] ->
            handleMessage message w
            = (Ok (VObj (<["error" := VStr "Unknown message type"]> ∅)), w))).

Section Worker.
Context `{Builtins}.
Import ServiceWorker Design.

Lemma age_fresh now t :
  num_ltb (num_sub (num now) (num t)) (num 300000) = true <-> now - t < 300000.
Proof.
  unfold num_ltb, num_sub, num. rewrite negb_true_iff.
  split.
  - intros E. destruct (Z_lt_dec (now - t) 300000) as [Hlt|Hge]; [exact Hlt|].
    assert (Qle_bool (inject_Z 300000) (inject_Z now - inject_Z t) = true) as Hle; [|congruence].
    apply Qle_bool_iff. unfold Qle, Qminus, Qplus, Qopp, inject_Z. simpl. lia.
  - intros Hlt. destruct (Qle_bool _ _) eqn:E; [|reflexivity].
    apply Qle_bool_iff in E. unfold Qle, Qminus, Qplus, Qopp, inject_Z in E. simpl in E. lia.
Qed.

Lemma or_else_zero t : ToNumber (or_else (VNum (num t)) (VNum (num 0))) = num t.
Proof.
  unfold or_else. cbn [truthy num].
  destruct (Qeq_bool (inject_Z t) 0) eqn:E; cbn [negb ToNumber]; [|reflexivity].
  apply Qeq_bool_iff in E. unfold Qeq, inject_Z in E. simpl in E.
  assert (t = 0) as -> by lia. reflexivity.
Qed.

(** the URL the instance holds after [configure] is never empty *)
Lemma normalized_truthy s : truthy (VStr (normalized s)) = true.
Proof.
  cbn [truthy]. pose proof (normalized_includes s) as Hin.
  destruct (normalized s); [discriminate Hin | reflexivity].
Qed.

Lemma testCanvasConnection_run (url token : value) (w : World) :
  exists answer w',
    testCanvasConnection url token w = (Ok (VObj answer), w')
    /\ (get answer "success" = VBool true
        \/ get answer "success" = VBool false)
    /\ (get answer "success" = VBool true <->
        exists s user,
          url = VStr s /\ truthy token = true
          /\ requestOutcome
               (network w (length (trace w))
                  (canvasRequest {| CanvasAPI.baseUrl := VStr (normalized s);
                                    CanvasAPI.apiToken := token |} "/users/self"))
             = Ok user
          /\ truthy (opt_member user "id") = true)
    /\ ((forall s, url <> VStr s) -> w' = w /\ is_Some (answer !! "error"))
    /\ (exists sent, fetches w' = fetches w ++ sent /\ (length sent <= 1)%nat)
    /\ sync_area w' = sync_area w
    /\ local_area w' = local_area w
    /\ local_writes w' = local_writes w.
Proof.
  unfold testCanvasConnection, with_instance.
  destruct url as [| |b|n|s|l|o].
  5: {
    set (c := {| CanvasAPI.baseUrl := VStr (normalized s); CanvasAPI.apiToken := token |}).
    destruct (testConnection_run c w) as (b & w' & Hrun & Hiff & Hf & Hs & Hl & Hw).
    exists (<["success" := VBool b]> ∅), w'.
    split.
    { erewrite try_catchM_Ok; [reflexivity|].
      unfold bind at 1.
      assert (bind (CanvasAPI.configure (VStr s) token) (fun _ => CanvasAPI.testConnection)
                   (CanvasAPI.new_CanvasAPI, w) = (Ok b, (c, w'))) as ->.
      { erewrite bind_Ok by reflexivity. exact Hrun. }
      reflexivity. }
    assert (get (<["success" := VBool b]> (∅ : obj)) "success" = VBool b) as Hget
      by (apply lookup_get; reflexivity).
    rewrite Hget.
    split; [destruct b; tauto|].
    split.
    { split.
      - intros [= ->]. destruct (proj1 Hiff eq_refl) as ([_ Ht] & user & Hu & Hid).
        exists s, user. repeat split; assumption.
      - intros (s' & user & [= <-] & Ht & Hu & Hid). f_equal. apply Hiff.
        split; [split; [apply normalized_truthy | exact Ht]|].
        exists user. split; assumption. }
    split; [intros Hno; destruct (Hno s eq_refl)|].
    split.
    { rewrite Hf. eexists. split; [reflexivity|].
      destruct (_ && _); simpl; lia. }
    repeat split; assumption. }
  all: exists (<["success" := VBool false]> (<["error" := VStr "Cannot read properties: replace"]> ∅)), w.
  all: split; [reflexivity|].
  all: split; [right; apply lookup_get; reflexivity|].
  all: split; [split; [intros E; vm_compute in E; discriminate E
                      | intros (s & user & E & _); discriminate E]|].
  all: split; [intros _; split; [reflexivity | eexists; reflexivity]|].
  all: split; [exists []; rewrite app_nil_r; split; [reflexivity | simpl; lia]|].
  all: repeat split.
Qed.

(** a task that leaves the synced settings alone *)
Definition keeps_sync {A} (m : M World A) : Prop :=
  forall w, sync_area (m w).2 = sync_area w.

Lemma sync_ret {A} (a : A) : keeps_sync (ret a).
Proof. intros w. reflexivity. Qed.

Lemma sync_calm {A} (m : M World A) : calm m -> keeps_sync m.
Proof. intros Hm w. destruct (Hm w) as (Hs & _). exact Hs. Qed.

Lemma sync_bind {A B} (m : M World A) (f : A -> M World B) :
  keeps_sync m -> (forall a, keeps_sync (f a)) -> keeps_sync (bind m f).
Proof.
  intros Hm Hf w. unfold bind. specialize (Hm w).
  destruct (m w) as [[a|e] w1]; cbn [snd] in *; [rewrite Hf; exact Hm | exact Hm].
Qed.

Lemma sync_try_catchM {A} (m : M World A) h :
  keeps_sync m -> (forall e, keeps_sync (h e)) -> keeps_sync (try_catchM m h).
Proof.
  intros Hm Hh w. unfold try_catchM. specialize (Hm w).
  destruct (m w) as [[a|e] w1]; cbn [snd] in *; [exact Hm | rewrite Hh; exact Hm].
Qed.

Section Imported.
Variable new_estimator : TimeEstimator.Estimator.
Variable estimateAll : list obj -> TimeEstimator.Method (list obj).
Hypothesis estimateAll_quiet : forall raw, quietly (estimateAll raw).

Lemma refreshWith_run (w : World) :
  exists w',
    refreshWith new_estimator estimateAll w = (Ok tt, w')
    /\ sync_area w' = sync_area w
    /\ (networkFails w -> local_area w' = local_area w /\ local_writes w' = local_writes w).
Proof.
  pose proof (refreshWith_discipline new_estimator estimateAll estimateAll_quiet w) as Hd.
  unfold cacheDiscipline in Hd. cbv zeta in Hd.
  destruct Hd as (Hok & _ & _ & _ & Hnet & _).
  exists (refreshWith new_estimator estimateAll w).2.
  split; [rewrite <- Hok; apply surjective_pairing|].
  split; [|exact Hnet].
  revert w Hok Hnet. intros w _ _.
  apply sync_try_catchM; [|intros e; apply sync_ret].
  unfold refreshBody.
  apply sync_bind; [apply sync_calm, calm_sync_get|]. intros settings.
  destruct (_ || _); [apply sync_ret|].
  apply sync_bind; [apply sync_calm, calm_fetchTodoItems|]. intros raw.
  apply sync_bind; [apply sync_calm, calm_estimateItems, estimateAll_quiet|]. intros assignments.
  apply sync_bind; [apply sync_calm, calm_Date_now|]. intros now.
  apply sync_bind; [intros w0; reflexivity|]. intros _.
  apply sync_calm, calm_checkForUrgentAssignments.
Qed.

Lemma getAssignmentsWith_serves (w : World) :
  servesCache (getAssignmentsWith new_estimator estimateAll) w.
Proof.
  unfold servesCache. cbv zeta.
  set (cached := local_area w).
  set (now := clock w (S (length (trace w)))).
  set (age := num_sub (num now) (ToNumber (or_else (get cached "lastUpdated") (VNum (num 0))))).
  set (w2 := record ENow (record (ELocalGet cacheKeys) w)).
  assert (getAssignmentsWith new_estimator estimateAll w
          = if truthy (get cached "cachedAssignments") && num_ltb age (num 300000)
            then (Ok (VObj (<["assignments" := get cached "cachedAssignments"]>
                            (<["fromCache" := VBool true]>
                            (<["lastUpdated" := get cached "lastUpdated"]> ∅)))), w2)
            else
              let w3 := (refreshWith new_estimator estimateAll w2).2 in
              (Ok (VObj (<["assignments" :=
                            or_else (get (local_area w3) "cachedAssignments") (VArr [])]>
                         (<["fromCache" := VBool false]>
                         (<["lastUpdated" := get (local_area w3) "lastUpdated"]> ∅)))),
               record (ELocalGet cacheKeys) w3)) as Hrun.
  { unfold getAssignmentsWith.
    unfold bind at 1. unfold storage_local_get at 1.
    unfold bind at 1. unfold Date_now at 1. cbn [trace record length].
    change (clock (record (ELocalGet cacheKeys) w)) with (clock w). fold now.
    rewrite !get_pick by (unfold cacheKeys; set_solver). fold cached. fold age.
    change (5 * 60 * 1000) with 300000.
    destruct (_ && _); [reflexivity|].
    fold w2. cbv zeta.
    destruct (refreshWith_run w2) as (w3 & Hr & _).
    unfold bind at 1. rewrite Hr. cbn [snd].
    unfold bind at 1. unfold storage_local_get at 1.
    rewrite !get_pick by (unfold cacheKeys; set_solver). reflexivity. }
  rewrite Hrun. clear Hrun.
  assert (forall t, get cached "lastUpdated" = VNum (num t) ->
            (truthy (get cached "cachedAssignments") && num_ltb age (num 300000) = true <->
             truthy (get cached "cachedAssignments") = true /\ now - t < 300000)) as Hfresh.
  { intros t Ht. unfold age. rewrite Ht, or_else_zero, andb_true_iff, age_fresh. tauto. }
  destruct (truthy (get cached "cachedAssignments") && num_ltb age (num 300000)) eqn:Ef.
  - eexists _, w2. split; [reflexivity|].
    apply andb_true_iff in Ef as [Hc _].
    split; [reflexivity|]. split; [apply lookup_get; reflexivity|].
    split.
    { erewrite lookup_get by reflexivity.
      change (local_area w2) with cached. unfold or_else. rewrite Hc. reflexivity. }
    split; [apply lookup_get; reflexivity|].
    split; [reflexivity|]. split; [discriminate | exact Hfresh].
  - cbv zeta. destruct (refreshWith_run w2) as (w3 & Hr & Hs & Hnet).
    rewrite Hr. cbn [snd].
    eexists _, (record (ELocalGet cacheKeys) w3). split; [reflexivity|].
    split; [exact Hs|]. split; [apply lookup_get; reflexivity|].
    split; [apply lookup_get; reflexivity|].
    split; [apply lookup_get; reflexivity|].
    split; [discriminate|]. split; [|exact Hfresh].
    intros _ Hfail. destruct (Hnet Hfail) as [Hl Hw].
    cbn [local_area record]. rewrite local_writes_record, app_nil_r, Hw.
    unfold w2. rewrite !local_writes_record, !app_nil_r. split; [exact Hl | reflexivity].
Qed.

End Imported.

Section Messages.
Variable new_estimator : TimeEstimator.Estimator.
Variable configure : TimeEstimator.Method unit.
Variable estimateSingle : obj -> TimeEstimator.Method obj.
Variable estimateAll : list obj -> TimeEstimator.Method (list obj).
Hypothesis estimateAll_quiet : forall raw, quietly (estimateAll raw).

Lemma handleMessageWith_answers (w : World) :
  answersMessages (handleMessageWith new_estimator configure estimateSingle estimateAll) w.
Proof.
  unfold answersMessages. split.
  - intros message Hn. unfold handleMessageWith.
    destruct message; try discriminate Hn; eexists; reflexivity.
  - intros message type Hm.
    unfold handleMessageWith.
    erewrite bind_Ok by (unfold lift; rewrite Hm; reflexivity).
    split.
    { intros ->. cbn [is_str String.eqb Ascii.eqb Bool.eqb].
      destruct (refreshWith_run new_estimator estimateAll estimateAll_quiet w)
        as (w' & Hr & Hs & _).
      exists w'. split; [|exact Hs]. unfold bind. rewrite Hr. reflexivity. }
    split; [intros ->; reflexivity|].
    split.
    { intros [-> | ->].
      - destruct (getAssignmentsWith_serves new_estimator estimateAll estimateAll_quiet w)
          as (answer & w' & Hrun & Hs & _).
        exists answer, w'. split; [exact Hrun | exact Hs].
      - destruct (testCanvasConnection_run (opt_member message "url")
                    (opt_member message "token") w)
          as (answer & w' & Hrun & _ & _ & _ & _ & Hs & _).
        exists answer, w'. split; [exact Hrun | exact Hs]. }
    intros Hall. repeat (apply Forall_cons in Hall as [? Hall]).
    repeat match goal with E : is_str type _ = false |- _ => rewrite E; clear E end.
    reflexivity.
Qed.

End Messages.
End Worker.

Section WorkerTheorems.
Context `{Builtins}.
Import ServiceWorker Design.

(** X13. [testCanvasConnection] never throws and always answers with a
    [success] flag.  The flag is [true] exactly when the URL is a text, the
    token is not empty and the request for [/users/self] at the normalised
    URL succeeds with a user whose [id] is truthy.  A URL that is no text
    gives [success: false] with an error message and sends nothing; at most
    one request is sent, and no storage area is written. *)
Theorem testCanvasConnection_total (url token : value) (w : World) :
  exists answer w',
    testCanvasConnection url token w = (Ok (VObj answer), w')
    /\ (get answer "success" = VBool true
        \/ get answer "success" = VBool false)
    /\ (get answer "success" = VBool true <->
        exists s user,
          url = VStr s /\ truthy token = true
          /\ requestOutcome
               (network w (length (trace w))
                  (canvasRequest {| CanvasAPI.baseUrl := VStr (normalized s);
                                    CanvasAPI.apiToken := token |} "/users/self"))
             = Ok user
          /\ truthy (opt_member user "id") = true)
    /\ ((forall s, url <> VStr s) -> w' = w /\ is_Some (answer !! "error"))
    /\ (exists sent, fetches w' = fetches w ++ sent /\ (length sent <= 1)%nat)
    /\ sync_area w' = sync_area w
    /\ local_area w' = local_area w
    /\ local_writes w' = local_writes w.
Proof. exact (testCanvasConnection_run url token w). Qed.


(** X15. [handleMessage] throws a [TypeError] for a message that is [null] or
    [undefined].  ['REFRESH_ASSIGNMENTS'] is always answered [success: true],
    whether the refresh worked or not; ['GET_CACHED_ASSIGNMENTS'] answers the
    two cache entries as they are stored and does nothing else;
    ['GET_ASSIGNMENTS'] and ['TEST_CONNECTION'] never throw; a type that is
    none of the five known ones is answered [error: 'Unknown message type']
    with no effect at all.  This holds with either estimator behind the
    import. *)
Theorem handleMessage_answers (w : World) :
  answersMessages handleMessage w /\ answersMessages handleMessage_js w.
Proof.
  split.
  - exact (handleMessageWith_answers _ _ _ _ (fun raw => quietly_estimateAll raw) w).
  - exact (handleMessageWith_answers _ _ _ _ (fun raw => quietly_js_estimateAll raw) w).
Qed.

End WorkerTheorems.

Section Formatting.
Context `{Builtins}.
Import Helpers Popup.

Lemma rem_nonneg (q : Q) :
  (0 < q)%Q ->
  exists r, rem_by 60 (Finite q) = Finite r /\ (0 <= r)%Q.
Proof.
  intros Hq. unfold rem_by. eexists. split; [reflexivity|].
  rewrite <- (Qred_correct 0). apply Qred_le.
  destruct q as [n d]. unfold Qlt in Hq. simpl in Hq.
  assert (0 < n) as Hn by lia.
  cbn [Qnum Qden]. rewrite Z.quot_div_nonneg by lia.
  unfold Qle, Qminus, Qplus, Qopp, inject_Z. cbn [Qnum Qden].
  pose proof (Z.mul_div_le n (Zpos d * 60) ltac:(lia)) as Hle.
  change (Z.pos (d * 1)) with (Zpos d * 1). nia.
Qed.

Lemma positive_or_zero r :
  (0 <= r)%Q -> num_ltb (num 0) (Finite r) = negb (num_is (Finite r) 0).
Proof.
  intros Hr. unfold num_ltb, num_is, num. f_equal.
  destruct (Qeq_bool r (inject_Z 0)) eqn:E.
  - apply Qeq_bool_iff in E. apply Qle_bool_iff. rewrite E. apply Qle_refl.
  - destruct (Qle_bool r (inject_Z 0)) eqn:E2; [|reflexivity].
    apply Qle_bool_iff in E2. assert (r == inject_Z 0)%Q as Heq by (apply Qle_antisym; assumption).
    apply Qeq_bool_iff in Heq. congruence.
Qed.

Lemma integer_floor z : Math_floor (div_by 60 (num z)) = num (z / 60).
Proof. unfold Math_floor, div_by, num. rewrite <- Zdiv_Qdiv. reflexivity. Qed.

Lemma integer_rem z : 0 <= z -> rem_by 60 (num z) = num (z mod 60).
Proof.
  intros Hz. unfold rem_by, num. cbn [Qnum Qden inject_Z].
  rewrite Z.quot_div_nonneg by lia. change (1 * 60) with 60.
  rewrite <- (inject_Z_Qred (z mod 60)). f_equal. apply Qred_complete.
  rewrite Z.mod_eq by lia. unfold Qeq, Qminus, Qplus, Qopp, inject_Z. simpl. lia.
Qed.

Lemma integer_lt a b : num_ltb (num a) (num b) = (a <? b).
Proof.
  unfold num_ltb, num. destruct (Z.ltb_spec a b) as [Hlt|Hge].
  - apply negb_true_iff. destruct (Qle_bool _ _) eqn:E; [|reflexivity].
    apply Qle_bool_iff in E. unfold Qle, inject_Z in E. simpl in E. lia.
  - apply negb_false_iff. apply Qle_bool_iff. unfold Qle, inject_Z. simpl. lia.
Qed.

Lemma integer_le a b : num_leb (num a) (num b) = (a <=? b).
Proof.
  unfold num_leb, num. destruct (Z.leb_spec a b) as [Hle|Hgt].
  - apply Qle_bool_iff. unfold Qle, inject_Z. simpl. lia.
  - destruct (Qle_bool _ _) eqn:E; [|reflexivity].
    apply Qle_bool_iff in E. unfold Qle, inject_Z in E. simpl in E. lia.
Qed.

Lemma integer_is a b : num_is (num a) b = (a =? b).
Proof.
  unfold num_is, num. destruct (Z.eqb_spec a b) as [->|Hne].
  - apply Qeq_bool_iff. reflexivity.
  - destruct (Qeq_bool _ _) eqn:E; [|reflexivity].
    apply Qeq_bool_iff in E. unfold Qeq, inject_Z in E. simpl in E. lia.
Qed.

Lemma integer_truthy z : truthy (VNum (num z)) = negb (z =? 0).
Proof. cbn [truthy num]. f_equal. exact (integer_is z 0). Qed.

(** X16. The three renderings of an estimate agree on every positive finite
    number of minutes: [formatTimeEstimate] of the helpers, and [formatTime]
    of the assignment card and of the weekly summary.  For a whole number [z]
    of minutes they show [z] itself below an hour, and from an hour on the
    whole hours [z / 60], followed by the minutes [z mod 60] unless these are
    zero.  At [Infinity], the one positive number that is not finite, they
    differ: the helper shows "Infinityh NaNm", the card and the summary
    "Infinityh".  Without an estimate, NaN included, the helper and the card
    show a dash, where the summary shows "NaNh" for NaN; for zero and for
    negative numbers the helper shows the dash too, where the weekly summary
    prints the number. *)
Theorem formatTime_agree :
  (forall q, (0 < q)%Q ->
     cardTime (VNum (Finite q)) = formatTimeEstimate (VNum (Finite q))
     /\ summaryTime (VNum (Finite q)) = formatTimeEstimate (VNum (Finite q)))
  /\ (forall z, 0 < z ->
        formatTimeEstimate (VNum (num z))
        = if z <? 60 then Number_toString (inject_Z z) +:+ "m"
          else if z mod 60 =? 0 then Number_toString (inject_Z (z / 60)) +:+ "h"
          else Number_toString (inject_Z (z / 60)) +:+ "h "
               +:+ Number_toString (inject_Z (z mod 60)) +:+ "m")
  /\ (forall v, truthy v = false ->
        formatTimeEstimate v = Helpers.dash /\ cardTime v = Popup.dash)
  /\ (forall z, z <= 0 ->
        formatTimeEstimate (VNum (num z)) = Helpers.dash
        /\ summaryTime (VNum (num z)) = Number_toString (inject_Z z) +:+ "m")
  /\ formatTimeEstimate (VNum (Infinity false)) = "Infinityh NaNm"
  /\ cardTime (VNum (Infinity false)) = "Infinityh"
  /\ summaryTime (VNum (Infinity false)) = "Infinityh"
  /\ summaryTime (VNum NaN) = "NaNh".
Proof.
  split.
  { intros q Hq.
    assert (truthy (VNum (Finite q)) = true) as Ht.
    { cbn [truthy]. apply negb_true_iff. destruct (Qeq_bool q 0) eqn:E; [|reflexivity].
      apply Qeq_bool_iff in E. rewrite E in Hq. discriminate Hq. }
    assert (num_leb (Finite q) (num 0) = false) as Hle.
    { unfold num_leb, num. destruct (Qle_bool q (inject_Z 0)) eqn:E; [|reflexivity].
      apply Qle_bool_iff in E. destruct (Qlt_not_le _ _ Hq E). }
    unfold cardTime, summaryTime, formatTimeEstimate. cbn [ToNumber].
    rewrite Ht, Hle. cbn [negb orb].
    destruct (num_ltb (Finite q) (num 60)); [split; reflexivity|].
    destruct (rem_nonneg q Hq) as (r & -> & Hr).
    rewrite (positive_or_zero r Hr).
    destruct (num_is (Finite r) 0); split; reflexivity. }
  split.
  { intros z Hz. unfold formatTimeEstimate. cbn [ToNumber].
    rewrite integer_truthy, integer_le, integer_lt, integer_floor, integer_rem by lia.
    rewrite integer_is.
    destruct (Z.eqb_spec z 0); [lia|]. destruct (Z.leb_spec z 0); [lia|]. cbn [negb orb].
    reflexivity. }
  split.
  { intros v Hv. unfold formatTimeEstimate, cardTime. rewrite Hv. split; reflexivity. }
  split.
  { intros z Hz. unfold formatTimeEstimate, summaryTime. cbn [ToNumber].
    rewrite integer_le, integer_lt.
    destruct (Z.leb_spec z 0); [|lia]. rewrite orb_true_r.
    destruct (Z.ltb_spec z 60); [|lia]. split; reflexivity. }
  split; [reflexivity|]. split; [reflexivity|]. split; reflexivity.
Qed.

End Formatting.

Section Totals.
Context `{Builtins}.
Import Helpers.

Lemma total_from_text items : forall s,
  exists str,
    fold_left (fun sum a => js_add sum (or_else (get a "estimatedMinutes") (VNum (num 0))))
              items (VStr s) = VStr str.
Proof.
  induction items as [|a items IH]; intros s; [exists s; reflexivity|].
  cbn [fold_left]. unfold js_add at 2. apply IH.
Qed.

Lemma total_in_bounds items : forall t (n : Z),
  Forall (fun a => exists q, get a "estimatedMinutes" = VNum (Finite q)
                             /\ (15 <= q)%Q /\ (q <= 480)%Q) items ->
  (inject_Z (15 * n) <= t)%Q -> (t <= inject_Z (480 * n))%Q ->
  exists total,
    fold_left (fun sum a => js_add sum (or_else (get a "estimatedMinutes") (VNum (num 0))))
              items (VNum (Finite t)) = VNum (Finite total)
    /\ (inject_Z (15 * (n + Z.of_nat (length items))) <= total)%Q
    /\ (total <= inject_Z (480 * (n + Z.of_nat (length items))))%Q.
Proof.
  induction items as [|a items IH]; intros t n Hall Hlow Hhigh.
  - exists t. cbn [fold_left length]. rewrite Z.add_0_r. repeat split; assumption.
  - apply Forall_cons in Hall as [(q & Hq & Hq1 & Hq2) Hall].
    cbn [fold_left]. rewrite Hq.
    assert (or_else (VNum (Finite q)) (VNum (num 0)) = VNum (Finite q)) as ->.
    { unfold or_else. cbn [truthy]. destruct (Qeq_bool q 0) eqn:E; [|reflexivity].
      apply Qeq_bool_iff in E. rewrite E in Hq1. unfold Qle in Hq1. simpl in Hq1. lia. }
    cbn [js_add ToNumber num_add].
    destruct (IH (t + q)%Q (n + 1) Hall) as (total & Ht & H1 & H2).
    + rewrite Z.mul_add_distr_l, inject_Z_plus. apply Qplus_le_compat; assumption.
    + rewrite Z.mul_add_distr_l, inject_Z_plus. apply Qplus_le_compat; assumption.
    + exists total. split; [exact Ht|].
      replace (n + Z.of_nat (length (a :: items))) with (n + 1 + Z.of_nat (length items))
        by (cbn [length]; lia).
      split; assumption.
Qed.

(** X17. [calculateTotalTime] adds the estimates up, a missing one counting for
    nothing: over assignments whose estimates are numbers between 15 and 480
    the total is a number between 15 and 480 times their count.  One estimate
    that is a text (as an AI answer may hold) turns the total into a text,
    since [+] then concatenates. *)
Theorem calculateTotalTime_bounds (items : list obj) :
  calculateTotalTime [] = VNum (num 0)
  /\ (Forall (fun a => exists q, get a "estimatedMinutes" = VNum (Finite q)
                                 /\ (15 <= q)%Q /\ (q <= 480)%Q) items ->
      exists total,
        calculateTotalTime items = VNum (Finite total)
        /\ (inject_Z (15 * Z.of_nat (length items)) <= total)%Q
        /\ (total <= inject_Z (480 * Z.of_nat (length items)))%Q)
  /\ (forall a, get a "estimatedMinutes" = VUndefined \/ get a "estimatedMinutes" = VNull ->
        calculateTotalTime (a :: items) = calculateTotalTime items)
  /\ (forall before a s,
        get a "estimatedMinutes" = VStr s -> s <> "" ->
        exists text, calculateTotalTime (before ++ a :: items) = VStr text).
Proof.
  split; [reflexivity|]. split.
  { intros Hall. unfold calculateTotalTime, num.
    destruct (total_in_bounds items (inject_Z 0) 0 Hall) as (total & Ht & H1 & H2);
      [unfold Qle; simpl; lia | unfold Qle; simpl; lia |].
    exists total. split; [exact Ht | split; assumption]. }
  split.
  { intros a Ha. unfold calculateTotalTime. cbn [fold_left].
    assert (or_else (get a "estimatedMinutes") (VNum (num 0)) = VNum (num 0)) as ->
      by (destruct Ha as [-> | ->]; reflexivity).
    reflexivity. }
  intros before a s Ha Hs. unfold calculateTotalTime.
  rewrite fold_left_app. cbn [fold_left]. rewrite Ha.
  assert (or_else (VStr s) (VNum (num 0)) = VStr s) as ->.
  { unfold or_else. cbn [truthy]. destruct (String.eqb_spec s ""); [contradiction|reflexivity]. }
  set (sum := fold_left _ before _).
  assert (exists t, js_add sum (VStr s) = VStr t) as (t & ->)
    by (destruct sum; eexists; reflexivity).
  apply total_from_text.
Qed.

End Totals.

Section SortGeneral.
Import CanvasAPI.
Context {A : Type} (after : A -> A -> bool) (R : A -> A -> Prop) (P : A -> Prop).
Hypothesis before_R : forall x y, P x -> P y -> after x y = false -> R x y.
Hypothesis after_R : forall x y, P x -> P y -> after x y = true -> R y x.
Hypothesis R_trans : forall x y z, P x -> P y -> P z -> R x y -> R y z -> R x z.

Lemma sort_insert_rel x l :
  P x -> Forall P l -> StronglySorted R l -> StronglySorted R (sort_insert after x l).
Proof.
  intros Hx Hl Hs. induction Hs as [|y l Hs IH Hy]; simpl.
  - repeat constructor.
  - apply Forall_cons in Hl as [Py Pl].
    destruct (after x y) eqn:E.
    + constructor; [exact (IH Pl)|].
      eapply Permutation_Forall; [symmetry; apply sort_insert_perm|].
      constructor; [exact (after_R x y Hx Py E) | exact Hy].
    + constructor; [constructor; assumption|].
      constructor; [exact (before_R x y Hx Py E)|].
      rewrite Forall_forall in Hy, Pl |- *. intros z Hz.
      apply (R_trans x y z Hx Py (Pl z Hz) (before_R x y Hx Py E) (Hy z Hz)).
Qed.

Lemma Array_sort_rel l : Forall P l -> StronglySorted R (Array_sort after l).
Proof.
  induction l as [|x l IH]; intros Hl; [constructor|].
  apply Forall_cons in Hl as [Hx Hl]. cbn [Array_sort foldr].
  apply sort_insert_rel; [exact Hx | | exact (IH Hl)].
  eapply Permutation_Forall; [symmetry; apply Array_sort_perm | exact Hl].
Qed.

End SortGeneral.

Section SortByTime.
Context `{Builtins}.
Import Helpers.

(** the number [sortByEstimatedTime] reads off an assignment *)
Definition estimated (a : obj) : number :=
  ToNumber (or_else (get a "estimatedMinutes") (VNum (num 0))).

Definition finite (n : number) : Prop := exists q, n = Finite q.

Lemma sub_positive x y :
  num_ltb (num 0) (num_sub (Finite x) (Finite y)) = negb (num_leb (Finite x) (Finite y)).
Proof.
  unfold num_ltb, num_sub, num_leb, num. f_equal.
  destruct (Qle_bool x y) eqn:E.
  - apply Qle_bool_iff in E. apply Qle_bool_iff.
    unfold Qle, Qminus, Qplus, Qopp, inject_Z in *. simpl. lia.
  - destruct (Qle_bool (x - y) (inject_Z 0)) eqn:E2; [|reflexivity].
    apply Qle_bool_iff in E2. assert (Qle_bool x y = true); [|congruence].
    apply Qle_bool_iff. unfold Qle, Qminus, Qplus, Qopp, inject_Z in *. simpl in E2. lia.
Qed.

Lemma leb_total x y : num_leb (Finite x) (Finite y) = false -> num_leb (Finite y) (Finite x) = true.
Proof.
  unfold num_leb. intros E. apply Qle_bool_iff.
  destruct (Qlt_le_dec y x) as [Hlt|Hle]; [apply Qlt_le_weak; exact Hlt|].
  apply Qle_bool_iff in Hle. congruence.
Qed.

Lemma leb_trans x y z :
  num_leb (Finite x) (Finite y) = true -> num_leb (Finite y) (Finite z) = true ->
  num_leb (Finite x) (Finite z) = true.
Proof.
  unfold num_leb. rewrite !Qle_bool_iff. apply Qle_trans.
Qed.

(** X18. [sortByEstimatedTime] returns the assignments it was given, each as
    often as before.  When every estimate is a finite number or missing, the
    result is in descending order of the estimates, and in ascending order
    when ['asc'] is asked for. *)
Theorem sortByEstimatedTime_sorted (items : list obj) (order : value) :
  Permutation (sortByEstimatedTime items order) items
  /\ (Forall (fun a => finite (estimated a)) items ->
      StronglySorted
        (fun a b => if is_str order "asc"
                    then num_leb (estimated a) (estimated b) = true
                    else num_leb (estimated b) (estimated a) = true)
        (sortByEstimatedTime items order)).
Proof.
  split; [apply Array_sort_perm|].
  intros Hall. unfold sortByEstimatedTime.
  apply (Array_sort_rel _ _ (fun a => finite (estimated a))); [| | |exact Hall].
  - intros a b [x Hx] [y Hy]. unfold compareTime. fold (estimated a) (estimated b).
    rewrite Hx, Hy. destruct (is_str order "asc"); rewrite sub_positive, negb_false_iff; tauto.
  - intros a b [x Hx] [y Hy]. unfold compareTime. fold (estimated a) (estimated b).
    rewrite Hx, Hy. destruct (is_str order "asc"); rewrite sub_positive, negb_true_iff;
      apply leb_total.
  - intros a b c [x Hx] [y Hy] [z Hz]. rewrite Hx, Hy, Hz.
    destruct (is_str order "asc"); [apply leb_trans|].
    intros H1 H2. exact (leb_trans _ _ _ H2 H1).
Qed.

End SortByTime.

Section Truncate.

(** X19. [truncate] of the helpers keeps a text that fits.  A longer text is
    cut so that, with the suffix, it is exactly [maxLength] long; when the
    suffix alone is longer than [maxLength], the result is the suffix, and
    so longer than asked for. *)
Theorem helpers_truncate_length (text suffix : string) (maxLength : Z) :
  (Z.of_nat (String.length text) <= maxLength -> Helpers.truncate text maxLength suffix = text)
  /\ (maxLength < Z.of_nat (String.length text) -> text <> "" ->
      exists kept rest,
        Helpers.truncate text maxLength suffix = kept +:+ suffix
        /\ text = kept +:+ rest
        /\ (Z.of_nat (String.length suffix) <= maxLength ->
            Z.of_nat (String.length (Helpers.truncate text maxLength suffix)) = maxLength)
        /\ (maxLength <= Z.of_nat (String.length suffix) -> kept = "")).
Proof.
  unfold Helpers.truncate. split.
  - intros Hfit. apply Z.leb_le in Hfit. rewrite Hfit, orb_true_r. reflexivity.
  - intros Hlong Hne.
    destruct (String.eqb_spec text ""); [contradiction|].
    destruct (Z.leb_spec (Z.of_nat (String.length text)) maxLength); [lia|]. cbn [orb].
    set (cut := Z.to_nat (maxLength - Z.of_nat (String.length suffix))).
    assert (cut <= String.length text)%nat as Hn by (unfold cut; lia).
    destruct (substring_0_split cut text Hn) as (Hlen & rest & Hrest).
    exists (String.substring 0 cut text), rest.
    split; [reflexivity|]. split; [exact Hrest|]. split.
    + intros Hfit. rewrite length_append, Hlen. unfold cut. lia.
    + intros Hshort. assert (cut = 0%nat) as Hz by (unfold cut; lia).
      rewrite Hz. destruct text; reflexivity.
Qed.

End Truncate.

Section Urgency.
Context `{Builtins}.
Import Helpers.

Lemma hours_le k m :
  num_leb (div_by 3600000 (num k)) (num m) = (k <=? m * 3600000).
Proof.
  unfold num_leb, div_by, num.
  destruct (Z.leb_spec k (m * 3600000)) as [Hle|Hgt].
  - apply Qle_bool_iff. unfold Qle, Qdiv, Qmult, Qinv, inject_Z. simpl. lia.
  - destruct (Qle_bool _ _) eqn:E; [|reflexivity].
    apply Qle_bool_iff in E. unfold Qle, Qdiv, Qmult, Qinv, inject_Z in E. simpl in E. lia.
Qed.

Lemma hours_ge m k :
  num_leb (num m) (div_by 3600000 (num k)) = (m * 3600000 <=? k).
Proof.
  unfold num_leb, div_by, num.
  destruct (Z.leb_spec (m * 3600000) k) as [Hle|Hgt].
  - apply Qle_bool_iff. unfold Qle, Qdiv, Qmult, Qinv, inject_Z. simpl. lia.
  - destruct (Qle_bool _ _) eqn:E; [|reflexivity].
    apply Qle_bool_iff in E. unfold Qle, Qdiv, Qmult, Qinv, inject_Z in E. simpl in E. lia.
Qed.

Lemma hours_lt k m :
  num_ltb (div_by 3600000 (num k)) (num m) = (k <? m * 3600000).
Proof.
  transitivity (negb (num_leb (num m) (div_by 3600000 (num k)))); [reflexivity|].
  rewrite hours_ge. destruct (Z.leb_spec (m * 3600000) k), (Z.ltb_spec k (m * 3600000));
    first [reflexivity | lia].
Qed.

Lemma hours_gt m k :
  num_ltb (num m) (div_by 3600000 (num k)) = (m * 3600000 <? k).
Proof.
  transitivity (negb (num_leb (div_by 3600000 (num k)) (num m))); [reflexivity|].
  rewrite hours_le. destruct (Z.leb_spec k (m * 3600000)), (Z.ltb_spec (m * 3600000) k);
    first [reflexivity | lia].
Qed.

(** X20. The urgency helpers read the clock once and compare the due time with
    it, in milliseconds: [getUrgencyLevel] is "overdue" before now, "urgent"
    up to 24 hours from now, "soon" up to 72 hours, "normal" beyond;
    [isUrgent] holds strictly after now and up to 24 hours on, [isOverdue]
    strictly before now; so an assignment due this very instant is "urgent"
    though neither [isUrgent] nor [isOverdue].  Without a due date the level
    is "none" and the clock is not read; a due date that is no date is
    "normal", not urgent and not overdue.  The filter of the worker's
    notification agrees with [isUrgent] except exactly 24 hours ahead. *)
Theorem urgency_levels (dueDate : value) (w : World) :
  let now := clock w (length (trace w)) in
  (truthy dueDate = false ->
   getUrgencyLevel dueDate w = (Ok "none", w)
   /\ isUrgent dueDate w = (Ok false, w)
   /\ isOverdue dueDate w = (Ok false, w))
  /\ (truthy dueDate = true -> CanvasAPI.Date_of dueDate = None ->
      getUrgencyLevel dueDate w = (Ok "normal", record ENow w)
      /\ isUrgent dueDate w = (Ok false, record ENow w)
      /\ isOverdue dueDate w = (Ok false, record ENow w))
  /\ (forall due,
        truthy dueDate = true -> CanvasAPI.Date_of dueDate = Some due ->
        getUrgencyLevel dueDate w
        = (Ok (if due <? now then "overdue"
               else if due <=? now + 86400000 then "urgent"
               else if due <=? now + 259200000 then "soon"
               else "normal"), record ENow w)
        /\ isUrgent dueDate w = (Ok ((now <? due) && (due <=? now + 86400000)), record ENow w)
        /\ isOverdue dueDate w = (Ok (due <? now), record ENow w)
        /\ (forall a, get a "dueDate" = dueDate ->
              ServiceWorker.isUrgent now a = (now <? due) && (due <? now + 86400000))).
Proof.
  cbv zeta. split; [|split].
  - intros Hf. unfold getUrgencyLevel, isUrgent, isOverdue. rewrite Hf. repeat split.
  - intros Ht Hd. unfold getUrgencyLevel, isUrgent, isOverdue, hoursUntil.
    rewrite Ht, Hd. repeat split.
  - intros due Ht Hd.
    unfold getUrgencyLevel, isUrgent, isOverdue, hoursUntil. rewrite Ht.
    cbn [negb]. unfold bind, Date_now, ret. rewrite Hd.
    rewrite hours_lt, !hours_le, hours_gt.
    assert (forall x y : Z, (x - y <? 0 * 3600000) = (x <? y)) as E0
      by (intros; destruct (Z.ltb_spec (x - y) (0 * 3600000)), (Z.ltb_spec x y); lia).
    assert (forall x y : Z, (0 * 3600000 <? x - y) = (y <? x)) as E1
      by (intros; destruct (Z.ltb_spec (0 * 3600000) (x - y)), (Z.ltb_spec y x); lia).
    assert (forall x y : Z, (x - y <=? 24 * 3600000) = (x <=? y + 86400000)) as E2
      by (intros; destruct (Z.leb_spec (x - y) (24 * 3600000)), (Z.leb_spec x (y + 86400000));
          lia).
    assert (forall x y : Z, (x - y <=? 72 * 3600000) = (x <=? y + 259200000)) as E3
      by (intros; destruct (Z.leb_spec (x - y) (72 * 3600000)),
                           (Z.leb_spec x (y + 259200000)); lia).
    assert (forall x y : Z, (x - y <? 24 * 60 * 60 * 1000) = (x <? y + 86400000)) as E4
      by (intros; destruct (Z.ltb_spec (x - y) (24 * 60 * 60 * 1000)),
                           (Z.ltb_spec x (y + 86400000)); lia).
    rewrite E0, E1, E2, E3.
    split; [reflexivity|]. split; [reflexivity|]. split; [reflexivity|].
    intros a Ha. unfold ServiceWorker.isUrgent. rewrite Ha, Hd, E4.
    apply andb_comm.
Qed.

End Urgency.

Section HeuristicJS.
Context `{Builtins}.
Import TimeEstimator Design.

(** X21. The heuristic of the earlier JavaScript file stays within its bounds
    for every number of points, NaN included, and for missing points: it
    tests the points for truthiness, which NaN and zero fail, so the estimate
    is a finite number between 15 and 480 whenever the title and the type are
    texts and the submission types a list. *)
Theorem getHeuristicEstimate_js_range (a : obj) (title type : string) (types : list value) :
  textOf (get a "title") = Some title ->
  textOf (get a "type") = Some type ->
  arrayOf (get a "submissionTypes") = Some types ->
  (exists n, get a "pointsPossible" = VNum n) \/ nullish (get a "pointsPossible") = true ->
  exists q,
    TimeEstimatorJS.getHeuristicEstimate a = Ok (Finite q) /\ (15 <= q)%Q /\ (q <= 480)%Q.
Proof.
  intros Ht Hy Hs Hp. unfold TimeEstimatorJS.getHeuristicEstimate.
  rewrite (categorize_resolve a title type Ht Hy).
  change (Ok ?x ≫= ?f) with (f x). cbv beta zeta.
  pose proof (category_perPoint_pos _ (resolveCategory_cases title type)) as Hpos.
  set (rules := (lookupRule (resolveCategory title type)).1) in *.
  set (points := get a "pointsPossible") in *.
  assert (is_NaN (if truthy points
                  then num_add (num (base rules))
                         (num_mul (ToNumber points) (num (perPoint rules)))
                  else num (base rules)) = false) as Hbase.
  { destruct Hp as [[n Hn]|Hn].
    - rewrite Hn. destruct n as [|s|x]; [reflexivity| |].
      + cbn [truthy ToNumber]. apply is_NaN_points; [exact Hpos | reflexivity].
      + cbn [truthy ToNumber]. destruct (negb _); reflexivity.
    - destruct points; try discriminate Hn; reflexivity. }
  set (m := if truthy points then _ else _) in *.
  destruct (get a "submissionTypes") as [| | | | |l|]; try discriminate Hs;
    cbn [truthy TimeEstimatorJS.call_includes mbind result_bind];
    repeat match goal with
           | |- context [if array_includes ?l ?k then _ else _] =>
               destruct (array_includes l k)
           end;
    match goal with
    | |- exists q, Ok (Math_min (Math_max ?x _) _) = _ /\ _ =>
        destruct (clamp_in_range x) as (q & Hq & Hlow & Hhigh);
          [rewrite ?is_NaN_add_num; exact Hbase
          | exists q; rewrite Hq; auto]
    end.
Qed.

End HeuristicJS.

(** ** The properties above at the examples *)

Lemma estimateSingle_keeps_ai_minutes_witness :
  exists r s',
    @TimeEstimator.estimateSingle Examples.builtins Examples.finalEssay
      (TimeEstimator.new_TimeEstimator, Cases.localModel) = (Ok r, s')
    /\ r !! "estimatedMinutes" = Some (VNum (num 100000))
    /\ r !! "estimationMethod" = Some (VStr "ai").
Proof.
  set (start := (TimeEstimator.configure
                   (TimeEstimator.new_TimeEstimator, Cases.localModel)).2).
  destruct (@estimateSingle_keeps_ai_minutes Examples.builtins Examples.finalEssay
              TimeEstimator.new_TimeEstimator Cases.localModel
              (TimeEstimator.estimateOf (num 100000) (VStr "about 100000 minutes"))
              (VNum (num 100000))
              (@TimeEstimator.getAIEstimate Examples.builtins Examples.finalEssay start).2)
    as (r & s' & Hrun & Hmin & Hmethod & _).
  - vm_compute. reflexivity.
  - rewrite (surjective_pairing (TimeEstimator.getAIEstimate _ _)) at 1.
    f_equal; vm_compute; reflexivity.
  - vm_compute. reflexivity.
  - exists r, s'. split; [exact Hrun|]. split; [exact Hmin | exact Hmethod].
Defined.

Lemma getTodoItems_fallback_witness :
  Design.ready Examples.campusClient
  /\ exists items w',
       @CanvasAPI.getTodoItems Examples.builtins (Examples.campusClient, Examples.recovered)
       = (Ok items, (Examples.campusClient, w'))
       /\ map (fun a => get a "title") items = [VStr "Source essay"]
       /\ length (fetches w') = 1%nat.
Proof.
  assert (Design.ready Examples.campusClient) as Hready by (split; reflexivity).
  split; [exact Hready|].
  destruct (@getTodoItems_fallback Examples.builtins Examples.campusClient Examples.recovered
              Hready) as (w' & Hrun & Hsent & _).
  rewrite Hrun. eexists _, w'.
  split; [vm_compute; reflexivity|].
  split; [vm_compute; reflexivity | rewrite Hsent; vm_compute; reflexivity].
Defined.

Lemma fetched_items_in_range_witness :
  JSON.parse Examples.plannerBody = Ok (VArr Cases.plannerItems)
  /\ exists a q,
       @CanvasAPI.normalizePlannerItems Examples.builtins (VArr Cases.plannerItems) = Ok [a]
       /\ TimeEstimator.getHeuristicEstimate a = Ok (Finite q)
       /\ (15 <= q)%Q /\ (q <= 480)%Q.
Proof.
  assert (JSON.parse Examples.plannerBody = Ok (VArr Cases.plannerItems)) as Hparse
    by (vm_compute; reflexivity).
  split; [exact Hparse|].
  assert (exists a, @CanvasAPI.normalizePlannerItems Examples.builtins
                      (VArr Cases.plannerItems) = Ok [a]
                    /\ textOf (get a "title") = Some "Source essay"
                    /\ textOf (get a "type") = Some "assignment") as (a & Hnorm & Ht & Hy).
  { eexists. split; [vm_compute; reflexivity|]. split; vm_compute; reflexivity. }
  pose proof (@fetched_items_in_range Examples.builtins Examples.plannerBody
                Cases.plannerItems [a] Hparse (or_introl Hnorm)) as Hall.
  apply Forall_inv in Hall. destruct Hall as [_ Hrange].
  destruct (Hrange _ _ Ht Hy) as (q & Hq & Hlow & Hhigh).
  exists a, q. split; [exact Hnorm|]. split; [exact Hq|]. split; assumption.
Defined.

Lemma getHeuristicEstimate_js_range_witness :
  exists q,
    @TimeEstimatorJS.getHeuristicEstimate Examples.builtins Examples.nanPoints
    = Ok (Finite q) /\ (15 <= q)%Q /\ (q <= 480)%Q.
Proof.
  apply (@getHeuristicEstimate_js_range Examples.builtins Examples.nanPoints
           "Homework 3" "" []); [reflexivity | reflexivity | reflexivity|].
  left. exists NaN. reflexivity.
Defined.
